(** * range_dataset_ui.py: the dataset renumbering worker

    A shallow embedding of [FileProcessingThread.run]
    (src/process_voc_dataset/range_dataset_ui.py, lines 25-110) and the
    properties of it that the specification states.

    Modelling choices.
    - A Python [str] is kept as the byte string of its UTF-8 encoding.  Every
      use the worker makes of a file name is insensitive to the difference:
      [sorted] compares by code point, which is the byte order of UTF-8;
      [splitext] looks for the ASCII characters [.] and [/] only; and the two
      [lower()] calls are only compared with ASCII literals ('.xml', '.jpg',
      '.jpeg', '.png'), which no non-ASCII character lower-cases into, so
      lower-casing the ASCII letters decides them.
    - [os.path] is [posixpath].
    - The file system is a finite map from directory paths to directories, a
      directory being a finite map from entry names to nodes.  A path is the
      pair (directory, entry) that the source hands to [os.path.join].
      Sub-directories are opaque nodes.
    - A regular file holds either a well-formed XML document, kept as the
      element tree that [ET.parse] returns for it, or anything else, kept as
      the message of the [ParseError] it raises.
    - The worker's local variables [errorList] and [currentProgress] live in
      the threaded state, so that what a [try] block changed before it raised
      is still there in the handler, as in Python. *)

From Stdlib Require Import Ascii.
From stdpp Require Import gmap strings list fin_maps pretty sorting.

Open Scope string_scope.

(** ** Strings *)

Module Str.

(** [str.lower()], on the ASCII letters. *)
Definition lower_char (c : ascii) : ascii :=
  let n := nat_of_ascii c in
  if ((65 <=? n) && (n <=? 90))%nat then ascii_of_nat (n + 32) else c.

Fixpoint lower (s : string) : string :=
  match s with
  | EmptyString => EmptyString
  | String c r => String (lower_char c) (lower r)
  end.

(** [s.endswith(suffix)] *)
Definition endswith (s suffix : string) : bool :=
  let n := String.length s in
  let k := String.length suffix in
  (k <=? n)%nat && String.eqb (String.substring (n - k) k s) suffix.

(** [s.startswith(prefix)] *)
Definition startswith (s prefix : string) : bool := String.prefix prefix s.

(** [s.rfind(c)] for a one-character [c]: the highest index of [c] in
    [s], or -1. *)
Fixpoint rfind_from (i : nat) (c : ascii) (s : string) : Z :=
  match s with
  | EmptyString => (-1)%Z
  | String d r =>
      let j := rfind_from (S i) c r in
      if (0 <=? j)%Z then j
      else if Ascii.eqb d c then Z.of_nat i else (-1)%Z
  end.

Definition rfind (s : string) (c : ascii) : Z := rfind_from 0 c s.

(** [s[:i]] and [s[i:]] for [0 <= i]. *)
Definition slice_to (s : string) (i : nat) : string := String.substring 0 i s.
Definition slice_from (s : string) (i : nat) : string :=
  String.substring i (String.length s - i) s.

(** [sep.join(l)] *)
Fixpoint join (sep : string) (l : list string) : string :=
  match l with
  | [] => ""
  | [x] => x
  | x :: r => x ++ sep ++ join sep r
  end.

(** [sub in s] *)
Definition contains (s sub : string) : Prop :=
  ∃ pre post : string, s = pre ++ sub ++ post.

End Str.

(** ** os.path (posixpath) *)

Module os_path.

(** The loop of [genericpath._splitext] that skips leading dots: starting
    at [filenameIndex], is there a character other than [.] among the next
    [n] ones? *)
Fixpoint nondot_before (p : string) (filenameIndex n : nat) : bool :=
  match n with
  | O => false
  | S n' =>
      match String.get filenameIndex p with
      | Some c =>
          if Ascii.eqb c "." then nondot_before p (S filenameIndex) n'
          else true
      | None => true
      end
  end.

(** [os.path.splitext(p)] *)
Definition splitext (p : string) : string * string :=
  let sepIndex := Str.rfind p "/" in
  let dotIndex := Str.rfind p "." in
  if (sepIndex <? dotIndex)%Z then
    let filenameIndex := Z.to_nat (sepIndex + 1) in
    if nondot_before p filenameIndex (Z.to_nat dotIndex - filenameIndex)
    then (Str.slice_to p (Z.to_nat dotIndex),
          Str.slice_from p (Z.to_nat dotIndex))
    else (p, "")
  else (p, "").

(** [os.path.join(a, b)] *)
Definition join (a b : string) : string :=
  if Str.startswith b "/" then b
  else if String.eqb a "" || Str.endswith a "/" then a ++ b
  else a ++ "/" ++ b.

End os_path.

(** ** xml.etree.ElementTree *)

Module ET.

#[local] Unset Elimination Schemes.
Inductive Element : Type :=
  mkElement {
      tag : string;
      attrib : list (string * string);
      text : option string;
      tail : option string;
      children : list Element
    }.
#[local] Set Elimination Schemes.

(** A reference to a child of the root, as [root.find] and [SubElement]
    return one, is the child's position. *)

Fixpoint find_from (i : nat) (l : list Element) (t : string) : option nat :=
  match l with
  | [] => None
  | e :: r => if String.eqb (tag e) t then Some i else find_from (S i) r t
  end.

(** [root.find(t)] for a plain tag [t]: the first child with that tag. *)
Definition find (root : Element) (t : string) : option nat :=
  find_from 0 (children root) t.

(** [ET.SubElement(root, t)]: a new empty child appended to the root. *)
Definition SubElement (root : Element) (t : string) : Element * nat :=
  (mkElement (tag root) (attrib root) (text root) (tail root)
     (children root ++ [mkElement t [] None None []]),
   length (children root)).

(** [child.text = s], for the child at position [i] of the root. *)
Definition set_text (root : Element) (i : nat) (s : string) : Element :=
  mkElement (tag root) (attrib root) (text root) (tail root)
    (alter (λ e, mkElement (tag e) (attrib e) (Some s) (tail e) (children e))
       i (children root)).

(** The text of the first child with tag [t]. *)
Definition child_text (root : Element) (t : string) : option (option string) :=
  i ← find root t; e ← children root !! i; Some (text e).

End ET.

(** ** The file system *)

Inductive content : Type :=
  | Xml (root : ET.Element)
  | NotXml (parse_error : string).

Inductive node : Type :=
  | File (c : content)
  | Dir.

Abbreviation path := (string * string)%type.

Definition path_str (p : path) : string := os_path.join p.1 p.2.

Inductive syscall : Type :=
  | SysIsdir (d : string)
  | SysListdir (d : string)
  | SysParse (p : path)
  | SysWrite (p : path)
  | SysExists (p : path)
  | SysRemove (p : path)
  | SysRename (src dst : path).

(** ** Exceptions *)

Inductive exn_class : Type :=
  | FileNotFoundError | IsADirectoryError | NotADirectoryError | OSError
  | ValueError | ParseError.

Inductive exn : Type := Exception (cls : exn_class) (msg : string).

(** [str(e)] *)
Definition str (e : exn) : string := match e with Exception _ s => s end.

Definition quoted (s : string) : string := "'" ++ s ++ "'".

Definition ENOENT (p : path) : exn :=
  Exception FileNotFoundError
    ("[Errno 2] No such file or directory: " ++ quoted (path_str p)).
Definition ENOENT2 (src dst : path) : exn :=
  Exception FileNotFoundError
    ("[Errno 2] No such file or directory: " ++ quoted (path_str src)
       ++ " -> " ++ quoted (path_str dst)).
Definition EISDIR (p : path) : exn :=
  Exception IsADirectoryError
    ("[Errno 21] Is a directory: " ++ quoted (path_str p)).
Definition EISDIR2 (src dst : path) : exn :=
  Exception IsADirectoryError
    ("[Errno 21] Is a directory: " ++ quoted (path_str src)
       ++ " -> " ++ quoted (path_str dst)).
Definition ENOTEMPTY2 (src dst : path) : exn :=
  Exception OSError
    ("[Errno 39] Directory not empty: " ++ quoted (path_str src)
       ++ " -> " ++ quoted (path_str dst)).
Definition ENOTDIR2 (src dst : path) : exn :=
  Exception NotADirectoryError
    ("[Errno 20] Not a directory: " ++ quoted (path_str src)
       ++ " -> " ++ quoted (path_str dst)).

(** ** Signals and the threaded state *)

Inductive signal : Type :=
  | progressUpdated (current total : nat)
  | logOutput (msg : string)
  | processingFinished (success : bool) (msg : string).

Record state : Type :=
  mkState {
      fs : gmap string (gmap string node);
      syscalls : list syscall;
      emitted : list signal;
      errorList : list string;
      currentProgress : nat
    }.

Definition initial (files : gmap string (gmap string node)) : state :=
  mkState files [] [] [] 0.

Definition set_fs (f : gmap string (gmap string node)) (s : state) : state :=
  mkState f (syscalls s) (emitted s) (errorList s) (currentProgress s).
Definition called (c : syscall) (s : state) : state :=
  mkState (fs s) (syscalls s ++ [c]) (emitted s) (errorList s)
    (currentProgress s).
Definition emitting (g : signal) (s : state) : state :=
  mkState (fs s) (syscalls s) (emitted s ++ [g]) (errorList s)
    (currentProgress s).

Definition entry (f : gmap string (gmap string node)) (p : path) : option node :=
  d ← f !! p.1; d !! p.2.

Definition put_entry (p : path) (n : node)
    (f : gmap string (gmap string node)) : gmap string (gmap string node) :=
  alter (insert p.2 n) p.1 f.

Definition del_entry (p : path)
    (f : gmap string (gmap string node)) : gmap string (gmap string node) :=
  alter (delete p.2) p.1 f.

(** ** The monad: state, with exceptions that keep the state *)

Inductive result (A : Type) : Type :=
  | Ok (a : A)
  | Raise (e : exn).
Arguments Ok {A} a.
Arguments Raise {A} e.

Definition M (A : Type) : Type := state → result A * state.

Definition ret {A} (a : A) : M A := λ s, (Ok a, s).
Definition raise {A} (e : exn) : M A := λ s, (Raise e, s).
Definition bind {A B} (m : M A) (k : A → M B) : M B :=
  λ s, match m s with
       | (Ok a, s') => k a s'
       | (Raise e, s') => (Raise e, s')
       end.
Definition try_except {A} (m : M A) (handler : exn → M A) : M A :=
  λ s, match m s with
       | (Ok a, s') => (Ok a, s')
       | (Raise e, s') => handler e s'
       end.

Declare Scope py_scope.
Delimit Scope py_scope with py.
Notation "x <- m ;; k" := (bind m (λ x, k))
  (at level 100, m at next level, right associativity) : py_scope.
Notation "m ;; k" := (bind m (λ _, k))
  (at level 100, right associativity) : py_scope.
Open Scope py_scope.

Definition modify (f : state → state) : M unit := λ s, (Ok tt, f s).
Definition gets {A} (f : state → A) : M A := λ s, (Ok (f s), s).

Definition emit (g : signal) : M unit := modify (emitting g).

(** ** File-system calls

    Each call is recorded in [syscalls], then acts on [fs]. *)

(** [os.path.isdir(d)] *)
Definition os_path_isdir (d : string) : M bool :=
  λ s, (Ok (bool_decide (is_Some (fs s !! d))), called (SysIsdir d) s).

(** [os.listdir(d)]: the entry names, in some order. *)
Definition listing (es : gmap string node) : list string := (map_to_list es).*1.

Definition os_listdir (d : string) : M (list string) :=
  λ s, match fs s !! d with
       | Some es => (Ok (listing es), called (SysListdir d) s)
       | None =>
           (Raise (Exception FileNotFoundError
                     ("[Errno 2] No such file or directory: " ++ quoted d)),
            called (SysListdir d) s)
       end.

(** [ET.parse(p).getroot()] *)
Definition ET_parse (p : path) : M ET.Element :=
  λ s, let s' := called (SysParse p) s in
       match entry (fs s) p with
       | Some (File (Xml root)) => (Ok root, s')
       | Some (File (NotXml err)) => (Raise (Exception ParseError err), s')
       | Some Dir => (Raise (EISDIR p), s')
       | None => (Raise (ENOENT p), s')
       end.

(** [tree.write(p, encoding='utf-8', xml_declaration=True)] for the tree
    with root [root]: the file at [p] is created or replaced. *)
Definition ET_write (p : path) (root : ET.Element) : M unit :=
  λ s, let s' := called (SysWrite p) s in
       match fs s !! p.1 with
       | None => (Raise (ENOENT p), s')
       | Some es =>
           match es !! p.2 with
           | Some Dir => (Raise (EISDIR p), s')
           | _ => (Ok tt, set_fs (put_entry p (File (Xml root)) (fs s)) s')
           end
       end.

(** [os.path.exists(p)] *)
Definition os_path_exists (p : path) : M bool :=
  λ s, (Ok (bool_decide (is_Some (entry (fs s) p))), called (SysExists p) s).

(** [os.remove(p)] *)
Definition os_remove (p : path) : M unit :=
  λ s, let s' := called (SysRemove p) s in
       match entry (fs s) p with
       | Some (File _) => (Ok tt, set_fs (del_entry p (fs s)) s')
       | Some Dir => (Raise (EISDIR p), s')
       | None => (Raise (ENOENT p), s')
       end.

(** [os.rename(src, dst)].  A sub-directory is opaque: renaming one moves
    its entry only, and what [fs] may hold under the path of the
    sub-directory itself is not moved with it, so that this follows
    [os.rename] where the source is a file.  A sub-directory is taken not to
    give way to another one renamed onto it. *)
Definition os_rename (src dst : path) : M unit :=
  λ s, let s' := called (SysRename src dst) s in
       match entry (fs s) src, fs s !! dst.1 with
       | None, _ | _, None => (Raise (ENOENT2 src dst), s')
       | Some n, Some es =>
           let move := set_fs (put_entry dst n (del_entry src (fs s))) s' in
           match n, es !! dst.2 with
           | _, None => (Ok tt, move)
           | File _, Some (File _) => (Ok tt, move)
           | File _, Some Dir => (Raise (EISDIR2 src dst), s')
           | Dir, Some (File _) => (Raise (ENOTDIR2 src dst), s')
           | Dir, Some Dir =>
               if decide (src = dst) then (Ok tt, s')
               else (Raise (ENOTEMPTY2 src dst), s')
           end
       end.

(** ** FileProcessingThread.run *)

(** [self.allowedImgExts] (line 23) *)
Definition allowedImgExts : gset string := {[ ".jpg"; ".jpeg"; ".png" ]}.

(** The two filters of lines 35-39. *)
Definition is_ann (f : string) : bool := Str.endswith (Str.lower f) ".xml".
Definition is_img (f : string) : bool :=
  bool_decide (Str.lower (os_path.splitext f).2 ∈ allowedImgExts).

(** [sorted(l)] on strings: ascending, code point by code point. *)
Definition sorted (l : list string) : list string := merge_sort String.le l.

Definition set_errorList (l : list string) : M unit :=
  modify (λ s, mkState (fs s) (syscalls s) (emitted s) l (currentProgress s)).
Definition set_currentProgress (n : nat) : M unit :=
  modify (λ s, mkState (fs s) (syscalls s) (emitted s) (errorList s) n).

(** [errorList.append(msg)] *)
Definition errorList_append (msg : string) : M unit :=
  l <- gets errorList ;; set_errorList (l ++ [msg]).

(** [currentProgress += 1; self.progressUpdated.emit(currentProgress, totalSteps)] *)
Definition advance (totalSteps : nat) : M unit :=
  c <- gets currentProgress ;;
  set_currentProgress (c + 1) ;;
  c <- gets currentProgress ;;
  emit (progressUpdated c totalSteps).

(** Lines 29-47: the directory checks and the pair builder.  Returns
    [pairs] and [totalSteps]. *)
Definition build_pairs (annDir imgDir : string)
    : M (list (string * string) * nat) :=
  a <- os_path_isdir annDir ;;
  (if negb a
   then raise (Exception FileNotFoundError
                 ("标签(Annotations)文件夹不存在：" ++ annDir))
   else ret tt) ;;
  i <- os_path_isdir imgDir ;;
  (if negb i
   then raise (Exception FileNotFoundError
                 ("图片(JPEGImages)文件夹不存在：" ++ imgDir))
   else ret tt) ;;
  annEntries <- os_listdir annDir ;;
  let annList := sorted (filter (λ f, is_ann f) annEntries) in
  imgEntries <- os_listdir imgDir ;;
  let imgList := sorted (filter (λ f, is_img f) imgEntries) in
  (if negb (length annList =? length imgList)%nat
   then raise (Exception ValueError
                 ("标签文件数量(" ++ pretty (length annList)
                    ++ ")与图片文件数量(" ++ pretty (length imgList)
                    ++ ")不一致！"))
   else ret tt) ;;
  let pairs := zip annList imgList in
  let totalSteps := length pairs * 3 in
  set_currentProgress 0 ;;
  currentProgress <- gets currentProgress ;;
  emit (progressUpdated currentProgress totalSteps) ;;
  emit (logOutput ("共找到 " ++ pretty (length pairs) ++ " 对文件")) ;;
  ret (pairs, totalSteps).

(** [root.find(t)], and [ET.SubElement(root, t)] when that is [None]
    (lines 61-63 and 66-68). *)
Definition find_or_create (root : ET.Element) (t : string) : ET.Element * nat :=
  match ET.find root t with
  | Some i => (root, i)
  | None => ET.SubElement root t
  end.

(** Lines 60-69: the two fields of the record. *)
Definition patch (imgDir : string) (idx : nat) (img_ext : string)
    (root : ET.Element) : ET.Element :=
  let '(root, filenameElem) := find_or_create root "filename" in
  let root := ET.set_text root filenameElem (pretty idx ++ img_ext) in
  let '(root, pathElem) := find_or_create root "path" in
  ET.set_text root pathElem (os_path.join imgDir (pretty idx ++ img_ext)).

(** Lines 58-74: the body of the first [try]. *)
Definition update_annotation (annDir imgDir : string) (totalSteps idx : nat)
    (annFile img_ext : string) : M unit :=
  let annPath := (annDir, annFile) in
  root <- ET_parse annPath ;;
  ET_write annPath (patch imgDir idx img_ext root) ;;
  advance totalSteps ;;
  emit (logOutput ("更新标签文件内容：" ++ annFile)).

(** Lines 81-87: the body of the second [try]. *)
Definition rename_annotation (annDir : string) (totalSteps idx : nat)
    (annFile : string) : M unit :=
  let annPath := (annDir, annFile) in
  let newAnnPath := (annDir, pretty idx ++ ".xml") in
  e <- os_path_exists newAnnPath ;;
  (if e then os_remove newAnnPath else ret tt) ;;
  os_rename annPath newAnnPath ;;
  advance totalSteps ;;
  emit (logOutput ("重命名标签文件为：" ++ pretty idx ++ ".xml")).

(** Lines 93-99: the body of the third [try]. *)
Definition rename_image (imgDir : string) (totalSteps idx : nat)
    (imgFile img_ext : string) : M unit :=
  let imgPath := (imgDir, imgFile) in
  let newImgPath := (imgDir, pretty idx ++ img_ext) in
  e <- os_path_exists newImgPath ;;
  (if e then os_remove newImgPath else ret tt) ;;
  os_rename imgPath newImgPath ;;
  advance totalSteps ;;
  emit (logOutput ("重命名图片文件为：" ++ pretty idx ++ img_ext)).

(** Lines 50-101: the body of the [for] loop.  The [continue] of line 77
    is the [false] branch. *)
Definition process_pair (annDir imgDir : string) (totalSteps idx : nat)
    (annFile imgFile : string) : M unit :=
  let img_ext := Str.lower (os_path.splitext imgFile).2 in
  patched <-
    try_except
      (update_annotation annDir imgDir totalSteps idx annFile img_ext ;;
       ret true)
      (λ e, errorList_append
              ("更新标签 " ++ annFile ++ " 时出错：" ++ str e) ;;
            ret false) ;;
  if patched : bool then
    try_except
      (rename_annotation annDir totalSteps idx annFile)
      (λ e, errorList_append
              ("重命名标签 " ++ annFile ++ " 时出错：" ++ str e)) ;;
    try_except
      (rename_image imgDir totalSteps idx imgFile img_ext)
      (λ e, errorList_append
              ("重命名图片 " ++ imgFile ++ " 时出错：" ++ str e))
  else ret tt.

(** [for idx, (annFile, imgFile) in enumerate(pairs, idx): ...] *)
Fixpoint for_pairs (annDir imgDir : string) (totalSteps idx : nat)
    (pairs : list (string * string)) : M unit :=
  match pairs with
  | [] => ret tt
  | (annFile, imgFile) :: rest =>
      process_pair annDir imgDir totalSteps idx annFile imgFile ;;
      for_pairs annDir imgDir totalSteps (S idx) rest
  end.

(** Lines 103-107: the final message. *)
Definition summary (npairs : nat) (errorList : list string) : string :=
  let msg := "文件统一转换完成，共处理 " ++ pretty npairs ++ " 对文件" in
  if negb (length errorList =? 0)%nat then
    let msg := msg ++ "
部分错误：
" ++ Str.join "
" (take 5 errorList) in
    if (5 <? length errorList)%nat then
      msg ++ "
……还有 " ++ pretty (length errorList - 5) ++ " 个错误"
    else msg
  else msg.

(** Lines 49-108: the loop and the final signal. *)
Definition process_pairs (annDir imgDir : string)
    (pairs : list (string * string)) (totalSteps : nat) : M unit :=
  for_pairs annDir imgDir totalSteps 1 pairs ;;
  errorList <- gets errorList ;;
  emit (processingFinished (length errorList =? 0)%nat
          (summary (length pairs) errorList)).

(** Lines 26-110. *)
Definition run (annDir imgDir : string) : M unit :=
  set_errorList [] ;;
  try_except
    (built <- build_pairs annDir imgDir ;;
     let '(pairs, totalSteps) := built in
     process_pairs annDir imgDir pairs totalSteps)
    (λ e, emit (processingFinished false ("严重错误：" ++ str e))).

(** ** Notions the properties are stated with *)

(** The candidate lists of lines 35-39, for the entries of a directory. *)
Definition annList_of (es : gmap string node) : list string :=
  sorted (filter (λ f, is_ann f) (listing es)).
Definition imgList_of (es : gmap string node) : list string :=
  sorted (filter (λ f, is_img f) (listing es)).

(** [errorList = []] (line 26), as a state change. *)
Definition reset (s : state) : state :=
  mkState (fs s) (syscalls s) (emitted s) [] (currentProgress s).

(** [errorList.append(msg)], as a state change. *)
Definition recorded (msg : string) (s : state) : state :=
  mkState (fs s) (syscalls s) (emitted s) (errorList s ++ [msg])
    (currentProgress s).

(** [currentProgress += 1], the progress signal and the log line, as a state
    change. *)
Definition advanced (totalSteps : nat) (line : string) (s : state) : state :=
  emitting (logOutput line)
    (emitting (progressUpdated (currentProgress s + 1) totalSteps)
       (mkState (fs s) (syscalls s) (emitted s) (errorList s)
          (currentProgress s + 1))).

(** The state after file-system calls [cs] that left [f] on disk. *)
Definition after (cs : list syscall) (f : gmap string (gmap string node))
    (s : state) : state :=
  mkState f (syscalls s ++ cs) (emitted s) (errorList s) (currentProgress s).

(** Lines 82-84 and 94-96: remove what is at the destination, then rename. *)
Definition replace_by_rename (src dst : path) : M unit :=
  e <- os_path_exists dst ;;
  (if e then os_remove dst else ret tt) ;;
  os_rename src dst.

(** Lines 58-71: the file-system part of the patch step. *)
Definition parse_patch_write (annDir imgDir : string) (idx : nat)
    (annFile img_ext : string) : M unit :=
  root <- ET_parse (annDir, annFile) ;;
  ET_write (annDir, annFile) (patch imgDir idx img_ext root).

(** A sub-step is its file-system part, then the progress signal and the
    log line. *)
Definition then_advance (m : M unit) (totalSteps : nat) (line : string) : M unit :=
  λ s, match m s with
       | (Ok _, s1) => (Ok tt, advanced totalSteps line s1)
       | (Raise e, s1) => (Raise e, s1)
       end.

(** One [try: ... except Exception as e: errorList.append(...)] around a
    sub-step: it advances, or it records one error. *)
Definition attempt (m : M unit) (totalSteps : nat) (line : string)
    (report : exn → string) : M unit :=
  try_except (then_advance m totalSteps line)
    (λ e, errorList_append (report e)).

(** The worker's own variables and its signals are as they were. *)
Definition same_locals (s s1 : state) : Prop :=
  emitted s1 = emitted s ∧ errorList s1 = errorList s
  ∧ currentProgress s1 = currentProgress s.

(** The progress events among the emitted signals, in order. *)
Definition progress_events (l : list signal) : list (nat * nat) :=
  omap (λ g, match g with
             | progressUpdated c t => Some (c, t)
             | _ => None
             end) l.

(** The errors of the patch step are those that line 76 words. *)
Definition is_patch_error (msg : string) : bool :=
  Str.startswith msg "更新标签 ".
Definition patch_errors (l : list string) : nat :=
  length (filter (λ m, is_patch_error m) l).

(** Sub-steps accounted for: one per progress unit, one per error, and two
    more per patch error for the renames it skips. *)
Definition weight (s : state) : nat :=
  currentProgress s + length (errorList s) + 2 * patch_errors (errorList s).

(** The progress events emitted since [pe0] count up from 0, one by one, to
    [currentProgress], all with total [totalSteps]. *)
Definition counting (pe0 : list (nat * nat)) (totalSteps : nat) (s : state) : Prop :=
  progress_events (emitted s)
  = (pe0 ++ ((λ c, (c, totalSteps)) <$> seq 0 (S (currentProgress s))))%list.

(** ** Data sets the worker is run on *)

(** A Pascal VOC record with the two fields filled in. *)
Definition voc (fname fpath : string) : ET.Element :=
  ET.mkElement "annotation" [] None None
    [ ET.mkElement "folder" [] (Some "JPEGImages") None [];
      ET.mkElement "filename" [] (Some fname) None [];
      ET.mkElement "path" [] (Some fpath) None [] ].

(** A record whose two fields are empty. *)
Definition empty_fields : ET.Element :=
  ET.mkElement "annotation" [] None None
    [ ET.mkElement "filename" [] None None [];
      ET.mkElement "path" [] None None [];
      ET.mkElement "size" [] None None [] ].

(** A file that is not XML. *)
Definition jpeg_bytes : node := File (NotXml "syntax error: line 1, column 0").

(** An annotation directory [ann] and an image directory [img]. *)
Definition two_dirs (ann img : gmap string node) : gmap string (gmap string node) :=
  <["ann" := ann]> (<["img" := img]> ∅).

(** Three annotations, two images. *)
Definition fs_3_2 : gmap string (gmap string node) :=
  two_dirs
    {[ "a.xml" := File (Xml (voc "a.jpg" "/data/a.jpg"));
       "b.xml" := File (Xml (voc "b.jpg" "/data/b.jpg"));
       "c.xml" := File (Xml (voc "c.jpg" "/data/c.jpg")) ]}
    {[ "a.jpg" := jpeg_bytes; "b.jpg" := jpeg_bytes ]}.

(** Two pairs, among files that the filters drop. *)
Definition fs_2_2 : gmap string (gmap string node) :=
  two_dirs
    {[ "b.XML" := File (Xml (ET.mkElement "annotation" [] None None []));
       "a.xml" := File (Xml (voc "x.jpeg" "/old/x.jpeg"));
       "readme.md" := jpeg_bytes ]}
    {[ "q.png" := jpeg_bytes; "photo.JPG" := jpeg_bytes;
       "notes.txt" := jpeg_bytes ]}.

(** One pair: empty fields, upper-case image extension. *)
Definition fs_empty_fields : gmap string (gmap string node) :=
  two_dirs {[ "a.xml" := File (Xml empty_fields) ]}
    {[ "photo.JPG" := jpeg_bytes ]}.

(** Already normalized, one pair and two pairs. *)
Definition fs_normalized_1 : gmap string (gmap string node) :=
  two_dirs {[ "1.xml" := File (Xml (voc "1.jpg" "img/1.jpg")) ]}
    {[ "1.jpg" := jpeg_bytes ]}.

Definition fs_normalized_2 : gmap string (gmap string node) :=
  two_dirs
    {[ "1.xml" := File (Xml (voc "1.jpg" "img/1.jpg"));
       "2.xml" := File (Xml (voc "2.jpg" "img/2.jpg")) ]}
    {[ "1.jpg" := jpeg_bytes; "2.jpg" := jpeg_bytes ]}.

(** Three pairs, the second annotation malformed. *)
Definition fs_mixed : gmap string (gmap string node) :=
  two_dirs
    {[ "a.xml" := File (Xml (voc "a.jpg" "/data/a.jpg"));
       "b.xml" := File (NotXml "syntax error: line 1, column 0");
       "c.xml" := File (Xml (voc "c.jpg" "/data/c.jpg")) ]}
    {[ "a.jpg" := jpeg_bytes; "b.jpg" := jpeg_bytes; "c.jpg" := jpeg_bytes ]}.

Definition pairs_mixed : list (string * string) :=
  [("a.xml", "a.jpg"); ("b.xml", "b.jpg"); ("c.xml", "c.jpg")].

(** One pair, the annotation already named [1.xml]. *)
Definition fs_named_1 : gmap string (gmap string node) :=
  two_dirs {[ "1.xml" := File (Xml (voc "x.jpg" "/old/x.jpg")) ]}
    {[ "photo.JPG" := jpeg_bytes ]}.

(** ** Notions the further properties are stated with *)

(** The terminal signal. *)
Definition is_finished (g : signal) : bool :=
  match g with
  | processingFinished _ _ => true
  | _ => false
  end.

(** The paths that the loop body names for the pair at index [idx]: the two
    files and their two new names (lines 51-52, 81 and 93). *)
Definition touched (annDir imgDir : string) (idx : nat)
    (annFile imgFile : string) : list path :=
  [ (annDir, annFile); (annDir, pretty idx ++ ".xml");
    (imgDir, imgFile);
    (imgDir, pretty idx ++ Str.lower (os_path.splitext imgFile).2) ].

(** Two directories without a candidate. *)
Definition fs_no_candidates : gmap string (gmap string node) :=
  two_dirs {[ "readme.md" := jpeg_bytes; "a.xml.bak" := jpeg_bytes ]}
    {[ "notes.txt" := jpeg_bytes; ".jpg" := jpeg_bytes ]}.

(** What lines 82-84 and 94-96 need of the source and the destination: the
    source is there, it is not the destination, and the destination is not
    a directory. *)
Definition movable (f : gmap string (gmap string node)) (src dst : path) : Prop :=
  is_Some (entry f src) ∧ src ≠ dst ∧ entry f dst ≠ Some Dir.

(** One pair whose two new names are taken by other files. *)
Definition fs_taken : gmap string (gmap string node) :=
  two_dirs
    {[ "scan.xml" := File (Xml (voc "scan.png" "/old/scan.png"));
       "1.xml" := File (Xml (voc "other.png" "/old/other.png")) ]}
    {[ "scan.PNG" := jpeg_bytes;
       "1.png" := File (NotXml "another image") ]}.

(** One pair whose two new names are taken by sub-directories. *)
Definition fs_blocked : gmap string (gmap string node) :=
  two_dirs
    {[ "scan.xml" := File (Xml (voc "scan.png" "/old/scan.png"));
       "1.xml" := Dir ]}
    {[ "scan.png" := jpeg_bytes; "1.png" := Dir ]}.

Definition pairs_2_2 : list (string * string) :=
  [("a.xml", "photo.JPG"); ("b.XML", "q.png")].

(** Every character of [s] passes [P]. *)
Fixpoint all_chars (P : ascii → bool) (s : string) : bool :=
  match s with
  | EmptyString => true
  | String c r => P c && all_chars P r
  end.

(** A character that [splitext] does not look for. *)
Definition plain_char (c : ascii) : bool :=
  negb (Ascii.eqb c ".") && negb (Ascii.eqb c "/").

(** A decimal digit. *)
Definition digit_char (c : ascii) : bool :=
  ((48 <=? nat_of_ascii c) && (nat_of_ascii c <=? 57))%nat.


(** The file-system calls that the loop body is written to make for the pair
    at index [idx]: it reads and writes the annotation under its old name,
    tests and removes the two new names only, and renames each file from its
    old name to its new name (lines 58-71, 82-84 and 94-96). *)
Definition loop_call (annDir imgDir : string) (idx : nat)
    (annFile imgFile : string) (c : syscall) : Prop :=
  let newAnnPath := (annDir, pretty idx ++ ".xml") in
  let newImgPath :=
    (imgDir, pretty idx ++ Str.lower (os_path.splitext imgFile).2) in
  match c with
  | SysParse p | SysWrite p => p = (annDir, annFile)
  | SysExists p | SysRemove p => p = newAnnPath ∨ p = newImgPath
  | SysRename src dst =>
      (src = (annDir, annFile) ∧ dst = newAnnPath)
      ∨ (src = (imgDir, imgFile) ∧ dst = newImgPath)
  | SysIsdir _ | SysListdir _ => False
  end.

(** * Properties *)

(** ** Tactics *)

Ltac py_simpl :=
  cbv beta iota zeta
    delta [bind ret raise try_except modify gets emit negb
           set_errorList set_currentProgress errorList_append advance];
  cbn [fst snd fs syscalls emitted errorList currentProgress
       called emitting set_fs].

Ltac st_simpl :=
  cbn [fs syscalls emitted errorList currentProgress
       advanced recorded emitting called set_fs after].

(** ** The library functions on small inputs *)

Example lower_mixed : Str.lower "Photo.JPG" = "photo.jpg".
Proof. reflexivity. Qed.

Example splitext_photo : os_path.splitext "photo.JPG" = ("photo", ".JPG").
Proof. reflexivity. Qed.

Example splitext_two_dots : os_path.splitext "a.tar.gz" = ("a.tar", ".gz").
Proof. reflexivity. Qed.

Example splitext_dotfile : os_path.splitext ".jpg" = (".jpg", "").
Proof. reflexivity. Qed.

Example splitext_leading_dots : os_path.splitext "..jpg" = ("..jpg", "").
Proof. reflexivity. Qed.

Example splitext_inner_dots : os_path.splitext "a..jpg" = ("a.", ".jpg").
Proof. reflexivity. Qed.

Example splitext_hidden : os_path.splitext ".a.png" = (".a", ".png").
Proof. reflexivity. Qed.

Example join_plain : os_path.join "img" "2.jpg" = "img/2.jpg".
Proof. reflexivity. Qed.

Example join_root : os_path.join "/" "2.jpg" = "/2.jpg".
Proof. reflexivity. Qed.

Example sorted_by_code_point :
  sorted ["a.xml"; "2.xml"; "10.xml"; "B.xml"; "1.xml"]
  = ["1.xml"; "10.xml"; "2.xml"; "B.xml"; "a.xml"].
Proof. reflexivity. Qed.

Example filters :
  is_ann "a.XML" = true ∧ is_ann "a.xml.bak" = false
  ∧ is_img "x.JpEg" = true ∧ is_img "notes.txt" = false.
Proof. vm_compute. repeat split. Qed.

Example patch_creates_fields :
  patch "img" 7 ".png" (ET.mkElement "annotation" [] None None [])
  = ET.mkElement "annotation" [] None None
      [ ET.mkElement "filename" [] (Some "7.png") None [];
        ET.mkElement "path" [] (Some "img/7.png") None [] ].
Proof. reflexivity. Qed.

(** ** Strings *)

Lemma append_assoc (a b c : string) : (a ++ b) ++ c = a ++ b ++ c.
Proof.
  induction a as [|x a IH]; [done|].
  change (String x (a ++ b) ++ c = String x (a ++ b ++ c)).
  change (String x ((a ++ b) ++ c) = String x (a ++ b ++ c)). by rewrite IH.
Qed.

Lemma append_nil_r (a : string) : a ++ "" = a.
Proof.
  induction a as [|x a IH]; [done|].
  change (String x (a ++ "") = String x a). by rewrite IH.
Qed.

Lemma startswith_app p x : Str.startswith (p ++ x) p = true.
Proof.
  unfold Str.startswith. induction p as [|c p IH].
  - change ("" ++ x) with x. by destruct x.
  - change (String c p ++ x) with (String c (p ++ x)). cbn [String.prefix].
    destruct (ascii_dec c c); [exact IH|done].
Qed.

Lemma contains_here pre sub post : Str.contains (pre ++ sub ++ post) sub.
Proof. by exists pre, post. Qed.

Lemma contains_refl s : Str.contains s s.
Proof. exists "", "". by rewrite append_nil_r. Qed.

Lemma contains_app_l s t sub : Str.contains s sub → Str.contains (s ++ t) sub.
Proof.
  intros (pre & post & ->). exists pre, (post ++ t).
  by rewrite !append_assoc.
Qed.

Lemma contains_app_r s t sub : Str.contains t sub → Str.contains (s ++ t) sub.
Proof.
  intros (pre & post & ->). exists (s ++ pre), post. by rewrite !append_assoc.
Qed.

Lemma join_contains sep l e : e ∈ l → Str.contains (Str.join sep l) e.
Proof.
  induction l as [|x l IH]; [by intros ?%elem_of_nil|].
  intros [->|Hin]%elem_of_cons.
  - destruct l; [apply contains_refl|]. cbn [Str.join].
    apply contains_app_l, contains_refl.
  - destruct l as [|y l]; [by apply elem_of_nil in Hin|].
    change (Str.join sep (x :: y :: l)) with (x ++ sep ++ Str.join sep (y :: l)).
    by apply contains_app_r, contains_app_r, IH.
Qed.

Lemma lower_char_inv c :
  c = Str.lower_char c
  ∨ c = ascii_of_nat (nat_of_ascii (Str.lower_char c) - 32).
Proof. destruct c as [[] [] [] [] [] [] [] []]; vm_compute; auto. Qed.

Lemma lower_nil_inv j : Str.lower j = "" → j = "".
Proof. by destruct j. Qed.

Lemma lower_cons_inv j d r :
  Str.lower j = String d r →
  ∃ c j', j = String c j'
          ∧ (c = d ∨ c = ascii_of_nat (nat_of_ascii d - 32))
          ∧ Str.lower j' = r.
Proof.
  destruct j as [|c j']; [done|]. cbn [Str.lower]. intros [= <- <-].
  exists c, j'. split_and!; [done| |done]. apply lower_char_inv.
Qed.

Ltac lower_cases H :=
  repeat (let c := fresh "c" in
          let r := fresh "r" in
          let Hc := fresh "Hc" in
          apply lower_cons_inv in H;
          destruct H as [c [r [-> [Hc H]]]];
          destruct Hc as [-> | ->]);
  apply lower_nil_inv in H; subst.

Lemma is_ann_bare_xml f : Str.lower f = ".xml" → is_ann f = true.
Proof. intros H. unfold is_ann. by rewrite H. Qed.

Lemma is_img_bare_ext f : Str.lower f ∈ allowedImgExts → is_img f = false.
Proof.
  unfold allowedImgExts. rewrite !elem_of_union, !elem_of_singleton.
  intros [[H|H]|H]; lower_cases H; (vm_compute; reflexivity).
Qed.

(** ** Sorting and listing *)

Lemma sorted_Sorted l : StronglySorted String.le (sorted l).
Proof. apply StronglySorted_merge_sort; apply _. Qed.

Lemma sorted_Permutation l : sorted l ≡ₚ l.
Proof. apply merge_sort_Permutation. Qed.

Lemma sorted_length l : length (sorted l) = length l.
Proof. by rewrite sorted_Permutation. Qed.

Lemma sorted_unique l l' :
  StronglySorted String.le l' → l' ≡ₚ l → sorted l = l'.
Proof.
  intros Hs Hp. apply (StronglySorted_unique String.le).
  - apply sorted_Sorted.
  - done.
  - by rewrite sorted_Permutation, Hp.
Qed.

Lemma listing_NoDup es : NoDup (listing es).
Proof. apply NoDup_fst_map_to_list. Qed.

Lemma listing_elem es f : f ∈ listing es ↔ is_Some (es !! f).
Proof.
  unfold listing. rewrite list_elem_of_fmap. split.
  - intros [[k n] [-> H%elem_of_map_to_list]]. eauto.
  - intros [n H]. exists (f, n). split; [done|]. by apply elem_of_map_to_list.
Qed.

Lemma listing_insert es f n :
  es !! f = None → listing (<[f:=n]> es) ≡ₚ f :: listing es.
Proof. intros H. unfold listing. by rewrite map_to_list_insert. Qed.

Lemma candidates_characterised (keep : string → bool) es l :
  NoDup l →
  (∀ f, f ∈ l ↔ is_Some (es !! f) ∧ keep f = true) →
  StronglySorted String.le l →
  sorted (filter (λ f, keep f) (listing es)) = l.
Proof.
  intros Hnd Hel Hs. apply sorted_unique; [done|].
  apply NoDup_Permutation; [done| |].
  - apply NoDup_filter, listing_NoDup.
  - intros f. rewrite Hel, list_elem_of_filter, listing_elem.
    rewrite Is_true_true. tauto.
Qed.

Lemma annList_of_spec es :
  NoDup (annList_of es)
  ∧ (∀ f, f ∈ annList_of es ↔ is_Some (es !! f) ∧ is_ann f = true)
  ∧ StronglySorted String.le (annList_of es).
Proof.
  unfold annList_of. split_and!.
  - rewrite sorted_Permutation. apply NoDup_filter, listing_NoDup.
  - intros f. rewrite sorted_Permutation, list_elem_of_filter, listing_elem.
    rewrite Is_true_true. tauto.
  - apply sorted_Sorted.
Qed.

Lemma imgList_of_spec es :
  NoDup (imgList_of es)
  ∧ (∀ f, f ∈ imgList_of es ↔ is_Some (es !! f) ∧ is_img f = true)
  ∧ StronglySorted String.le (imgList_of es).
Proof.
  unfold imgList_of. split_and!.
  - rewrite sorted_Permutation. apply NoDup_filter, listing_NoDup.
  - intros f. rewrite sorted_Permutation, list_elem_of_filter, listing_elem.
    rewrite Is_true_true. tauto.
  - apply sorted_Sorted.
Qed.

(** ** The file-system map *)

Lemma entry_put_eq p n f : is_Some (f !! p.1) → entry (put_entry p n f) p = Some n.
Proof.
  intros [es H]. unfold entry, put_entry.
  rewrite lookup_alter_eq, H. cbn. apply lookup_insert_eq.
Qed.

Lemma entry_put_ne p q n f : p ≠ q → entry (put_entry p n f) q = entry f q.
Proof.
  intros Hne. unfold entry, put_entry. destruct p as [d x], q as [d' y]. cbn.
  destruct (decide (d = d')) as [->|Hd].
  - rewrite lookup_alter_eq. destruct (f !! d'); [cbn|done].
    apply lookup_insert_ne. congruence.
  - by rewrite lookup_alter_ne.
Qed.

Lemma entry_del_eq p f : entry (del_entry p f) p = None.
Proof.
  unfold entry, del_entry. rewrite lookup_alter_eq.
  destruct (f !! p.1); [cbn|done]. apply lookup_delete_eq.
Qed.

Lemma entry_del_ne p q f : p ≠ q → entry (del_entry p f) q = entry f q.
Proof.
  intros Hne. unfold entry, del_entry. destruct p as [d x], q as [d' y]. cbn.
  destruct (decide (d = d')) as [->|Hd].
  - rewrite lookup_alter_eq. destruct (f !! d'); [cbn|done].
    apply lookup_delete_ne. congruence.
  - by rewrite lookup_alter_ne.
Qed.

Lemma entry_dir f p n : entry f p = Some n → is_Some (f !! p.1).
Proof. unfold entry. destruct (f !! p.1); [eauto|done]. Qed.

Lemma dir_put p n f d : is_Some (put_entry p n f !! d) ↔ is_Some (f !! d).
Proof.
  unfold put_entry. destruct (decide (p.1 = d)) as [->|].
  - rewrite lookup_alter_eq. by rewrite fmap_is_Some.
  - by rewrite lookup_alter_ne.
Qed.

Lemma dir_del p f d : is_Some (del_entry p f !! d) ↔ is_Some (f !! d).
Proof.
  unfold del_entry. destruct (decide (p.1 = d)) as [->|].
  - rewrite lookup_alter_eq. by rewrite fmap_is_Some.
  - by rewrite lookup_alter_ne.
Qed.

(** ** The element tree *)

Lemma find_from_Some i l t k :
  ET.find_from i l t = Some k →
  ∃ e, (i ≤ k)%nat ∧ l !! (k - i) = Some e ∧ ET.tag e = t.
Proof.
  revert i. induction l as [|e l IH]; intros i; cbn; [done|].
  destruct (String.eqb_spec (ET.tag e) t) as [Ht|Ht].
  - intros [= <-]. exists e. by rewrite Nat.sub_diag.
  - intros (e' & Hle & Hl & Ht')%IH. exists e'. split_and!; [lia| |done].
    replace (k - i) with (S (k - S i)) by lia. done.
Qed.

Lemma find_from_alter i l t j (f : ET.Element → ET.Element) :
  (∀ e, ET.tag (f e) = ET.tag e) →
  ET.find_from i (alter f j l) t = ET.find_from i l t.
Proof.
  intros Hf. revert i j. induction l as [|e l IH]; intros i j; [done|].
  destruct j as [|j]; cbn.
  - by rewrite Hf.
  - by rewrite IH.
Qed.

Lemma find_from_app i l e t :
  ET.find_from i (l ++ [e]) t =
  match ET.find_from i l t with
  | Some k => Some k
  | None => if String.eqb (ET.tag e) t then Some (i + length l) else None
  end.
Proof.
  revert i. induction l as [|e' l IH]; intros i; cbn.
  - by rewrite Nat.add_0_r.
  - destruct (String.eqb (ET.tag e') t); [done|].
    rewrite IH. by replace (S i + length l) with (i + S (length l)) by lia.
Qed.

Lemma find_set_text root i s t :
  ET.find (ET.set_text root i s) t = ET.find root t.
Proof. unfold ET.find, ET.set_text. cbn. by apply find_from_alter. Qed.

Lemma find_tag root t i :
  ET.find root t = Some i →
  ∃ e, ET.children root !! i = Some e ∧ ET.tag e = t.
Proof.
  intros (e & _ & He & Ht)%find_from_Some. rewrite Nat.sub_0_r in He. eauto.
Qed.

Lemma find_or_create_found root t root' i :
  find_or_create root t = (root', i) →
  ET.find root' t = Some i ∧ is_Some (ET.children root' !! i).
Proof.
  unfold find_or_create. destruct (ET.find root t) as [k|] eqn:Hf.
  - intros [= <- <-]. split; [done|].
    apply find_from_Some in Hf as (e & _ & He & _).
    rewrite Nat.sub_0_r in He. eauto.
  - unfold ET.SubElement. intros [= <- <-]. unfold ET.find in *. cbn.
    rewrite find_from_app, Hf. cbn. rewrite String.eqb_refl. split; [done|].
    rewrite lookup_app_r, Nat.sub_diag by done. eauto.
Qed.

Lemma find_or_create_keeps root t root' i :
  find_or_create root t = (root', i) →
  (∀ k e, ET.children root !! k = Some e → ET.children root' !! k = Some e)
  ∧ (∀ t' k, ET.find root t' = Some k → ET.find root' t' = Some k)
  ∧ ET.tag root' = ET.tag root.
Proof.
  unfold find_or_create. destruct (ET.find root t) as [k|] eqn:Hf.
  { by intros [= <- <-]. }
  unfold ET.SubElement. intros [= <- <-]. cbn. split_and!; [| |done].
  - intros k e He. by apply lookup_app_l_Some.
  - intros t' k. unfold ET.find. cbn. rewrite find_from_app. by intros ->.
Qed.

Lemma child_text_intro root t i e :
  ET.find root t = Some i → ET.children root !! i = Some e →
  ET.child_text root t = Some (ET.text e).
Proof. intros Hf He. unfold ET.child_text. rewrite Hf. cbn. by rewrite He. Qed.

Lemma child_text_set_eq root i s t :
  ET.find root t = Some i → is_Some (ET.children root !! i) →
  ET.child_text (ET.set_text root i s) t = Some (Some s).
Proof.
  intros Hf [e He]. unfold ET.child_text. rewrite find_set_text, Hf. cbn.
  by rewrite list_lookup_alter_eq, He.
Qed.

Lemma child_text_set_ne root i j s t :
  ET.find root t = Some j → i ≠ j →
  ET.child_text (ET.set_text root i s) t = ET.child_text root t.
Proof.
  intros Hf Hne. unfold ET.child_text. rewrite find_set_text, Hf. cbn.
  by rewrite list_lookup_alter_ne.
Qed.

Lemma set_text_other root i s k e :
  k ≠ i → ET.children root !! k = Some e →
  ET.children (ET.set_text root i s) !! k = Some e.
Proof. intros Hne He. cbn. by rewrite list_lookup_alter_ne. Qed.

Lemma set_text_same root i s e :
  ET.children root !! i = Some e →
  ET.children (ET.set_text root i s) !! i
  = Some (ET.mkElement (ET.tag e) (ET.attrib e) (Some s) (ET.tail e)
            (ET.children e)).
Proof. intros He. cbn. by rewrite list_lookup_alter_eq, He. Qed.

(** What lines 60-69 leave in the record. *)
Lemma patch_fields imgDir idx img_ext root :
  let root' := patch imgDir idx img_ext root in
  ET.child_text root' "filename" = Some (Some (pretty idx ++ img_ext))
  ∧ ET.child_text root' "path"
    = Some (Some (os_path.join imgDir (pretty idx ++ img_ext)))
  ∧ ET.tag root' = ET.tag root
  ∧ (∀ k e, ET.children root !! k = Some e →
            ET.tag e ≠ "filename" → ET.tag e ≠ "path" →
            ET.children root' !! k = Some e).
Proof.
  cbv zeta. unfold patch.
  destruct (find_or_create root "filename") as [r1 i1] eqn:E1.
  destruct (find_or_create (ET.set_text r1 i1 (pretty idx ++ img_ext)) "path")
    as [r3 i3] eqn:E3.
  destruct (find_or_create_found _ _ _ _ E1) as [F1 _].
  destruct (find_or_create_keeps _ _ _ _ E1) as (K1 & _ & G1).
  destruct (find_or_create_found _ _ _ _ E3) as [F3 _].
  destruct (find_or_create_keeps _ _ _ _ E3) as (K3 & L3 & G3).
  destruct (find_tag _ _ _ F1) as (e1 & He1 & Ht1).
  destruct (find_tag _ _ _ F3) as (e3 & He3 & Ht3).
  pose proof (K3 _ _ (set_text_same r1 i1 (pretty idx ++ img_ext) e1 He1)) as He1'.
  assert (ET.find r3 "filename" = Some i1) as F1'.
  { apply L3. by rewrite find_set_text. }
  assert (i3 ≠ i1) as Hne.
  { intros ->. rewrite He1' in He3. simplify_eq. cbn in Ht3. congruence. }
  split_and!.
  - erewrite child_text_intro;
      [|by rewrite find_set_text|by apply set_text_other]. done.
  - erewrite child_text_intro;
      [|by rewrite find_set_text|by apply set_text_same]. done.
  - cbn in *. congruence.
  - intros k e He Hf Hp.
    assert (k ≠ i1) as Hk1.
    { intros ->. apply K1 in He. congruence. }
    assert (ET.children r3 !! k = Some e) as Hk.
    { by apply K3, set_text_other, K1. }
    apply set_text_other; [|done]. intros ->. congruence.
Qed.

(** ** The pair builder *)

(** What the pair builder does when both directories exist. *)
Lemma build_pairs_exist annDir imgDir s ea ei :
  fs s !! annDir = Some ea → fs s !! imgDir = Some ei →
  let annList := annList_of ea in
  let imgList := imgList_of ei in
  let s1 := called (SysListdir imgDir) (called (SysListdir annDir)
              (called (SysIsdir imgDir) (called (SysIsdir annDir) s))) in
  build_pairs annDir imgDir s =
    if (length annList =? length imgList)%nat then
      (Ok (zip annList imgList, length (zip annList imgList) * 3),
       emitting (logOutput ("共找到 " ++ pretty (length (zip annList imgList))
                              ++ " 对文件"))
         (emitting (progressUpdated 0 (length (zip annList imgList) * 3))
            (mkState (fs s1) (syscalls s1) (emitted s1) (errorList s1) 0)))
    else
      (Raise (Exception ValueError
                ("标签文件数量(" ++ pretty (length annList)
                   ++ ")与图片文件数量(" ++ pretty (length imgList)
                   ++ ")不一致！")), s1).
Proof.
  intros Ha Hi.
  unfold build_pairs, os_path_isdir, os_listdir. py_simpl.
  rewrite Ha. rewrite bool_decide_eq_true_2 by eauto. py_simpl.
  rewrite Hi. rewrite bool_decide_eq_true_2 by eauto. py_simpl.
  rewrite Ha. py_simpl. rewrite Hi. py_simpl.
  fold (annList_of ea). fold (imgList_of ei).
  destruct (length (annList_of ea) =? length (imgList_of ei))%nat; reflexivity.
Qed.

(** The pair builder returns only along lines 43-47. *)
Lemma build_pairs_Ok_inv annDir imgDir s pairs totalSteps s1 :
  build_pairs annDir imgDir s = (Ok (pairs, totalSteps), s1) →
  totalSteps = 3 * length pairs
  ∧ fs s1 = fs s
  ∧ errorList s1 = errorList s
  ∧ currentProgress s1 = 0
  ∧ emitted s1 = (emitted s ++
      [progressUpdated 0 totalSteps;
       logOutput ("共找到 " ++ pretty (length pairs) ++ " 对文件")])%list.
Proof.
  destruct (fs s !! annDir) as [ea|] eqn:Ha; [destruct (fs s !! imgDir) as [ei|] eqn:Hi|].
  - rewrite (build_pairs_exist annDir imgDir s ea ei Ha Hi).
    destruct (_ =? _)%nat; [|done]. intros [= <- <- <-]. st_simpl.
    split_and!; try done; [lia|]. by rewrite <- app_assoc.
  - unfold build_pairs, os_path_isdir. py_simpl. rewrite Ha.
    rewrite bool_decide_eq_true_2 by eauto. py_simpl. rewrite Hi.
    rewrite bool_decide_eq_false_2 by (by intros [? ?]). by py_simpl.
  - unfold build_pairs, os_path_isdir. py_simpl. rewrite Ha.
    rewrite bool_decide_eq_false_2 by (by intros [? ?]). by py_simpl.
Qed.

(** ** The three sub-steps *)

Lemma update_annotation_cases annDir imgDir totalSteps idx annFile img_ext s :
  let p := (annDir, annFile) in
  update_annotation annDir imgDir totalSteps idx annFile img_ext s =
  match entry (fs s) p with
  | Some (File (Xml root)) =>
      (Ok tt,
       advanced totalSteps ("更新标签文件内容：" ++ annFile)
         (called (SysWrite p)
            (set_fs (put_entry p (File (Xml (patch imgDir idx img_ext root)))
                       (fs s))
               (called (SysParse p) s))))
  | Some (File (NotXml err)) =>
      (Raise (Exception ParseError err), called (SysParse p) s)
  | Some Dir => (Raise (EISDIR p), called (SysParse p) s)
  | None => (Raise (ENOENT p), called (SysParse p) s)
  end.
Proof.
  cbv zeta. unfold update_annotation, ET_parse, ET_write. py_simpl.
  destruct (entry (fs s) (annDir, annFile)) as [[[root|err]|]|] eqn:He;
    try reflexivity.
  unfold entry in He. cbn [fst snd] in He. cbn [fs called].
  destruct (fs s !! annDir) as [es|]; [|done]. cbn in He. rewrite He.
  reflexivity.
Qed.

Lemma update_annotation_eq annDir imgDir totalSteps idx annFile img_ext s :
  update_annotation annDir imgDir totalSteps idx annFile img_ext s =
  then_advance (parse_patch_write annDir imgDir idx annFile img_ext)
    totalSteps ("更新标签文件内容：" ++ annFile) s.
Proof.
  unfold update_annotation, then_advance, parse_patch_write. py_simpl.
  destruct (ET_parse _ s) as [[root|e] s1]; [|reflexivity].
  destruct (ET_write _ _ s1) as [[[]|e] s2]; reflexivity.
Qed.

(** The patch step raises only from [ET.parse], before anything is written. *)
Lemma update_annotation_Raise annDir imgDir totalSteps idx annFile img_ext s e s1 :
  update_annotation annDir imgDir totalSteps idx annFile img_ext s = (Raise e, s1) →
  s1 = called (SysParse (annDir, annFile)) s
  ∧ parse_patch_write annDir imgDir idx annFile img_ext s = (Raise e, s1).
Proof.
  intros H. split.
  - rewrite update_annotation_cases in H. cbv zeta in H.
    destruct (entry (fs s) (annDir, annFile)) as [[[root|err]|]|];
      by simplify_eq.
  - rewrite update_annotation_eq in H. unfold then_advance in H.
    by destruct (parse_patch_write _ _ _ _ _ s) as [[[]|e'] s']; simplify_eq.
Qed.

Lemma parse_patch_write_locals annDir imgDir idx annFile img_ext s :
  same_locals s (parse_patch_write annDir imgDir idx annFile img_ext s).2.
Proof.
  unfold parse_patch_write, ET_parse, ET_write. py_simpl.
  destruct (entry (fs s) (annDir, annFile)) as [[[root|err]|]|]; try done.
  cbn [fs called fst snd].
  destruct (fs s !! annDir) as [es|]; [|done].
  by destruct (es !! annFile) as [[]|].
Qed.

Lemma os_rename_cases src dst s :
  src.1 = dst.1 → entry (fs s) dst = None →
  os_rename src dst s =
  match entry (fs s) src with
  | Some n =>
      (Ok tt, after [SysRename src dst] (put_entry dst n (del_entry src (fs s))) s)
  | None => (Raise (ENOENT2 src dst), after [SysRename src dst] (fs s) s)
  end.
Proof.
  intros Hd Hdst. unfold os_rename, after, called, set_fs. cbn.
  destruct (entry (fs s) src) as [n|] eqn:Hsrc; [|done].
  destruct (entry_dir _ _ _ Hsrc) as [es Hes]. rewrite <- Hd, Hes.
  unfold entry in Hdst. rewrite <- Hd, Hes in Hdst. cbn in Hdst. rewrite Hdst.
  by destruct n.
Qed.

Lemma replace_by_rename_cases src dst s :
  src.1 = dst.1 →
  replace_by_rename src dst s =
  match entry (fs s) dst with
  | Some Dir =>
      (Raise (EISDIR dst), after [SysExists dst; SysRemove dst] (fs s) s)
  | Some (File _) =>
      match entry (del_entry dst (fs s)) src with
      | Some n =>
          (Ok tt,
           after [SysExists dst; SysRemove dst; SysRename src dst]
             (put_entry dst n (del_entry src (del_entry dst (fs s)))) s)
      | None =>
          (Raise (ENOENT2 src dst),
           after [SysExists dst; SysRemove dst; SysRename src dst]
             (del_entry dst (fs s)) s)
      end
  | None =>
      match entry (fs s) src with
      | Some n =>
          (Ok tt,
           after [SysExists dst; SysRename src dst]
             (put_entry dst n (del_entry src (fs s))) s)
      | None =>
          (Raise (ENOENT2 src dst),
           after [SysExists dst; SysRename src dst] (fs s) s)
      end
  end.
Proof.
  intros Hd. unfold replace_by_rename, os_path_exists, os_remove. py_simpl.
  destruct (entry (fs s) dst) as [[c|]|] eqn:Hdst.
  - rewrite bool_decide_eq_true_2 by eauto. py_simpl. rewrite Hdst.
    rewrite os_rename_cases; [|done|apply entry_del_eq].
    unfold after. cbn.
    destruct (entry (del_entry dst (fs s)) src); by rewrite <- !app_assoc.
  - rewrite bool_decide_eq_true_2 by eauto. py_simpl. rewrite Hdst.
    unfold after, called. cbn. by rewrite <- !app_assoc.
  - rewrite bool_decide_eq_false_2 by (by intros [? ?]). py_simpl.
    rewrite os_rename_cases; [|done|done]. unfold after. cbn.
    destruct (entry (fs s) src); by rewrite <- !app_assoc.
Qed.

Lemma replace_by_rename_Ok src dst s s' :
  src.1 = dst.1 →
  replace_by_rename src dst s = (Ok tt, s') →
  src ≠ dst
  ∧ ∃ n, entry (fs s) src = Some n
         ∧ entry (fs s') dst = Some n
         ∧ entry (fs s') src = None
         ∧ (∀ q, q ≠ src → q ≠ dst → entry (fs s') q = entry (fs s) q).
Proof.
  intros Hd. rewrite replace_by_rename_cases by done.
  destruct (entry (fs s) dst) as [[c|]|] eqn:Hdst; [| done |].
  - destruct (entry (del_entry dst (fs s)) src) as [n|] eqn:Hsrc; [|done].
    intros [= <-]. cbn [fs after].
    assert (src ≠ dst) as Hne by (intros ->; by rewrite entry_del_eq in Hsrc).
    rewrite entry_del_ne in Hsrc by done.
    split; [done|]. exists n. split_and!; [done| | |].
    + apply entry_put_eq. rewrite !dir_del. by apply entry_dir in Hdst.
    + rewrite entry_put_ne by done. apply entry_del_eq.
    + intros q Hq1 Hq2. by rewrite entry_put_ne, !entry_del_ne.
  - destruct (entry (fs s) src) as [n|] eqn:Hsrc; [|done].
    intros [= <-]. cbn [fs after].
    assert (src ≠ dst) as Hne by congruence.
    split; [done|]. exists n. split_and!; [done| | |].
    + apply entry_put_eq. rewrite dir_del, <- Hd. by apply entry_dir in Hsrc.
    + rewrite entry_put_ne by done. apply entry_del_eq.
    + intros q Hq1 Hq2. by rewrite entry_put_ne, entry_del_ne.
Qed.

Lemma replace_by_rename_locals src dst s :
  src.1 = dst.1 → same_locals s (replace_by_rename src dst s).2.
Proof.
  intros Hd. rewrite replace_by_rename_cases by done.
  destruct (entry (fs s) dst) as [[c|]|].
  - by destruct (entry (del_entry dst (fs s)) src).
  - done.
  - by destruct (entry (fs s) src).
Qed.

Lemma replace_by_rename_syscalls src dst s :
  src.1 = dst.1 →
  ∃ cs, syscalls (replace_by_rename src dst s).2
        = (syscalls s ++ SysExists dst :: cs)%list.
Proof.
  intros Hd. rewrite replace_by_rename_cases by done.
  destruct (entry (fs s) dst) as [[c|]|].
  - destruct (entry (del_entry dst (fs s)) src); cbn; eauto.
  - cbn; eauto.
  - destruct (entry (fs s) src); cbn; eauto.
Qed.

Lemma rename_annotation_eq annDir totalSteps idx annFile s :
  rename_annotation annDir totalSteps idx annFile s =
  then_advance
    (replace_by_rename (annDir, annFile) (annDir, pretty idx ++ ".xml"))
    totalSteps ("重命名标签文件为：" ++ pretty idx ++ ".xml") s.
Proof.
  unfold rename_annotation, then_advance, replace_by_rename, os_path_exists.
  py_simpl.
  destruct (bool_decide _); [destruct (os_remove _ _) as [[[]|] s2]|];
    try reflexivity; destruct (os_rename _ _ _) as [[[]|] s3]; reflexivity.
Qed.

Lemma rename_image_eq imgDir totalSteps idx imgFile img_ext s :
  rename_image imgDir totalSteps idx imgFile img_ext s =
  then_advance
    (replace_by_rename (imgDir, imgFile) (imgDir, pretty idx ++ img_ext))
    totalSteps ("重命名图片文件为：" ++ pretty idx ++ img_ext) s.
Proof.
  unfold rename_image, then_advance, replace_by_rename, os_path_exists.
  py_simpl.
  destruct (bool_decide _); [destruct (os_remove _ _) as [[[]|] s2]|];
    try reflexivity; destruct (os_rename _ _ _) as [[[]|] s3]; reflexivity.
Qed.

(** When a file already bears its target name, lines 82-84 remove it and
    then fail to rename it. *)
Lemma rename_onto_itself annDir totalSteps idx s c :
  entry (fs s) (annDir, pretty idx ++ ".xml") = Some (File c) →
  ∃ s', rename_annotation annDir totalSteps idx (pretty idx ++ ".xml") s
        = (Raise (ENOENT2 (annDir, pretty idx ++ ".xml")
                    (annDir, pretty idx ++ ".xml")), s')
        ∧ entry (fs s') (annDir, pretty idx ++ ".xml") = None.
Proof.
  intros He. rewrite rename_annotation_eq. unfold then_advance.
  rewrite replace_by_rename_cases by done. rewrite He, entry_del_eq.
  eexists. split; [done|]. cbn [fs after]. apply entry_del_eq.
Qed.

Lemma then_advance_Ok m totalSteps line s s' :
  then_advance m totalSteps line s = (Ok tt, s') →
  ∃ s1, m s = (Ok tt, s1) ∧ s' = advanced totalSteps line s1.
Proof.
  unfold then_advance. destruct (m s) as [[[]|e] s1]; [|done].
  intros [= <-]. eauto.
Qed.

Lemma attempt_cases m totalSteps line report s :
  attempt m totalSteps line report s =
  match m s with
  | (Ok _, s1) => (Ok tt, advanced totalSteps line s1)
  | (Raise e, s1) => (Ok tt, recorded (report e) s1)
  end.
Proof.
  unfold attempt, then_advance. py_simpl. by destruct (m s) as [[[]|e] s1].
Qed.

(** ** The loop and the run *)

(** The loop body and the loop never raise: every handler returns. *)
Lemma process_pair_Ok annDir imgDir totalSteps idx annFile imgFile s :
  (process_pair annDir imgDir totalSteps idx annFile imgFile s).1 = Ok tt.
Proof.
  unfold process_pair. py_simpl.
  destruct (update_annotation _ _ _ _ _ _ s) as [[[]|e] s1]; [|done].
  destruct (rename_annotation _ _ _ _ s1) as [[[]|e2] s2];
    destruct (rename_image _ _ _ _ _ _) as [[[]|e3] s3]; done.
Qed.

(** The loop body, sub-step by sub-step. *)
Lemma process_pair_cases annDir imgDir totalSteps idx annFile imgFile s :
  let img_ext := Str.lower (os_path.splitext imgFile).2 in
  process_pair annDir imgDir totalSteps idx annFile imgFile s =
  match parse_patch_write annDir imgDir idx annFile img_ext s with
  | (Raise e, s1) =>
      (Ok tt, recorded ("更新标签 " ++ annFile ++ " 时出错：" ++ str e) s1)
  | (Ok _, s1) =>
      let s1 := advanced totalSteps ("更新标签文件内容：" ++ annFile) s1 in
      let s2 :=
        (attempt
           (replace_by_rename (annDir, annFile) (annDir, pretty idx ++ ".xml"))
           totalSteps ("重命名标签文件为：" ++ pretty idx ++ ".xml")
           (λ e, "重命名标签 " ++ annFile ++ " 时出错：" ++ str e) s1).2 in
      attempt
        (replace_by_rename (imgDir, imgFile) (imgDir, pretty idx ++ img_ext))
        totalSteps ("重命名图片文件为：" ++ pretty idx ++ img_ext)
        (λ e, "重命名图片 " ++ imgFile ++ " 时出错：" ++ str e) s2
  end.
Proof.
  cbv zeta. unfold process_pair. py_simpl.
  rewrite update_annotation_eq. unfold then_advance at 1.
  destruct (parse_patch_write _ _ _ _ _ s) as [[[]|e] s1]; [|reflexivity].
  rewrite rename_annotation_eq, !attempt_cases. unfold then_advance at 1.
  destruct (replace_by_rename _ _ _) as [[[]|e2] s2]; cbn [snd].
  - rewrite rename_image_eq. unfold then_advance.
    by destruct (replace_by_rename _ _ _) as [[[]|e3] s3].
  - cbn [errorList]. fold (recorded ("重命名标签 " ++ annFile ++ " 时出错：" ++ str e2) s2).
    rewrite rename_image_eq. unfold then_advance.
    by destruct (replace_by_rename _ _ _) as [[[]|e3] s3].
Qed.

(** Errors are only ever appended. *)
Lemma process_pair_errors annDir imgDir totalSteps idx annFile imgFile s :
  ∃ more, errorList (process_pair annDir imgDir totalSteps idx annFile imgFile s).2
          = (errorList s ++ more)%list.
Proof.
  rewrite process_pair_cases. cbv zeta.
  pose proof (parse_patch_write_locals annDir imgDir idx annFile
                (Str.lower (os_path.splitext imgFile).2) s) as (_ & Hp & _).
  destruct (parse_patch_write _ _ _ _ _ s) as [[[]|e] s1]; cbn [snd] in *.
  - rewrite !attempt_cases.
    set (s1' := advanced _ _ s1).
    pose proof (replace_by_rename_locals (annDir, annFile)
                  (annDir, pretty idx ++ ".xml") s1' eq_refl) as (_ & H2 & _).
    destruct (replace_by_rename _ _ s1') as [[[]|e2] s2]; cbn [snd] in *.
    all: match goal with
         | |- context [replace_by_rename ?a ?b ?st] =>
             pose proof (replace_by_rename_locals a b st eq_refl) as (_ & H3 & _);
             destruct (replace_by_rename a b st) as [[[]|e3] s3]
         end; cbn [snd] in *; st_simpl; rewrite ?H3; st_simpl;
      rewrite ?H2; unfold s1'; st_simpl; rewrite Hp.
    + exists []. by rewrite app_nil_r.
    + eauto.
    + eauto.
    + rewrite <- app_assoc. eauto.
  - st_simpl. rewrite Hp. eauto.
Qed.

Lemma for_pairs_cons annDir imgDir totalSteps idx annFile imgFile rest s :
  for_pairs annDir imgDir totalSteps idx ((annFile, imgFile) :: rest) s =
  for_pairs annDir imgDir totalSteps (S idx) rest
    (process_pair annDir imgDir totalSteps idx annFile imgFile s).2.
Proof.
  cbn [for_pairs]. py_simpl.
  pose proof (process_pair_Ok annDir imgDir totalSteps idx annFile imgFile s) as H.
  destruct (process_pair _ _ _ _ _ _ s) as [r s1]. cbn in H. by subst r.
Qed.

Lemma for_pairs_Ok annDir imgDir totalSteps pairs idx s :
  (for_pairs annDir imgDir totalSteps idx pairs s).1 = Ok tt.
Proof.
  revert idx s. induction pairs as [|[a i] rest IH]; intros idx s; [done|].
  rewrite for_pairs_cons. apply IH.
Qed.

Lemma for_pairs_app annDir imgDir totalSteps pre rest idx s :
  for_pairs annDir imgDir totalSteps idx (pre ++ rest) s =
  for_pairs annDir imgDir totalSteps (idx + length pre) rest
    (for_pairs annDir imgDir totalSteps idx pre s).2.
Proof.
  revert idx s. induction pre as [|[a i] pre IH]; intros idx s.
  - cbn. by rewrite Nat.add_0_r.
  - cbn [app length]. rewrite !for_pairs_cons, IH. f_equal. lia.
Qed.

Lemma for_pairs_errors annDir imgDir totalSteps pairs idx s :
  ∃ more, errorList (for_pairs annDir imgDir totalSteps idx pairs s).2
          = (errorList s ++ more)%list.
Proof.
  revert idx s. induction pairs as [|[a i] rest IH]; intros idx s.
  - exists []. by rewrite app_nil_r.
  - rewrite for_pairs_cons.
    destruct (process_pair_errors annDir imgDir totalSteps idx a i s) as [m1 E1].
    destruct (IH (S idx) (process_pair annDir imgDir totalSteps idx a i s).2)
      as [m2 E2].
    exists (m1 ++ m2)%list. by rewrite E2, E1, app_assoc.
Qed.

Lemma process_pairs_eq annDir imgDir pairs totalSteps s :
  process_pairs annDir imgDir pairs totalSteps s =
  let s' := (for_pairs annDir imgDir totalSteps 1 pairs s).2 in
  (Ok tt, emitting (processingFinished (length (errorList s') =? 0)%nat
                      (summary (length pairs) (errorList s'))) s').
Proof.
  unfold process_pairs. py_simpl.
  pose proof (for_pairs_Ok annDir imgDir totalSteps pairs 1 s) as H.
  destruct (for_pairs _ _ _ _ _ s) as [r s1]. cbn in H. by subst r.
Qed.

Lemma run_built annDir imgDir s pairs totalSteps s1 :
  build_pairs annDir imgDir (reset s) = (Ok (pairs, totalSteps), s1) →
  run annDir imgDir s = process_pairs annDir imgDir pairs totalSteps s1.
Proof.
  intros H. unfold run. py_simpl. fold (reset s). rewrite H.
  by rewrite process_pairs_eq.
Qed.

Lemma run_aborted annDir imgDir s e s1 :
  build_pairs annDir imgDir (reset s) = (Raise e, s1) →
  run annDir imgDir s =
    (Ok tt, emitting (processingFinished false ("严重错误：" ++ str e)) s1).
Proof. intros H. unfold run. py_simpl. fold (reset s). by rewrite H. Qed.

(** ** Progress accounting *)

Lemma progress_events_app l1 l2 :
  progress_events (l1 ++ l2) = (progress_events l1 ++ progress_events l2)%list.
Proof. apply omap_app. Qed.

Lemma patch_errors_app l1 l2 :
  patch_errors (l1 ++ l2) = patch_errors l1 + patch_errors l2.
Proof. unfold patch_errors. by rewrite filter_app, length_app. Qed.

Lemma lookup_count_up (totalSteps n i : nat) :
  ((λ c, (c, totalSteps)) <$> seq 0 n) !! i
  = if decide (i < n) then Some (i, totalSteps) else None.
Proof.
  rewrite list_lookup_fmap. case_decide.
  - by rewrite lookup_seq_lt.
  - by rewrite lookup_seq_ge by lia.
Qed.

Lemma counting_advanced pe0 totalSteps line s s1 :
  same_locals s s1 → counting pe0 totalSteps s →
  counting pe0 totalSteps (advanced totalSteps line s1)
  ∧ weight (advanced totalSteps line s1) = weight s + 1
  ∧ errorList (advanced totalSteps line s1) = errorList s.
Proof.
  intros (He & Hl & Hc) Hs. unfold counting, weight in *. st_simpl.
  rewrite !progress_events_app, He, Hs, Hl, Hc.
  split_and!; [|lia|done].
  rewrite Nat.add_1_r, (seq_S (S _)), fmap_app, app_assoc.
  cbn. by rewrite app_nil_r.
Qed.

Lemma counting_recorded pe0 totalSteps msg s s1 :
  same_locals s s1 → counting pe0 totalSteps s →
  counting pe0 totalSteps (recorded msg s1)
  ∧ weight (recorded msg s1)
    = weight s + 1 + (if is_patch_error msg then 2 else 0)
  ∧ errorList (recorded msg s1) = (errorList s ++ [msg])%list.
Proof.
  intros (He & Hl & Hc) Hs. unfold counting, weight in *. st_simpl.
  rewrite He, Hs, Hl, Hc, patch_errors_app, length_app.
  split_and!; [done| |done].
  unfold patch_errors at 2. rewrite filter_cons, filter_nil.
  destruct (is_patch_error msg); cbn [length]; case_decide; cbn; try done; lia.
Qed.

Lemma attempt_counting m pe0 totalSteps line report s :
  (∀ s, same_locals s (m s).2) →
  (∀ e, is_patch_error (report e) = false) →
  counting pe0 totalSteps s →
  let s' := (attempt m totalSteps line report s).2 in
  counting pe0 totalSteps s' ∧ weight s' = weight s + 1
  ∧ ∃ more, errorList s' = (errorList s ++ more)%list.
Proof.
  intros Hm Hr Hs. cbv zeta. rewrite attempt_cases.
  specialize (Hm s). destruct (m s) as [[[]|e] s1]; cbn [snd] in *.
  - destruct (counting_advanced pe0 totalSteps line s s1) as (?&?&?); try done.
    split_and!; try done. exists []. by rewrite app_nil_r.
  - destruct (counting_recorded pe0 totalSteps (report e) s s1) as (?&Hw&?);
      try done.
    rewrite Hr in Hw. split_and!; [done|lia|eauto].
Qed.

Lemma process_pair_counting annDir imgDir totalSteps idx annFile imgFile pe0 s :
  counting pe0 totalSteps s →
  let s' := (process_pair annDir imgDir totalSteps idx annFile imgFile s).2 in
  counting pe0 totalSteps s' ∧ weight s' = weight s + 3
  ∧ ∃ more, errorList s' = (errorList s ++ more)%list.
Proof.
  intros Hs. cbv zeta. rewrite process_pair_cases. cbv zeta.
  pose proof (parse_patch_write_locals annDir imgDir idx annFile
                (Str.lower (os_path.splitext imgFile).2) s) as Hp.
  destruct (parse_patch_write _ _ _ _ _ s) as [[[]|e] s1]; cbn [snd] in *.
  - destruct (counting_advanced pe0 totalSteps ("更新标签文件内容：" ++ annFile)
                s s1) as (C1 & W1 & E1); try done.
    set (s1' := advanced _ _ s1) in *.
    destruct (attempt_counting
                (replace_by_rename (annDir, annFile) (annDir, pretty idx ++ ".xml"))
                pe0 totalSteps ("重命名标签文件为：" ++ pretty idx ++ ".xml")
                (λ e, "重命名标签 " ++ annFile ++ " 时出错：" ++ str e) s1')
      as (C2 & W2 & more2 & E2); [| |exact C1|].
    { intros s0. by apply replace_by_rename_locals. }
    { intros e. reflexivity. }
    set (s2 := (attempt _ _ _ _ s1').2) in *.
    destruct (attempt_counting
                (replace_by_rename (imgDir, imgFile)
                   (imgDir, pretty idx ++ Str.lower (os_path.splitext imgFile).2))
                pe0 totalSteps
                ("重命名图片文件为：" ++ pretty idx
                   ++ Str.lower (os_path.splitext imgFile).2)
                (λ e, "重命名图片 " ++ imgFile ++ " 时出错：" ++ str e) s2)
      as (C3 & W3 & more3 & E3); [| |exact C2|].
    { intros s0. by apply replace_by_rename_locals. }
    { intros e. reflexivity. }
    split_and!; [exact C3|lia|].
    exists (more2 ++ more3)%list. by rewrite E3, E2, E1, app_assoc.
  - destruct (counting_recorded pe0 totalSteps
                ("更新标签 " ++ annFile ++ " 时出错：" ++ str e) s s1)
      as (C1 & W1 & E1); try done.
    unfold is_patch_error in W1. rewrite startswith_app in W1.
    split_and!; [done|lia|eauto].
Qed.

Lemma for_pairs_counting annDir imgDir totalSteps pe0 pairs idx s :
  counting pe0 totalSteps s →
  let s' := (for_pairs annDir imgDir totalSteps idx pairs s).2 in
  counting pe0 totalSteps s' ∧ weight s' = weight s + 3 * length pairs
  ∧ ∃ more, errorList s' = (errorList s ++ more)%list.
Proof.
  revert idx s. induction pairs as [|[a i] rest IH]; intros idx s Hs; cbv zeta.
  - cbn. split_and!; [done|lia|]. exists []. by rewrite app_nil_r.
  - rewrite for_pairs_cons.
    destruct (process_pair_counting annDir imgDir totalSteps idx a i pe0 s Hs)
      as (C1 & W1 & more1 & E1).
    destruct (IH (S idx) _ C1) as (C2 & W2 & more2 & E2).
    split_and!; [done|cbn [length]; lia|].
    exists (more1 ++ more2)%list. by rewrite E2, E1, app_assoc.
Qed.

(** ** The worker on the data sets *)

(** Three pairs, the second annotation malformed: the first and the third
    pair are renamed to 1 and 3, the second is left alone. *)
Example run_mixed :
  let sf := (run "ann" "img" (initial fs_mixed)).2 in
  progress_events (emitted sf)
  = [(0, 9); (1, 9); (2, 9); (3, 9); (4, 9); (5, 9); (6, 9)]
  ∧ errorList sf = ["更新标签 b.xml 时出错：syntax error: line 1, column 0"]
  ∧ last (emitted sf)
    = Some (processingFinished false
              "文件统一转换完成，共处理 3 对文件
部分错误：
更新标签 b.xml 时出错：syntax error: line 1, column 0")
  ∧ entry (fs sf) ("ann", "b.xml")
    = Some (File (NotXml "syntax error: line 1, column 0"))
  ∧ sorted ∘ listing <$> fs sf !! "ann" = Some ["1.xml"; "3.xml"; "b.xml"]
  ∧ sorted ∘ listing <$> fs sf !! "img" = Some ["1.jpg"; "3.jpg"; "b.jpg"].
Proof. vm_compute. repeat split. Qed.

(** An annotation already named [1.xml] is removed by its own rename; its
    image is renamed all the same. *)
Example run_named_1 :
  let sf := (run "ann" "img" (initial fs_named_1)).2 in
  progress_events (emitted sf) = [(0, 3); (1, 3); (2, 3)]
  ∧ length (errorList sf) = 1
  ∧ listing <$> fs sf !! "ann" = Some []
  ∧ listing <$> fs sf !! "img" = Some ["1.jpg"].
Proof. vm_compute. repeat split. Qed.

(** A normalized data set of two pairs: all four files are lost. *)
Example rerun_on_normalized_2 :
  let s' := (run "ann" "img" (initial fs_normalized_2)).2 in
  listing <$> fs s' !! "ann" = Some []
  ∧ listing <$> fs s' !! "img" = Some []
  ∧ length (errorList s') = 4.
Proof. vm_compute. repeat split. Qed.

(** ** The claims *)

(** C1 fails on the code: run on the normalized data set of one pair,
    [1.xml] and [1.jpg], the worker patches [1.xml], then removes it and
    fails to rename it, and does the same to [1.jpg]: both directories end
    up empty, two errors are recorded and the outcome flag is false. *)
Theorem rerun_on_normalized_loses_files :
  let s' := (run "ann" "img" (initial fs_normalized_1)).2 in
  annList_of {[ "1.xml" := File (Xml (voc "1.jpg" "img/1.jpg")) ]} = ["1.xml"]
  ∧ imgList_of {[ "1.jpg" := jpeg_bytes ]} = ["1.jpg"]
  ∧ listing <$> fs s' !! "ann" = Some []
  ∧ listing <$> fs s' !! "img" = Some []
  ∧ errorList s' =
      [ "重命名标签 1.xml 时出错：[Errno 2] No such file or directory: 'ann/1.xml' -> 'ann/1.xml'";
        "重命名图片 1.jpg 时出错：[Errno 2] No such file or directory: 'img/1.jpg' -> 'img/1.jpg'" ]
  ∧ ∃ msg, last (emitted s') = Some (processingFinished false msg).
Proof. vm_compute. repeat split. eexists. reflexivity. Qed.

(** C2: when both directories exist and the two candidate lists differ in
    length, the run ends with the count-mismatch failure, which names both
    counts, after the two directory checks and the two listings only: no
    file was parsed, written, removed or renamed, and the file system is
    what it was. *)
Theorem count_mismatch_aborts annDir imgDir s ea ei :
  fs s !! annDir = Some ea → fs s !! imgDir = Some ei →
  length (annList_of ea) ≠ length (imgList_of ei) →
  ∃ s', run annDir imgDir s = (Ok tt, s')
    ∧ fs s' = fs s
    ∧ syscalls s' = (syscalls s ++ [SysIsdir annDir; SysIsdir imgDir;
                                    SysListdir annDir; SysListdir imgDir])%list
    ∧ emitted s' = (emitted s ++
        [processingFinished false
           ("严重错误：标签文件数量(" ++ pretty (length (annList_of ea))
              ++ ")与图片文件数量(" ++ pretty (length (imgList_of ei))
              ++ ")不一致！")])%list
    ∧ errorList s' = [].
Proof.
  intros Ha Hi Hne.
  pose proof (build_pairs_exist annDir imgDir (reset s) ea ei Ha Hi) as Hb.
  cbv zeta in Hb. apply Nat.eqb_neq in Hne. rewrite Hne in Hb.
  eexists. split; [apply (run_aborted _ _ _ _ _ Hb)|].
  cbn. rewrite <- !app_assoc. done.
Qed.

Lemma count_mismatch_aborts_witness :
  ∃ s', run "ann" "img" (initial fs_3_2) = (Ok tt, s')
    ∧ fs s' = fs_3_2
    ∧ syscalls s' = [SysIsdir "ann"; SysIsdir "img";
                     SysListdir "ann"; SysListdir "img"]
    ∧ emitted s' =
        [processingFinished false
           "严重错误：标签文件数量(3)与图片文件数量(2)不一致！"]
    ∧ errorList s' = [].
Proof.
  refine (count_mismatch_aborts "ann" "img" (initial fs_3_2)
            {[ "a.xml" := File (Xml (voc "a.jpg" "/data/a.jpg"));
               "b.xml" := File (Xml (voc "b.jpg" "/data/b.jpg"));
               "c.xml" := File (Xml (voc "c.jpg" "/data/c.jpg")) ]}
            {[ "a.jpg" := jpeg_bytes; "b.jpg" := jpeg_bytes ]} _ _ _).
  - vm_compute. reflexivity.
  - vm_compute. reflexivity.
  - vm_compute. lia.
Defined.

(** C3: when both directories exist and [al] and [il] are the duplicate-free
    lists, sorted by code point, of their entries that pass the two filters,
    both of length [N], the pair builder returns exactly [N] pairs, the pair
    at each position being the name of [al] with the name of [il] at that
    position (the loop numbers the positions from 1), and the total step
    count it returns and reports first is [3 * N]. *)
Theorem pair_builder_zips annDir imgDir s ea ei al il N :
  fs s !! annDir = Some ea → fs s !! imgDir = Some ei →
  NoDup al → (∀ f, f ∈ al ↔ is_Some (ea !! f) ∧ is_ann f = true) →
  StronglySorted String.le al →
  NoDup il → (∀ f, f ∈ il ↔ is_Some (ei !! f) ∧ is_img f = true) →
  StronglySorted String.le il →
  length al = N → length il = N →
  ∃ pairs s',
    build_pairs annDir imgDir s = (Ok (pairs, 3 * N), s')
    ∧ length pairs = N
    ∧ (∀ i, i < N →
        ∃ a b, al !! i = Some a ∧ il !! i = Some b ∧ pairs !! i = Some (a, b))
    ∧ (∀ i a b, pairs !! i = Some (a, b) → al !! i = Some a ∧ il !! i = Some b)
    ∧ fs s' = fs s
    ∧ emitted s' = (emitted s ++
        [progressUpdated 0 (3 * N);
         logOutput ("共找到 " ++ pretty N ++ " 对文件")])%list.
Proof.
  intros Ha Hi Hnda Hela Hsa Hndi Heli Hsi Hla Hli.
  pose proof (build_pairs_exist annDir imgDir s ea ei Ha Hi) as Hb.
  cbv zeta in Hb. unfold annList_of, imgList_of in Hb.
  rewrite (candidates_characterised is_ann ea al) in Hb by done.
  rewrite (candidates_characterised is_img ei il) in Hb by done.
  assert (Hlen : length (zip al il) = N) by (rewrite length_zip; lia).
  rewrite Hla, Hli, Nat.eqb_refl, Hlen, (Nat.mul_comm N 3) in Hb.
  eexists _, _. split; [exact Hb|]. split; [done|]. split_and!.
  - intros i Hlt.
    destruct (lookup_lt_is_Some_2 al i) as [a Hai]; [lia|].
    destruct (lookup_lt_is_Some_2 il i) as [b Hbi]; [lia|].
    exists a, b. split_and!; try done.
    by rewrite lookup_zip_with, Hai, Hbi.
  - intros i a b. rewrite lookup_zip_with.
    destruct (al !! i) as [a'|]; [|done]. destruct (il !! i) as [b'|]; [|done].
    cbn. by intros [= -> ->].
  - done.
  - cbn. by rewrite <- app_assoc.
Qed.

Lemma pair_builder_zips_witness :
  ∃ pairs s',
    build_pairs "ann" "img" (initial fs_2_2) = (Ok (pairs, 3 * 2), s')
    ∧ length pairs = 2
    ∧ (∀ i, i < 2 →
        ∃ a b, ["a.xml"; "b.XML"] !! i = Some a
               ∧ ["photo.JPG"; "q.png"] !! i = Some b
               ∧ pairs !! i = Some (a, b))
    ∧ (∀ i a b, pairs !! i = Some (a, b) →
        ["a.xml"; "b.XML"] !! i = Some a ∧ ["photo.JPG"; "q.png"] !! i = Some b)
    ∧ fs s' = fs_2_2
    ∧ emitted s' = [progressUpdated 0 (3 * 2); logOutput "共找到 2 对文件"].
Proof.
  pose (ea := ({[ "b.XML" := File (Xml (ET.mkElement "annotation" [] None None []));
       "a.xml" := File (Xml (voc "x.jpeg" "/old/x.jpeg"));
       "readme.md" := jpeg_bytes ]} : gmap string node)).
  pose (ei := ({[ "q.png" := jpeg_bytes; "photo.JPG" := jpeg_bytes;
       "notes.txt" := jpeg_bytes ]} : gmap string node)).
  destruct (annList_of_spec ea) as (Ha1 & Ha2 & Ha3).
  destruct (imgList_of_spec ei) as (Hi1 & Hi2 & Hi3).
  refine (pair_builder_zips "ann" "img" (initial fs_2_2) ea ei
            ["a.xml"; "b.XML"] ["photo.JPG"; "q.png"] 2 _ _ _ _ _ _ _ _ _ _).
  - vm_compute. reflexivity.
  - vm_compute. reflexivity.
  - exact Ha1.
  - exact Ha2.
  - exact Ha3.
  - exact Hi1.
  - exact Hi2.
  - exact Hi3.
  - reflexivity.
  - reflexivity.
Defined.

(** C5: when the patch step of a pair raises, the loop body records exactly
    one error, which names the annotation file, makes no further file-system
    call (so neither rename is tried), emits nothing and leaves the file
    system as it was; the loop goes on with the remaining pairs; and the run
    ends with the flag false and a message that starts with the full pair
    count. *)
Theorem patch_failure_isolated annDir imgDir totalSteps annFile imgFile
    pre rest s0 s e s1 :
  let idx := S (length pre) in
  let img_ext := Str.lower (os_path.splitext imgFile).2 in
  let pairs := (pre ++ (annFile, imgFile) :: rest)%list in
  let report := "更新标签 " ++ annFile ++ " 时出错：" ++ str e in
  (for_pairs annDir imgDir totalSteps 1 pre s0).2 = s →
  update_annotation annDir imgDir totalSteps idx annFile img_ext s = (Raise e, s1) →
  let s' := (process_pair annDir imgDir totalSteps idx annFile imgFile s).2 in
  let sf := (for_pairs annDir imgDir totalSteps (S idx) rest s').2 in
  errorList s' = (errorList s ++ [report])%list
  ∧ Str.contains report annFile
  ∧ syscalls s' = (syscalls s ++ [SysParse (annDir, annFile)])%list
  ∧ fs s' = fs s ∧ emitted s' = emitted s
  ∧ currentProgress s' = currentProgress s
  ∧ (for_pairs annDir imgDir totalSteps 1 pairs s0).2 = sf
  ∧ errorList sf ≠ []
  ∧ process_pairs annDir imgDir pairs totalSteps s0
    = (Ok tt, emitting (processingFinished false
                          (summary (length pairs) (errorList sf))) sf)
  ∧ Str.startswith (summary (length pairs) (errorList sf))
      ("文件统一转换完成，共处理 " ++ pretty (length pairs) ++ " 对文件") = true.
Proof.
  cbv zeta. intros Hpre Hu.
  apply update_annotation_Raise in Hu as [-> Hp].
  rewrite !process_pair_cases. cbv zeta. rewrite Hp. cbn [snd]. st_simpl.
  set (report := "更新标签 " ++ annFile ++ " 时出错：" ++ str e).
  set (s' := recorded report _).
  set (pairs := (pre ++ (annFile, imgFile) :: rest)%list).
  assert ((for_pairs annDir imgDir totalSteps 1 pairs s0).2
          = (for_pairs annDir imgDir totalSteps (S (S (length pre))) rest s').2)
    as Hloop.
  { unfold pairs. rewrite for_pairs_app, Hpre, for_pairs_cons.
    change (1 + length pre) with (S (length pre)).
    rewrite process_pair_cases. cbv zeta. rewrite Hp. reflexivity. }
  assert (errorList (for_pairs annDir imgDir totalSteps (S (S (length pre))) rest s').2
          ≠ []) as Hne.
  { destruct (for_pairs_errors annDir imgDir totalSteps rest (S (S (length pre))) s')
      as [more ->].
    unfold s'. st_simpl. by destruct (errorList s). }
  split_and!; try done.
  - apply contains_here.
  - rewrite process_pairs_eq. cbv zeta. rewrite Hloop.
    destruct (errorList _); done.
  - unfold summary.
    set (base := "文件统一转换完成，共处理 " ++ pretty (length pairs) ++ " 对文件").
    destruct (negb _); [destruct (_ <? _)%nat|].
    + rewrite (append_assoc base). apply startswith_app.
    + apply startswith_app.
    + rewrite <- (append_nil_r base) at 1. apply startswith_app.
Qed.

Lemma patch_failure_isolated_witness :
  let annDir := "ann" in
  let imgDir := "img" in
  let totalSteps := 9 in
  let annFile := "b.xml" in
  let imgFile := "b.jpg" in
  let pre := [("a.xml", "a.jpg")] in
  let rest := [("c.xml", "c.jpg")] in
  let s0 := (build_pairs annDir imgDir (initial fs_mixed)).2 in
  let s := (for_pairs annDir imgDir totalSteps 1 pre s0).2 in
  let e := Exception ParseError "syntax error: line 1, column 0" in
  let idx := S (length pre) in
  let img_ext := Str.lower (os_path.splitext imgFile).2 in
  let pairs := (pre ++ (annFile, imgFile) :: rest)%list in
  let report := "更新标签 " ++ annFile ++ " 时出错：" ++ str e in
  let s' := (process_pair annDir imgDir totalSteps idx annFile imgFile s).2 in
  let sf := (for_pairs annDir imgDir totalSteps (S idx) rest s').2 in
  update_annotation annDir imgDir totalSteps idx annFile img_ext s
  = (Raise e, (update_annotation annDir imgDir totalSteps idx annFile img_ext s).2)
  ∧ errorList s' = (errorList s ++ [report])%list
  ∧ Str.contains report annFile
  ∧ syscalls s' = (syscalls s ++ [SysParse (annDir, annFile)])%list
  ∧ fs s' = fs s ∧ emitted s' = emitted s
  ∧ currentProgress s' = currentProgress s
  ∧ (for_pairs annDir imgDir totalSteps 1 pairs s0).2 = sf
  ∧ errorList sf ≠ []
  ∧ process_pairs annDir imgDir pairs totalSteps s0
    = (Ok tt, emitting (processingFinished false
                          (summary (length pairs) (errorList sf))) sf)
  ∧ Str.startswith (summary (length pairs) (errorList sf))
      ("文件统一转换完成，共处理 " ++ pretty (length pairs) ++ " 对文件") = true.
Proof.
  pose (s0 := (build_pairs "ann" "img" (initial fs_mixed)).2).
  pose (s := (for_pairs "ann" "img" 9 1 [("a.xml", "a.jpg")] s0).2).
  assert (update_annotation "ann" "img" 9 2 "b.xml"
            (Str.lower (os_path.splitext "b.jpg").2) s
          = (Raise (Exception ParseError "syntax error: line 1, column 0"),
             (update_annotation "ann" "img" 9 2 "b.xml"
                (Str.lower (os_path.splitext "b.jpg").2) s).2)) as H
    by (vm_compute; reflexivity).
  split; [exact H|].
  exact (patch_failure_isolated "ann" "img" 9 "b.xml" "b.jpg"
           [("a.xml", "a.jpg")] [("c.xml", "c.jpg")] s0 s _ _ eq_refl H).
Defined.

(** C6: when the patch step of a pair succeeded and the metadata rename
    raises, the error is recorded and the loop body goes on with the image
    rename from there, whose first file-system call (the existence test of
    the new image path) is made; and whatever the two renames do, the loop
    body returns and the loop goes on with the remaining pairs, to its end. *)
Theorem rename_steps_independent annDir imgDir totalSteps idx annFile imgFile
    rest s s1 e s2 :
  let img_ext := Str.lower (os_path.splitext imgFile).2 in
  update_annotation annDir imgDir totalSteps idx annFile img_ext s = (Ok tt, s1) →
  rename_annotation annDir totalSteps idx annFile s1 = (Raise e, s2) →
  let report := "重命名标签 " ++ annFile ++ " 时出错：" ++ str e in
  let newImgPath := (imgDir, pretty idx ++ img_ext) in
  let s2' := recorded report s2 in
  let s3 := (process_pair annDir imgDir totalSteps idx annFile imgFile s).2 in
  process_pair annDir imgDir totalSteps idx annFile imgFile s
  = try_except (rename_image imgDir totalSteps idx imgFile img_ext)
      (λ e, errorList_append ("重命名图片 " ++ imgFile ++ " 时出错：" ++ str e))
      s2'
  ∧ (∃ more, errorList s3 = (errorList s ++ report :: more)%list)
  ∧ (∃ cs, syscalls s3 = (syscalls s2 ++ SysExists newImgPath :: cs)%list)
  ∧ for_pairs annDir imgDir totalSteps idx ((annFile, imgFile) :: rest) s
    = for_pairs annDir imgDir totalSteps (S idx) rest s3
  ∧ (∀ pairs idx' s', (for_pairs annDir imgDir totalSteps idx' pairs s').1 = Ok tt)
  ∧ (∀ idx' a i s',
       (process_pair annDir imgDir totalSteps idx' a i s').1 = Ok tt).
Proof.
  cbv zeta. intros Hu Hr.
  assert (process_pair annDir imgDir totalSteps idx annFile imgFile s
          = try_except
              (rename_image imgDir totalSteps idx imgFile
                 (Str.lower (os_path.splitext imgFile).2))
              (λ e, errorList_append
                      ("重命名图片 " ++ imgFile ++ " 时出错：" ++ str e))
              (recorded ("重命名标签 " ++ annFile ++ " 时出错：" ++ str e) s2))
    as Hpp.
  { unfold process_pair. py_simpl. rewrite Hu. py_simpl. rewrite Hr.
    reflexivity. }
  split_and!.
  - exact Hpp.
  - assert (errorList s2 = errorList s) as He2.
    { rewrite update_annotation_eq in Hu.
      apply then_advance_Ok in Hu as (s0 & Hu & ->).
      pose proof (parse_patch_write_locals annDir imgDir idx annFile
                    (Str.lower (os_path.splitext imgFile).2) s) as (_ & H0 & _).
      rewrite Hu in H0. cbn [snd] in H0.
      rewrite rename_annotation_eq in Hr. unfold then_advance in Hr.
      set (st := advanced _ _ s0) in *.
      pose proof (replace_by_rename_locals (annDir, annFile)
                    (annDir, pretty idx ++ ".xml") st eq_refl) as (_ & H1 & _).
      destruct (replace_by_rename _ _ st) as [[[]|e'] s']; [done|].
      simplify_eq. cbn [snd] in H1. by rewrite H1. }
    rewrite Hpp. py_simpl. rewrite rename_image_eq. unfold then_advance.
    set (st := recorded _ s2).
    pose proof (replace_by_rename_locals (imgDir, imgFile)
                  (imgDir, pretty idx ++ Str.lower (os_path.splitext imgFile).2)
                  st eq_refl) as (_ & H3 & _).
    destruct (replace_by_rename _ _ st) as [[[]|e3] s3]; cbn [snd] in *;
      st_simpl; rewrite H3; unfold st; st_simpl; rewrite He2.
    + by exists [].
    + rewrite <- app_assoc. eauto.
  - rewrite Hpp. py_simpl. rewrite rename_image_eq. unfold then_advance.
    set (st := recorded _ s2).
    destruct (replace_by_rename_syscalls (imgDir, imgFile)
                (imgDir, pretty idx ++ Str.lower (os_path.splitext imgFile).2)
                st eq_refl) as [cs Hcs].
    exists cs. destruct (replace_by_rename _ _ st) as [[[]|e3] s3]; exact Hcs.
  - apply for_pairs_cons.
  - intros. apply for_pairs_Ok.
  - intros. apply process_pair_Ok.
Qed.

Lemma rename_steps_independent_witness :
  let annDir := "ann" in
  let imgDir := "img" in
  let totalSteps := 3 in
  let idx := 1 in
  let annFile := "1.xml" in
  let imgFile := "photo.JPG" in
  let rest := [] in
  let s := (build_pairs annDir imgDir (initial fs_named_1)).2 in
  let img_ext := Str.lower (os_path.splitext imgFile).2 in
  let s1 := (update_annotation annDir imgDir totalSteps idx annFile img_ext s).2 in
  let e := ENOENT2 (annDir, annFile) (annDir, annFile) in
  let s2 := (rename_annotation annDir totalSteps idx annFile s1).2 in
  let report := "重命名标签 " ++ annFile ++ " 时出错：" ++ str e in
  let newImgPath := (imgDir, pretty idx ++ img_ext) in
  let s2' := recorded report s2 in
  let s3 := (process_pair annDir imgDir totalSteps idx annFile imgFile s).2 in
  update_annotation annDir imgDir totalSteps idx annFile img_ext s = (Ok tt, s1)
  ∧ rename_annotation annDir totalSteps idx annFile s1 = (Raise e, s2)
  ∧ process_pair annDir imgDir totalSteps idx annFile imgFile s
    = try_except (rename_image imgDir totalSteps idx imgFile img_ext)
        (λ e, errorList_append ("重命名图片 " ++ imgFile ++ " 时出错：" ++ str e))
        s2'
  ∧ (∃ more, errorList s3 = (errorList s ++ report :: more)%list)
  ∧ (∃ cs, syscalls s3 = (syscalls s2 ++ SysExists newImgPath :: cs)%list)
  ∧ for_pairs annDir imgDir totalSteps idx ((annFile, imgFile) :: rest) s
    = for_pairs annDir imgDir totalSteps (S idx) rest s3
  ∧ (∀ pairs idx' s', (for_pairs annDir imgDir totalSteps idx' pairs s').1 = Ok tt)
  ∧ (∀ idx' a i s',
       (process_pair annDir imgDir totalSteps idx' a i s').1 = Ok tt).
Proof.
  pose (s := (build_pairs "ann" "img" (initial fs_named_1)).2).
  pose (s1 := (update_annotation "ann" "img" 3 1 "1.xml"
                 (Str.lower (os_path.splitext "photo.JPG").2) s).2).
  assert (update_annotation "ann" "img" 3 1 "1.xml"
            (Str.lower (os_path.splitext "photo.JPG").2) s = (Ok tt, s1)) as H1
    by (vm_compute; reflexivity).
  assert (rename_annotation "ann" 3 1 "1.xml" s1
          = (Raise (ENOENT2 ("ann", "1.xml") ("ann", "1.xml")),
             (rename_annotation "ann" 3 1 "1.xml" s1).2)) as H2
    by (vm_compute; reflexivity).
  split; [exact H1|]. split; [exact H2|].
  exact (rename_steps_independent "ann" "img" 3 1 "1.xml" "photo.JPG" []
           s s1 _ _ H1 H2).
Defined.

(** C7: in a run that is not aborted at run level, the last signal is the
    outcome; its flag is true exactly when no error was recorded; its message
    names the number of pairs; with one to five errors it lists them all,
    with more it lists the first five and then says how many remain. *)
Theorem run_outcome annDir imgDir s pairs totalSteps s1 :
  build_pairs annDir imgDir (reset s) = (Ok (pairs, totalSteps), s1) →
  let sf := (run annDir imgDir s).2 in
  let errs := errorList sf in
  let base := "文件统一转换完成，共处理 " ++ pretty (length pairs) ++ " 对文件" in
  let listed := base ++ "
部分错误：
" ++ Str.join "
" (take 5 errs) in
  ∃ ok msg,
    (run annDir imgDir s).1 = Ok tt
    ∧ last (emitted sf) = Some (processingFinished ok msg)
    ∧ (ok = true ↔ errs = [])
    ∧ Str.contains msg (pretty (length pairs))
    ∧ (errs = [] → msg = base)
    ∧ (errs ≠ [] → (length errs ≤ 5)%nat → msg = listed)
    ∧ (5 < length errs →
       msg = listed ++ "
……还有 " ++ pretty (length errs - 5) ++ " 个错误")
    ∧ (errs ≠ [] → ∀ e, e ∈ take 5 errs → Str.contains msg e)
    ∧ (5 < length errs → Str.contains msg (pretty (length errs - 5))).
Proof.
  intros Hb. cbv zeta. rewrite (run_built _ _ _ _ _ _ Hb), process_pairs_eq.
  cbv zeta. cbn [fst snd]. st_simpl.
  generalize (errorList (for_pairs annDir imgDir totalSteps 1 pairs s1).2).
  intros l.
  eexists _, _. split; [done|]. split; [by rewrite last_snoc|].
  unfold summary.
  destruct l as [|e0 errs']; [|set (errs := e0 :: errs')].
  - cbn. split_and!; try done; try (intros; lia).
    apply contains_app_r, contains_app_l, contains_refl.
  - assert ((length errs =? 0)%nat = false) as -> by done. cbn [negb].
    split_and!; try done.
    + destruct (5 <? length errs)%nat.
      * apply contains_app_l, contains_app_l, contains_app_r,
          contains_app_l, contains_refl.
      * apply contains_app_l, contains_app_r, contains_app_l, contains_refl.
    + intros _ Hle. by apply Nat.ltb_ge in Hle as ->.
    + intros Hlt. by apply Nat.ltb_lt in Hlt as ->.
    + intros _ e Hin. destruct (5 <? length errs)%nat.
      * by apply contains_app_l, contains_app_r, contains_app_r, join_contains.
      * by apply contains_app_r, contains_app_r, join_contains.
    + intros Hlt. apply Nat.ltb_lt in Hlt as ->.
      apply contains_app_r, contains_app_r, contains_app_l, contains_refl.
Qed.

Lemma run_outcome_witness :
  let annDir := "ann" in
  let imgDir := "img" in
  let s := initial fs_mixed in
  let pairs := pairs_mixed in
  let sf := (run annDir imgDir s).2 in
  let errs := errorList sf in
  let base := "文件统一转换完成，共处理 " ++ pretty (length pairs) ++ " 对文件" in
  let listed := base ++ "
部分错误：
" ++ Str.join "
" (take 5 errs) in
  build_pairs annDir imgDir (reset s)
  = (Ok (pairs, 9), (build_pairs annDir imgDir (reset s)).2)
  ∧ ∃ ok msg,
    (run annDir imgDir s).1 = Ok tt
    ∧ last (emitted sf) = Some (processingFinished ok msg)
    ∧ (ok = true ↔ errs = [])
    ∧ Str.contains msg (pretty (length pairs))
    ∧ (errs = [] → msg = base)
    ∧ (errs ≠ [] → (length errs ≤ 5)%nat → msg = listed)
    ∧ (5 < length errs →
       msg = listed ++ "
……还有 " ++ pretty (length errs - 5) ++ " 个错误")
    ∧ (errs ≠ [] → ∀ e, e ∈ take 5 errs → Str.contains msg e)
    ∧ (5 < length errs → Str.contains msg (pretty (length errs - 5))).
Proof.
  assert (build_pairs "ann" "img" (reset (initial fs_mixed))
          = (Ok (pairs_mixed, 9),
             (build_pairs "ann" "img" (reset (initial fs_mixed))).2)) as H
    by (vm_compute; reflexivity).
  split; [exact H|].
  exact (run_outcome "ann" "img" (initial fs_mixed) pairs_mixed 9 _ H).
Defined.

(** C8 as stated fails: the worker, run on one annotation and the image
    [photo.JPG], whose extension is [.JPG], records no error and leaves the
    image under [1.jpg]; there is no [1.JPG]. *)
Lemma image_extension_not_kept :
  let s' := (run "ann" "img" (initial fs_empty_fields)).2 in
  (os_path.splitext "photo.JPG").2 = ".JPG"
  ∧ errorList s' = []
  ∧ entry (fs s') ("img", "1" ++ ".JPG") = None
  ∧ entry (fs s') ("img", "1.jpg") = Some jpeg_bytes
  ∧ entry (fs s') ("img", "photo.JPG") = None.
Proof. vm_compute. done. Qed.

(** C9: a bare [.xml] entry (in any letter case) passes the annotation
    filter, a bare [.jpg], [.jpeg] or [.png] entry (in any letter case) fails
    the image filter; so adding the first to a directory lengthens its
    annotation candidate list by one, and adding the second to a directory
    leaves its image candidate list as long as it was. *)
Theorem dotfile_asymmetry (x j : string) (ea ei : gmap string node) (n : node) :
  Str.lower x = ".xml" → Str.lower j ∈ allowedImgExts →
  ea !! x = None → ei !! j = None →
  is_ann x = true ∧ is_img j = false
  ∧ x ∈ annList_of (<[x:=n]> ea) ∧ (j ∉ imgList_of (<[j:=n]> ei))
  ∧ length (annList_of (<[x:=n]> ea)) = S (length (annList_of ea))
  ∧ length (imgList_of (<[j:=n]> ei)) = length (imgList_of ei).
Proof.
  intros Hx%is_ann_bare_xml Hj%is_img_bare_ext Hea Hei.
  split_and!; try done.
  - apply annList_of_spec. by rewrite lookup_insert_eq.
  - intros [_ H]%imgList_of_spec. congruence.
  - unfold annList_of. rewrite !sorted_length, listing_insert by done.
    rewrite filter_cons_True; [done|]. by rewrite Hx.
  - unfold imgList_of. rewrite !sorted_length, listing_insert by done.
    rewrite filter_cons_False; [done|]. rewrite Hj. by intros [].
Qed.

Lemma dotfile_asymmetry_witness :
  is_ann ".XML" = true ∧ is_img ".jpg" = false
  ∧ ".XML" ∈ annList_of (<[".XML":=jpeg_bytes]> {[ "a.xml" := jpeg_bytes ]})
  ∧ (".jpg" ∉ imgList_of (<[".jpg":=jpeg_bytes]> {[ "a.jpg" := jpeg_bytes ]}))
  ∧ length (annList_of (<[".XML":=jpeg_bytes]> {[ "a.xml" := jpeg_bytes ]}))
    = S (length (annList_of {[ "a.xml" := jpeg_bytes ]}))
  ∧ length (imgList_of (<[".jpg":=jpeg_bytes]> {[ "a.jpg" := jpeg_bytes ]}))
    = length (imgList_of {[ "a.jpg" := jpeg_bytes ]}).
Proof.
  apply (dotfile_asymmetry ".XML" ".jpg").
  - reflexivity.
  - vm_compute. set_solver.
  - reflexivity.
  - reflexivity.
Defined.

(** C10: in a run that reaches the pairing stage with [N] pairs, the
    progress events it emits start with [(0, 3 * N)]; each later one has the
    same total and a completed count one more than the one before it; every
    completed count is at most [3 * N]; and the last completed count, the
    number of errors recorded and twice the number of patch errors (two
    renames skipped for each) add up to [3 * N]. *)
Theorem progress_events_count_up annDir imgDir s pairs totalSteps s1 :
  build_pairs annDir imgDir (reset s) = (Ok (pairs, totalSteps), s1) →
  let N := length pairs in
  let sf := (run annDir imgDir s).2 in
  ∃ ev,
    progress_events (emitted sf) = (progress_events (emitted s) ++ ev)%list
    ∧ ev !! 0 = Some (0, 3 * N)
    ∧ (∀ i c t c' t', ev !! i = Some (c, t) → ev !! S i = Some (c', t') →
                      t' = 3 * N ∧ c' = c + 1)
    ∧ (∀ c t, (c, t) ∈ ev → (0 ≤ c)%nat ∧ (c ≤ 3 * N)%nat ∧ t = 3 * N)
    ∧ last ev = Some (currentProgress sf, 3 * N)
    ∧ currentProgress sf + length (errorList sf)
      + 2 * patch_errors (errorList sf) = 3 * N.
Proof.
  intros Hb. cbv zeta. rewrite (run_built _ _ _ _ _ _ Hb), process_pairs_eq.
  cbv zeta. st_simpl. cbn [snd]. st_simpl.
  apply build_pairs_Ok_inv in Hb as (-> & _ & He & Hc & Hem).
  assert (counting (progress_events (emitted s)) (3 * length pairs) s1) as C0.
  { unfold counting. by rewrite Hem, Hc, progress_events_app. }
  assert (weight s1 = 0) as W0.
  { unfold weight. rewrite He, Hc. reflexivity. }
  destruct (for_pairs_counting annDir imgDir (3 * length pairs) _ pairs 1 s1 C0)
    as (C & W & _).
  set (s2 := (for_pairs _ _ _ _ _ s1).2) in *.
  unfold weight in W. fold (weight s1) in W. rewrite W0 in W.
  exists ((λ c, (c, 3 * length pairs)) <$> seq 0 (S (currentProgress s2))).
  split_and!.
  - rewrite progress_events_app, C. cbn. by rewrite app_nil_r.
  - done.
  - intros i c t c' t'. rewrite !lookup_count_up.
    repeat case_decide; try done. by intros [= <- <-] [= <- <-]; split; [|lia].
  - intros c t [i Hi]%list_elem_of_lookup. rewrite lookup_count_up in Hi.
    case_decide; [|done]. simplify_eq. split_and!; [lia|lia|done].
  - rewrite seq_S, fmap_app. cbn [fmap list_fmap]. by rewrite last_snoc.
  - lia.
Qed.

Lemma progress_events_count_up_witness :
  let annDir := "ann" in
  let imgDir := "img" in
  let s := initial fs_mixed in
  let pairs := pairs_mixed in
  let N := length pairs in
  let sf := (run annDir imgDir s).2 in
  build_pairs annDir imgDir (reset s)
  = (Ok (pairs, 9), (build_pairs annDir imgDir (reset s)).2)
  ∧ ∃ ev,
    progress_events (emitted sf) = (progress_events (emitted s) ++ ev)%list
    ∧ ev !! 0 = Some (0, 3 * N)
    ∧ (∀ i c t c' t', ev !! i = Some (c, t) → ev !! S i = Some (c', t') →
                      t' = 3 * N ∧ c' = c + 1)
    ∧ (∀ c t, (c, t) ∈ ev → (0 ≤ c)%nat ∧ (c ≤ 3 * N)%nat ∧ t = 3 * N)
    ∧ last ev = Some (currentProgress sf, 3 * N)
    ∧ currentProgress sf + length (errorList sf)
      + 2 * patch_errors (errorList sf) = 3 * N.
Proof.
  assert (build_pairs "ann" "img" (reset (initial fs_mixed))
          = (Ok (pairs_mixed, 9),
             (build_pairs "ann" "img" (reset (initial fs_mixed))).2)) as H
    by (vm_compute; reflexivity).
  split; [exact H|].
  exact (progress_events_count_up "ann" "img" (initial fs_mixed)
           pairs_mixed 9 _ H).
Defined.

(** * Further properties of the worker *)

(** ** The run-level checks *)

(** The pair builder raises before it emits or changes anything. *)
Lemma build_pairs_Raise_inv annDir imgDir s e s1 :
  build_pairs annDir imgDir s = (Raise e, s1) →
  fs s1 = fs s ∧ same_locals s s1.
Proof.
  destruct (fs s !! annDir) as [ea|] eqn:Ha;
    [destruct (fs s !! imgDir) as [ei|] eqn:Hi|].
  - rewrite (build_pairs_exist annDir imgDir s ea ei Ha Hi).
    destruct (_ =? _)%nat; [done|]. by intros [= <- <-].
  - unfold build_pairs, os_path_isdir. py_simpl. rewrite Ha.
    rewrite bool_decide_eq_true_2 by eauto. py_simpl. rewrite Hi.
    rewrite bool_decide_eq_false_2 by (by intros [? ?]). py_simpl.
    by intros [= <- <-].
  - unfold build_pairs, os_path_isdir. py_simpl. rewrite Ha.
    rewrite bool_decide_eq_false_2 by (by intros [? ?]). py_simpl.
    by intros [= <- <-].
Qed.

(** X1: when the annotation directory does not exist, whether or not the
    image directory does, the run ends at once with the fatal outcome that
    names the annotation directory; the one file-system call made is the
    test of that directory, and the file system is as it was. *)
Theorem missing_annotation_directory annDir imgDir s :
  fs s !! annDir = None →
  ∃ s', run annDir imgDir s = (Ok tt, s')
    ∧ fs s' = fs s
    ∧ syscalls s' = (syscalls s ++ [SysIsdir annDir])%list
    ∧ emitted s' = (emitted s ++
        [processingFinished false
           ("严重错误：标签(Annotations)文件夹不存在：" ++ annDir)])%list
    ∧ errorList s' = [].
Proof.
  intros Ha. eexists. split.
  - apply run_aborted. unfold build_pairs, os_path_isdir. py_simpl.
    cbn [reset fs]. rewrite Ha.
    rewrite bool_decide_eq_false_2 by (by intros [? ?]).
    py_simpl. reflexivity.
  - done.
Qed.

Lemma missing_annotation_directory_witness :
  let annDir := "labels" in
  let imgDir := "pictures" in
  let s := initial fs_3_2 in
  fs s !! annDir = None
  ∧ ∃ s', run annDir imgDir s = (Ok tt, s')
    ∧ fs s' = fs s
    ∧ syscalls s' = (syscalls s ++ [SysIsdir annDir])%list
    ∧ emitted s' = (emitted s ++
        [processingFinished false
           ("严重错误：标签(Annotations)文件夹不存在：" ++ annDir)])%list
    ∧ errorList s' = [].
Proof.
  assert (fs (initial fs_3_2) !! "labels" = None) as H
    by (vm_compute; reflexivity).
  split; [exact H|].
  exact (missing_annotation_directory "labels" "pictures" (initial fs_3_2) H).
Defined.

(** X2: when the annotation directory exists and the image directory does
    not, the run ends with the fatal outcome that names the image directory,
    after the two directory tests and before any listing; the file system is
    as it was. *)
Theorem missing_image_directory annDir imgDir s :
  is_Some (fs s !! annDir) → fs s !! imgDir = None →
  ∃ s', run annDir imgDir s = (Ok tt, s')
    ∧ fs s' = fs s
    ∧ syscalls s' = (syscalls s ++ [SysIsdir annDir; SysIsdir imgDir])%list
    ∧ emitted s' = (emitted s ++
        [processingFinished false
           ("严重错误：图片(JPEGImages)文件夹不存在：" ++ imgDir)])%list
    ∧ errorList s' = [].
Proof.
  intros Ha Hi. eexists. split.
  - apply run_aborted. unfold build_pairs, os_path_isdir, reset. py_simpl.
    rewrite bool_decide_eq_true_2 by done. py_simpl.
    rewrite Hi. rewrite bool_decide_eq_false_2 by (by intros [? ?]).
    py_simpl. reflexivity.
  - cbn. by rewrite <- app_assoc.
Qed.

Lemma missing_image_directory_witness :
  let annDir := "ann" in
  let imgDir := "pictures" in
  let s := initial fs_3_2 in
  is_Some (fs s !! annDir) ∧ fs s !! imgDir = None
  ∧ ∃ s', run annDir imgDir s = (Ok tt, s')
    ∧ fs s' = fs s
    ∧ syscalls s' = (syscalls s ++ [SysIsdir annDir; SysIsdir imgDir])%list
    ∧ emitted s' = (emitted s ++
        [processingFinished false
           ("严重错误：图片(JPEGImages)文件夹不存在：" ++ imgDir)])%list
    ∧ errorList s' = [].
Proof.
  assert (is_Some (fs (initial fs_3_2) !! "ann")) as Ha
    by (vm_compute; eauto).
  assert (fs (initial fs_3_2) !! "pictures" = None) as Hi
    by (vm_compute; reflexivity).
  split; [exact Ha|]. split; [exact Hi|].
  exact (missing_image_directory "ann" "pictures" (initial fs_3_2) Ha Hi).
Defined.

(** ** The signals of a run *)

Lemma attempt_emits m totalSteps line report s :
  (∀ s, same_locals s (m s).2) →
  ∃ body, emitted (attempt m totalSteps line report s).2
          = (emitted s ++ body)%list
          ∧ Forall (λ g, is_finished g = false) body.
Proof.
  intros Hm. rewrite attempt_cases. specialize (Hm s).
  destruct (m s) as [[[]|e] s1]; destruct Hm as (He & _ & _); cbn [snd] in *;
    st_simpl; rewrite He.
  - exists [progressUpdated (currentProgress s1 + 1) totalSteps; logOutput line].
    split; [by rewrite <- app_assoc|]. by repeat constructor.
  - exists []. by rewrite app_nil_r.
Qed.

Lemma process_pair_emits annDir imgDir totalSteps idx annFile imgFile s :
  ∃ body, emitted (process_pair annDir imgDir totalSteps idx annFile imgFile s).2
          = (emitted s ++ body)%list
          ∧ Forall (λ g, is_finished g = false) body.
Proof.
  rewrite process_pair_cases. cbv zeta.
  pose proof (parse_patch_write_locals annDir imgDir idx annFile
                (Str.lower (os_path.splitext imgFile).2) s) as (Hp & _ & _).
  destruct (parse_patch_write _ _ _ _ _ s) as [[[]|e] s1]; cbn [snd] in *.
  - set (s1' := advanced _ _ s1).
    destruct (attempt_emits
                (replace_by_rename (annDir, annFile) (annDir, pretty idx ++ ".xml"))
                totalSteps ("重命名标签文件为：" ++ pretty idx ++ ".xml")
                (λ e, "重命名标签 " ++ annFile ++ " 时出错：" ++ str e) s1')
      as (b2 & E2 & F2).
    { intros s0. by apply replace_by_rename_locals. }
    set (s2 := (attempt _ _ _ _ s1').2) in *.
    destruct (attempt_emits
                (replace_by_rename (imgDir, imgFile)
                   (imgDir, pretty idx ++ Str.lower (os_path.splitext imgFile).2))
                totalSteps
                ("重命名图片文件为：" ++ pretty idx
                   ++ Str.lower (os_path.splitext imgFile).2)
                (λ e, "重命名图片 " ++ imgFile ++ " 时出错：" ++ str e) s2)
      as (b3 & E3 & F3).
    { intros s0. by apply replace_by_rename_locals. }
    exists ([progressUpdated (currentProgress s1 + 1) totalSteps;
             logOutput ("更新标签文件内容：" ++ annFile)] ++ b2 ++ b3)%list.
    split.
    + rewrite E3, E2. unfold s1'. st_simpl. rewrite Hp.
      by rewrite <- !app_assoc.
    + apply Forall_app. split; [by repeat constructor|].
      by apply Forall_app.
  - exists []. st_simpl. by rewrite Hp, app_nil_r.
Qed.

Lemma for_pairs_emits annDir imgDir totalSteps pairs idx s :
  ∃ body, emitted (for_pairs annDir imgDir totalSteps idx pairs s).2
          = (emitted s ++ body)%list
          ∧ Forall (λ g, is_finished g = false) body.
Proof.
  revert idx s. induction pairs as [|[a i] rest IH]; intros idx s.
  - exists []. by rewrite app_nil_r.
  - rewrite for_pairs_cons.
    destruct (process_pair_emits annDir imgDir totalSteps idx a i s)
      as (b1 & E1 & F1).
    destruct (IH (S idx) (process_pair annDir imgDir totalSteps idx a i s).2)
      as (b2 & E2 & F2).
    exists (b1 ++ b2)%list. split; [by rewrite E2, E1, app_assoc|].
    by apply Forall_app.
Qed.

(** X3: whatever the two directories hold, the run returns and emits
    exactly one outcome signal, as its last signal; what it emits before are
    progress events and log lines. *)
Theorem run_emits_one_outcome annDir imgDir s :
  ∃ s' body ok msg,
    run annDir imgDir s = (Ok tt, s')
    ∧ emitted s' = (emitted s ++ body ++ [processingFinished ok msg])%list
    ∧ Forall (λ g, is_finished g = false) body.
Proof.
  destruct (build_pairs annDir imgDir (reset s)) as [[[pairs total]|e] s1] eqn:Hb.
  - rewrite (run_built _ _ _ _ _ _ Hb), process_pairs_eq. cbv zeta.
    apply build_pairs_Ok_inv in Hb as (_ & _ & _ & _ & Hem).
    destruct (for_pairs_emits annDir imgDir total pairs 1 s1) as (b & E & F).
    exists (emitting (processingFinished
                        (length (errorList (for_pairs annDir imgDir total 1 pairs s1).2)
                         =? 0)%nat
                        (summary (length pairs)
                           (errorList (for_pairs annDir imgDir total 1 pairs s1).2)))
              (for_pairs annDir imgDir total 1 pairs s1).2),
      ([progressUpdated 0 total;
        logOutput ("共找到 " ++ pretty (length pairs) ++ " 对文件")] ++ b)%list.
    eexists _, _. split; [done|]. st_simpl. rewrite E, Hem. cbn [emitted reset].
    split; [by rewrite <- !app_assoc|].
    apply Forall_app. split; [by repeat constructor|done].
  - rewrite (run_aborted _ _ _ _ _ Hb).
    apply build_pairs_Raise_inv in Hb as (_ & Hem & _).
    eexists _, [], _, _. split; [done|]. st_simpl. rewrite Hem.
    by split.
Qed.

(** X4: when both directories exist and neither holds a candidate, the run
    succeeds on zero pairs: it reports [(0, 0)], finds 0 pairs, ends with the
    flag true and leaves the file system as it was. *)
Theorem run_on_no_candidates annDir imgDir s ea ei :
  fs s !! annDir = Some ea → fs s !! imgDir = Some ei →
  annList_of ea = [] → imgList_of ei = [] →
  ∃ s', run annDir imgDir s = (Ok tt, s')
    ∧ fs s' = fs s
    ∧ emitted s' = (emitted s ++
        [ progressUpdated 0 0; logOutput "共找到 0 对文件";
          processingFinished true "文件统一转换完成，共处理 0 对文件" ])%list
    ∧ syscalls s' = (syscalls s ++ [SysIsdir annDir; SysIsdir imgDir;
                                    SysListdir annDir; SysListdir imgDir])%list.
Proof.
  intros Ha Hi Hal Hil.
  pose proof (build_pairs_exist annDir imgDir (reset s) ea ei Ha Hi) as Hb.
  cbv zeta in Hb. rewrite Hal, Hil in Hb. cbn [length Nat.eqb zip_with] in Hb.
  rewrite (run_built _ _ _ _ _ _ Hb), process_pairs_eq. cbv zeta.
  eexists. split; [done|]. cbn. rewrite <- !app_assoc. done.
Qed.

Lemma run_on_no_candidates_witness :
  let annDir := "ann" in
  let imgDir := "img" in
  let s := initial fs_no_candidates in
  let ea : gmap string node :=
    {[ "readme.md" := jpeg_bytes; "a.xml.bak" := jpeg_bytes ]} in
  let ei : gmap string node :=
    {[ "notes.txt" := jpeg_bytes; ".jpg" := jpeg_bytes ]} in
  fs s !! annDir = Some ea ∧ fs s !! imgDir = Some ei
  ∧ annList_of ea = [] ∧ imgList_of ei = []
  ∧ ∃ s', run annDir imgDir s = (Ok tt, s')
    ∧ fs s' = fs s
    ∧ emitted s' = (emitted s ++
        [ progressUpdated 0 0; logOutput "共找到 0 对文件";
          processingFinished true "文件统一转换完成，共处理 0 对文件" ])%list
    ∧ syscalls s' = (syscalls s ++ [SysIsdir annDir; SysIsdir imgDir;
                                    SysListdir annDir; SysListdir imgDir])%list.
Proof.
  pose (ea := ({[ "readme.md" := jpeg_bytes; "a.xml.bak" := jpeg_bytes ]}
               : gmap string node)).
  pose (ei := ({[ "notes.txt" := jpeg_bytes; ".jpg" := jpeg_bytes ]}
               : gmap string node)).
  assert (fs (initial fs_no_candidates) !! "ann" = Some ea) as Ha
    by (vm_compute; reflexivity).
  assert (fs (initial fs_no_candidates) !! "img" = Some ei) as Hi
    by (vm_compute; reflexivity).
  assert (annList_of ea = []) as Hal by (vm_compute; reflexivity).
  assert (imgList_of ei = []) as Hil by (vm_compute; reflexivity).
  split; [exact Ha|]. split; [exact Hi|]. split; [exact Hal|].
  split; [exact Hil|].
  exact (run_on_no_candidates "ann" "img" (initial fs_no_candidates) ea ei
           Ha Hi Hal Hil).
Defined.

(** ** What a run leaves alone *)

Lemma put_entry_other_dir p n f d : d ≠ p.1 → put_entry p n f !! d = f !! d.
Proof. intros H. unfold put_entry. by rewrite lookup_alter_ne. Qed.

Lemma del_entry_other_dir p f d : d ≠ p.1 → del_entry p f !! d = f !! d.
Proof. intros H. unfold del_entry. by rewrite lookup_alter_ne. Qed.

(** A directory whose entries and whose existence are the same is the same. *)
Lemma dir_ext (f f' : gmap string (gmap string node)) d :
  (is_Some (f' !! d) ↔ is_Some (f !! d)) →
  (∀ n, entry f' (d, n) = entry f (d, n)) →
  f' !! d = f !! d.
Proof.
  unfold entry. cbn [fst snd]. intros Hd He.
  destruct (f !! d) as [es|] eqn:E, (f' !! d) as [es'|] eqn:E'.
  - f_equal. apply map_eq. intros n. apply He.
  - destruct Hd as [_ Hd]. destruct Hd; [eauto|done].
  - destruct Hd as [Hd _]. destruct Hd; [eauto|done].
  - done.
Qed.

Lemma parse_patch_write_frame annDir imgDir idx annFile img_ext s :
  let s1 := (parse_patch_write annDir imgDir idx annFile img_ext s).2 in
  (∀ q, q ≠ (annDir, annFile) → entry (fs s1) q = entry (fs s) q)
  ∧ (∀ d, is_Some (fs s1 !! d) ↔ is_Some (fs s !! d)).
Proof.
  cbv zeta. unfold parse_patch_write, ET_parse, ET_write. py_simpl.
  destruct (entry (fs s) (annDir, annFile)) as [[[root|err]|]|]; try done.
  cbn [fs called fst snd].
  destruct (fs s !! annDir) as [es|]; [|done].
  destruct (es !! annFile) as [[]|]; try done; cbn [fs set_fs snd]; split.
  all: try (intros q Hq; by apply entry_put_ne).
  all: intros d; apply dir_put.
Qed.

Lemma replace_by_rename_frame src dst s :
  src.1 = dst.1 →
  let s1 := (replace_by_rename src dst s).2 in
  (∀ q, q ≠ src → q ≠ dst → entry (fs s1) q = entry (fs s) q)
  ∧ (∀ d, is_Some (fs s1 !! d) ↔ is_Some (fs s !! d)).
Proof.
  intros Hd. cbv zeta. rewrite replace_by_rename_cases by done.
  destruct (entry (fs s) dst) as [[c|]|].
  - destruct (entry (del_entry dst (fs s)) src); cbn [snd fs after]; split.
    + intros q H1 H2. by rewrite entry_put_ne, !entry_del_ne.
    + intros d. by rewrite dir_put, !dir_del.
    + intros q H1 H2. by rewrite entry_del_ne.
    + intros d. by rewrite dir_del.
  - done.
  - destruct (entry (fs s) src); cbn [snd fs after]; split; try done.
    + intros q H1 H2. by rewrite entry_put_ne, entry_del_ne.
    + intros d. by rewrite dir_put, dir_del.
Qed.

Lemma attempt_fs m totalSteps line report s :
  fs (attempt m totalSteps line report s).2 = fs (m s).2.
Proof. rewrite attempt_cases. by destruct (m s) as [[[]|e] s1]. Qed.

Lemma process_pair_frame annDir imgDir totalSteps idx annFile imgFile s :
  let s' := (process_pair annDir imgDir totalSteps idx annFile imgFile s).2 in
  (∀ q, q ∉ touched annDir imgDir idx annFile imgFile →
        entry (fs s') q = entry (fs s) q)
  ∧ (∀ d, is_Some (fs s' !! d) ↔ is_Some (fs s !! d)).
Proof.
  cbv zeta. rewrite process_pair_cases. cbv zeta.
  destruct (parse_patch_write_frame annDir imgDir idx annFile
              (Str.lower (os_path.splitext imgFile).2) s) as [P1 D1].
  destruct (parse_patch_write _ _ _ _ _ s) as [[[]|e] s1]; cbn [snd] in *.
  - rewrite attempt_fs.
    set (s1' := advanced _ _ s1).
    set (s2 := (attempt _ _ _ _ s1').2).
    destruct (replace_by_rename_frame (imgDir, imgFile)
                (imgDir, pretty idx ++ Str.lower (os_path.splitext imgFile).2)
                s2 eq_refl) as [P3 D3].
    destruct (replace_by_rename_frame (annDir, annFile)
                (annDir, pretty idx ++ ".xml") s1' eq_refl) as [P2 D2].
    assert (fs s2 = fs (replace_by_rename (annDir, annFile)
                          (annDir, pretty idx ++ ".xml") s1').2) as E2
      by apply attempt_fs.
    split.
    + intros q Hq. unfold touched in Hq.
      rewrite !not_elem_of_cons in Hq. destruct Hq as (H1 & H2 & H3 & H4 & _).
      rewrite P3, E2, P2 by done. unfold s1'. st_simpl. by apply P1.
    + intros d. rewrite D3, E2, D2. unfold s1'. st_simpl. apply D1.
  - st_simpl. split.
    + intros q Hq. unfold touched in Hq.
      rewrite !not_elem_of_cons in Hq. destruct Hq as (H1 & _). by apply P1.
    + done.
Qed.

Lemma for_pairs_frame annDir imgDir totalSteps pairs idx s :
  let s' := (for_pairs annDir imgDir totalSteps idx pairs s).2 in
  (∀ q, (∀ i a b, pairs !! i = Some (a, b) →
                  q ∉ touched annDir imgDir (idx + i) a b) →
        entry (fs s') q = entry (fs s) q)
  ∧ (∀ d, is_Some (fs s' !! d) ↔ is_Some (fs s !! d)).
Proof.
  revert idx s. induction pairs as [|[a b] rest IH]; intros idx s; cbv zeta.
  - done.
  - rewrite for_pairs_cons.
    destruct (process_pair_frame annDir imgDir totalSteps idx a b s) as [P1 D1].
    destruct (IH (S idx) (process_pair annDir imgDir totalSteps idx a b s).2)
      as [P2 D2].
    split.
    + intros q Hq. rewrite P2.
      * apply P1. specialize (Hq 0 a b eq_refl). by rewrite Nat.add_0_r in Hq.
      * intros i a' b' Hi. specialize (Hq (S i) a' b' Hi).
        by replace (S idx + i) with (idx + S i) by lia.
    + intros d. by rewrite D2, D1.
Qed.

Lemma run_fs annDir imgDir s :
  fs (run annDir imgDir s).2 = fs s
  ∨ ∃ pairs totalSteps s1,
      build_pairs annDir imgDir (reset s) = (Ok (pairs, totalSteps), s1)
      ∧ fs s1 = fs s
      ∧ fs (run annDir imgDir s).2
        = fs (for_pairs annDir imgDir totalSteps 1 pairs s1).2.
Proof.
  destruct (build_pairs annDir imgDir (reset s)) as [[[pairs total]|e] s1] eqn:Hb.
  - right. exists pairs, total, s1. split; [done|].
    rewrite (run_built _ _ _ _ _ _ Hb), process_pairs_eq.
    apply build_pairs_Ok_inv in Hb as (_ & Hf & _). done.
  - left. rewrite (run_aborted _ _ _ _ _ Hb).
    apply build_pairs_Raise_inv in Hb as (Hf & _). done.
Qed.

Lemma fs_2_2_no_image_dir b :
  entry (fs (initial fs_2_2)) ("img", b) ≠ Some Dir.
Proof.
  unfold entry, initial, fs_2_2, two_dirs. cbn [fs fst snd].
  rewrite lookup_insert_ne by done. rewrite lookup_insert_eq. cbn.
  intros H.
  repeat (apply lookup_insert_Some in H as [[_ H]|[_ H]]; [discriminate|]).
  apply lookup_singleton_Some in H as [_ H]. discriminate.
Qed.

(** Sub-directories stay where they are.  The patch step writes over a
    file, and a rename whose source is not a sub-directory removes and moves
    files only. *)
Lemma parse_patch_write_dirs annDir imgDir idx annFile img_ext s q :
  entry (fs (parse_patch_write annDir imgDir idx annFile img_ext s).2) q
  = Some Dir
  ↔ entry (fs s) q = Some Dir.
Proof.
  unfold parse_patch_write, ET_parse, ET_write. py_simpl.
  destruct (entry (fs s) (annDir, annFile)) as [[[root|err]|]|] eqn:He;
    try done.
  cbn [fs called fst snd].
  pose proof He as He'. unfold entry in He'. cbn [fst snd] in He'.
  destruct (fs s !! annDir) as [es|] eqn:Hd; [|done]. cbn in He'.
  rewrite He'. cbn [fs set_fs snd].
  destruct (decide (q = (annDir, annFile))) as [->|Hq].
  - rewrite entry_put_eq by (cbn; by rewrite Hd). by rewrite He.
  - by rewrite entry_put_ne.
Qed.

Lemma parse_patch_write_written annDir imgDir idx annFile img_ext s s1 :
  parse_patch_write annDir imgDir idx annFile img_ext s = (Ok tt, s1) →
  ∃ r, entry (fs s1) (annDir, annFile) = Some (File (Xml r)).
Proof.
  unfold parse_patch_write, ET_parse, ET_write. py_simpl.
  destruct (entry (fs s) (annDir, annFile)) as [[[root|err]|]|] eqn:He;
    try done.
  cbn [fs called fst snd].
  pose proof He as He'. unfold entry in He'. cbn [fst snd] in He'.
  destruct (fs s !! annDir) as [es|] eqn:Hd; [|done]. cbn in He'.
  rewrite He'. intros [= <-]. cbn [fs set_fs].
  eexists. apply entry_put_eq. cbn. by rewrite Hd.
Qed.

Lemma replace_by_rename_dirs src dst s q :
  src.1 = dst.1 → entry (fs s) src ≠ Some Dir →
  entry (fs (replace_by_rename src dst s).2) q = Some Dir
  ↔ entry (fs s) q = Some Dir.
Proof.
  intros Hd Hsrc. rewrite replace_by_rename_cases by done.
  destruct (entry (fs s) dst) as [[c|]|] eqn:Hdst; [| done |].
  - destruct (entry (del_entry dst (fs s)) src) as [n|] eqn:Hn;
      cbn [snd fs after].
    + assert (src ≠ dst) as Hne by (intros ->; by rewrite entry_del_eq in Hn).
      rewrite entry_del_ne in Hn by done.
      destruct (decide (q = dst)) as [->|Hq1].
      { rewrite entry_put_eq by (rewrite !dir_del; by apply entry_dir in Hdst).
        rewrite Hdst. split; [|done]. intros [= ->]. by rewrite Hn in Hsrc. }
      rewrite entry_put_ne by done.
      destruct (decide (q = src)) as [->|Hq2].
      { rewrite entry_del_eq, Hn. split; [done|]. intros [= ->].
        by rewrite Hn in Hsrc. }
      by rewrite !entry_del_ne.
    + destruct (decide (q = dst)) as [->|Hq1].
      { by rewrite entry_del_eq, Hdst. }
      by rewrite entry_del_ne.
  - destruct (entry (fs s) src) as [n|] eqn:Hn; cbn [snd fs after]; [|done].
    assert (src ≠ dst) as Hne by congruence.
    destruct (decide (q = dst)) as [->|Hq1].
    { rewrite entry_put_eq
        by (rewrite dir_del, <- Hd; by apply entry_dir in Hn).
      rewrite Hdst. split; [|done]. intros [= ->]. done. }
    rewrite entry_put_ne by done.
    destruct (decide (q = src)) as [->|Hq2].
    { rewrite entry_del_eq, Hn. split; [done|]. intros [= ->]. done. }
    by rewrite entry_del_ne.
Qed.

Lemma process_pair_dirs annDir imgDir totalSteps idx annFile imgFile s q :
  entry (fs s) (imgDir, imgFile) ≠ Some Dir →
  entry (fs (process_pair annDir imgDir totalSteps idx annFile imgFile s).2) q
  = Some Dir
  ↔ entry (fs s) q = Some Dir.
Proof.
  intros Himg. rewrite process_pair_cases. cbv zeta.
  pose proof (parse_patch_write_dirs annDir imgDir idx annFile
                (Str.lower (os_path.splitext imgFile).2) s) as D1.
  pose proof (parse_patch_write_written annDir imgDir idx annFile
                (Str.lower (os_path.splitext imgFile).2) s) as W1.
  destruct (parse_patch_write _ _ _ _ _ s) as [[[]|e] s1]; cbn [snd] in *.
  - destruct (W1 s1 eq_refl) as [r Hr].
    rewrite attempt_fs.
    set (s1' := advanced _ _ s1).
    set (s2 := (attempt _ _ _ _ s1').2).
    assert (fs s2 = fs (replace_by_rename (annDir, annFile)
                          (annDir, pretty idx ++ ".xml") s1').2) as E2
      by apply attempt_fs.
    assert (∀ q', entry (fs s2) q' = Some Dir ↔ entry (fs s) q' = Some Dir)
      as D2.
    { intros q'. rewrite E2, replace_by_rename_dirs; [apply D1|done|].
      unfold s1'. st_simpl. by rewrite Hr. }
    rewrite replace_by_rename_dirs; [apply D2|done|].
    by rewrite D2.
  - st_simpl. apply D1.
Qed.

Lemma for_pairs_dirs annDir imgDir totalSteps pairs idx s :
  (∀ i a b, pairs !! i = Some (a, b) →
            entry (fs s) (imgDir, b) ≠ Some Dir) →
  ∀ q, entry (fs (for_pairs annDir imgDir totalSteps idx pairs s).2) q
       = Some Dir
       ↔ entry (fs s) q = Some Dir.
Proof.
  revert idx s. induction pairs as [|[a b] rest IH]; intros idx s Hp q;
    [done|].
  rewrite for_pairs_cons.
  assert (∀ q', entry (fs (process_pair annDir imgDir totalSteps idx a b s).2)
                  q' = Some Dir
                ↔ entry (fs s) q' = Some Dir) as D1.
  { intros q'. apply process_pair_dirs. apply (Hp 0 a b eq_refl). }
  rewrite IH; [apply D1|].
  intros i a' b' Hi. rewrite D1. apply (Hp (S i) a' b' Hi).
Qed.

(** X5: a run in whose image directory no entry that passes the image filter
    is a sub-directory changes nothing but the files of its pairs and what
    bears their new names: an entry that is, for every pair, neither one of
    its two files nor one of its two new names is after the run what it was
    before. *)
Theorem run_leaves_other_entries annDir imgDir s ea ei q :
  fs s !! annDir = Some ea → fs s !! imgDir = Some ei →
  (∀ b, is_img b = true → entry (fs s) (imgDir, b) ≠ Some Dir) →
  (∀ i a b, annList_of ea !! i = Some a → imgList_of ei !! i = Some b →
            q ∉ touched annDir imgDir (S i) a b) →
  entry (fs (run annDir imgDir s).2) q = entry (fs s) q.
Proof.
  intros Ha Hi _ Hq.
  destruct (run_fs annDir imgDir s) as [->|(pairs & total & s1 & Hb & Hf & ->)];
    [done|].
  rewrite (build_pairs_exist annDir imgDir (reset s) ea ei Ha Hi) in Hb.
  cbv zeta in Hb. destruct (_ =? _)%nat; [|done]. injection Hb as <- _ _.
  destruct (for_pairs_frame annDir imgDir total
              (zip (annList_of ea) (imgList_of ei)) 1 s1) as [P _].
  rewrite P, Hf; [done|].
  intros i a b Hz. rewrite lookup_zip_with in Hz.
  destruct (annList_of ea !! i) as [a'|] eqn:E1; [|done].
  destruct (imgList_of ei !! i) as [b'|] eqn:E2; [|done].
  cbn in Hz. injection Hz as -> ->. by apply Hq.
Qed.

Lemma build_pairs_images annDir imgDir s pairs totalSteps s1 i a b :
  build_pairs annDir imgDir s = (Ok (pairs, totalSteps), s1) →
  pairs !! i = Some (a, b) → is_ann a = true ∧ is_img b = true.
Proof.
  destruct (fs s !! annDir) as [ea|] eqn:Ha;
    [destruct (fs s !! imgDir) as [ei|] eqn:Hi|].
  - rewrite (build_pairs_exist annDir imgDir s ea ei Ha Hi).
    destruct (_ =? _)%nat; [|done]. intros [= <- _ _].
    destruct (annList_of_spec ea) as (_ & HA & _).
    destruct (imgList_of_spec ei) as (_ & HI & _).
    intros (x & y & [= -> ->] & Hx & Hy)%lookup_zip_with_Some.
    apply list_elem_of_lookup_2, HA in Hx as [_ Hx].
    apply list_elem_of_lookup_2, HI in Hy as [_ Hy]. done.
  - unfold build_pairs, os_path_isdir. py_simpl. rewrite Ha.
    rewrite bool_decide_eq_true_2 by eauto. py_simpl. rewrite Hi.
    rewrite bool_decide_eq_false_2 by (by intros [? ?]). by py_simpl.
  - unfold build_pairs, os_path_isdir. py_simpl. rewrite Ha.
    rewrite bool_decide_eq_false_2 by (by intros [? ?]). by py_simpl.
Qed.

(** X6: a run in whose image directory no entry that passes the image filter
    is a sub-directory neither creates nor removes a directory, leaves a
    directory other than the two it is given as it was, and moves no
    sub-directory: the entries that are sub-directories after the run are
    those that were before. *)
Theorem run_keeps_directories annDir imgDir s d :
  (∀ b, is_img b = true → entry (fs s) (imgDir, b) ≠ Some Dir) →
  let s' := (run annDir imgDir s).2 in
  (is_Some (fs s' !! d) ↔ is_Some (fs s !! d))
  ∧ (d ≠ annDir → d ≠ imgDir → fs s' !! d = fs s !! d)
  ∧ (∀ q, entry (fs s') q = Some Dir ↔ entry (fs s) q = Some Dir).
Proof.
  intros Hno. cbv zeta.
  destruct (run_fs annDir imgDir s) as [->|(pairs & total & s1 & Hb & Hf & ->)];
    [done|].
  destruct (for_pairs_frame annDir imgDir total pairs 1 s1) as [P D].
  rewrite <- Hf. split_and!; [apply D| |].
  - intros H1 H2. apply dir_ext; [apply D|].
    intros n. apply P. intros i a b _. unfold touched.
    rewrite !not_elem_of_cons. split_and!; try congruence. apply not_elem_of_nil.
  - apply for_pairs_dirs. intros i a b Hi. rewrite Hf. apply Hno.
    by destruct (build_pairs_images _ _ _ _ _ _ _ _ _ Hb Hi).
Qed.

Lemma run_leaves_other_entries_witness :
  let annDir := "ann" in
  let imgDir := "img" in
  let s := initial fs_2_2 in
  let ea : gmap string node :=
    {[ "b.XML" := File (Xml (ET.mkElement "annotation" [] None None []));
       "a.xml" := File (Xml (voc "x.jpeg" "/old/x.jpeg"));
       "readme.md" := jpeg_bytes ]} in
  let ei : gmap string node :=
    {[ "q.png" := jpeg_bytes; "photo.JPG" := jpeg_bytes;
       "notes.txt" := jpeg_bytes ]} in
  let q := ("img", "notes.txt") in
  fs s !! annDir = Some ea ∧ fs s !! imgDir = Some ei
  ∧ (∀ b, is_img b = true → entry (fs s) (imgDir, b) ≠ Some Dir)
  ∧ (∀ i a b, annList_of ea !! i = Some a → imgList_of ei !! i = Some b →
              q ∉ touched annDir imgDir (S i) a b)
  ∧ entry (fs (run annDir imgDir s).2) q = entry (fs s) q.
Proof.
  pose (ea := ({[ "b.XML" := File (Xml (ET.mkElement "annotation" [] None None []));
                  "a.xml" := File (Xml (voc "x.jpeg" "/old/x.jpeg"));
                  "readme.md" := jpeg_bytes ]} : gmap string node)).
  pose (ei := ({[ "q.png" := jpeg_bytes; "photo.JPG" := jpeg_bytes;
                  "notes.txt" := jpeg_bytes ]} : gmap string node)).
  assert (fs (initial fs_2_2) !! "ann" = Some ea) as Ha
    by (vm_compute; reflexivity).
  assert (fs (initial fs_2_2) !! "img" = Some ei) as Hi
    by (vm_compute; reflexivity).
  assert (∀ b, is_img b = true →
               entry (fs (initial fs_2_2)) ("img", b) ≠ Some Dir) as Hno
    by (intros b _; apply fs_2_2_no_image_dir).
  assert (∀ i a b, annList_of ea !! i = Some a → imgList_of ei !! i = Some b →
                   ("img", "notes.txt") ∉ touched "ann" "img" (S i) a b) as Hq.
  { intros i a b H1 H2.
    destruct i as [|[|i]]; vm_compute in H1, H2; try discriminate;
      injection H1 as <-; injection H2 as <-; unfold touched;
      rewrite !not_elem_of_cons; split_and!;
      try (vm_compute; discriminate); apply not_elem_of_nil. }
  split; [exact Ha|]. split; [exact Hi|]. split; [exact Hno|].
  split; [exact Hq|].
  exact (run_leaves_other_entries "ann" "img" (initial fs_2_2) ea ei
           ("img", "notes.txt") Ha Hi Hno Hq).
Defined.

Lemma run_keeps_directories_witness :
  let annDir := "ann" in
  let imgDir := "img" in
  let s := initial fs_2_2 in
  let d := "img" in
  let s' := (run annDir imgDir s).2 in
  (∀ b, is_img b = true → entry (fs s) (imgDir, b) ≠ Some Dir)
  ∧ (is_Some (fs s' !! d) ↔ is_Some (fs s !! d))
  ∧ (d ≠ annDir → d ≠ imgDir → fs s' !! d = fs s !! d)
  ∧ (∀ q, entry (fs s') q = Some Dir ↔ entry (fs s) q = Some Dir).
Proof.
  assert (∀ b, is_img b = true →
               entry (fs (initial fs_2_2)) ("img", b) ≠ Some Dir) as Hno
    by (intros b _; apply fs_2_2_no_image_dir).
  split; [exact Hno|].
  exact (run_keeps_directories "ann" "img" (initial fs_2_2) "img" Hno).
Defined.

(** ** The two renames *)

Lemma replace_by_rename_Ok_iff src dst s :
  src.1 = dst.1 →
  (∃ s', replace_by_rename src dst s = (Ok tt, s')) ↔ movable (fs s) src dst.
Proof.
  intros Hd. unfold movable. rewrite replace_by_rename_cases by done. split.
  - intros [s' H].
    destruct (entry (fs s) dst) as [[c|]|] eqn:Hdst; [| done |].
    + destruct (entry (del_entry dst (fs s)) src) as [n|] eqn:Hsrc; [|done].
      assert (src ≠ dst) as Hne by (intros ->; by rewrite entry_del_eq in Hsrc).
      rewrite entry_del_ne in Hsrc by done. split_and!; [by eauto|done|done].
    + destruct (entry (fs s) src) as [n|] eqn:Hsrc; [|done].
      split_and!; [by eauto| congruence |done].
  - intros ([n Hsrc] & Hne & Hdst).
    destruct (entry (fs s) dst) as [[c|]|]; [| done |].
    + rewrite entry_del_ne, Hsrc by done. eauto.
    + rewrite Hsrc. eauto.
Qed.

Lemma then_advance_Ok_iff m totalSteps line s :
  (∃ s', then_advance m totalSteps line s = (Ok tt, s'))
  ↔ (∃ s1, m s = (Ok tt, s1)).
Proof.
  unfold then_advance. destruct (m s) as [[[]|e] s1]; split;
    intros [? ?]; simplify_eq; eauto.
Qed.

(** X7: each rename sub-step succeeds exactly when the file to rename is
    there, does not already bear its new name, and the new name is not that
    of a sub-directory; in every other case it raises. *)
Theorem rename_steps_succeed_iff annDir imgDir totalSteps idx annFile imgFile
    img_ext s :
  ((∃ s', rename_annotation annDir totalSteps idx annFile s = (Ok tt, s'))
   ↔ movable (fs s) (annDir, annFile) (annDir, pretty idx ++ ".xml"))
  ∧ ((∃ s', rename_image imgDir totalSteps idx imgFile img_ext s = (Ok tt, s'))
     ↔ movable (fs s) (imgDir, imgFile) (imgDir, pretty idx ++ img_ext)).
Proof.
  split.
  - setoid_rewrite rename_annotation_eq. rewrite then_advance_Ok_iff.
    by apply replace_by_rename_Ok_iff.
  - setoid_rewrite rename_image_eq. rewrite then_advance_Ok_iff.
    by apply replace_by_rename_Ok_iff.
Qed.

(** X8: when the metadata rename of the pair at index [idx] succeeds, the
    annotation file is afterwards under [idx.xml] and no longer under its old
    name, whatever file bore the new name before is gone, every other entry
    is as it was, and the step has emitted one progress event and its log
    line. *)
Theorem annotation_renamed annDir totalSteps idx annFile s s' :
  rename_annotation annDir totalSteps idx annFile s = (Ok tt, s') →
  ∃ n, entry (fs s) (annDir, annFile) = Some n
       ∧ entry (fs s') (annDir, pretty idx ++ ".xml") = Some n
       ∧ entry (fs s') (annDir, annFile) = None
       ∧ (∀ q, q ≠ (annDir, annFile) → q ≠ (annDir, pretty idx ++ ".xml") →
               entry (fs s') q = entry (fs s) q)
       ∧ currentProgress s' = currentProgress s + 1
       ∧ emitted s' = (emitted s ++
           [ progressUpdated (currentProgress s + 1) totalSteps;
             logOutput ("重命名标签文件为：" ++ pretty idx ++ ".xml") ])%list
       ∧ errorList s' = errorList s.
Proof.
  rewrite rename_annotation_eq. intros (s1 & H & ->)%then_advance_Ok.
  pose proof (replace_by_rename_locals (annDir, annFile)
                (annDir, pretty idx ++ ".xml") s eq_refl) as (L1 & L2 & L3).
  rewrite H in L1, L2, L3. cbn [snd] in *.
  apply replace_by_rename_Ok in H as (Hne & n & H1 & H2 & H3 & H4); [|done].
  exists n. st_simpl. rewrite L1, L3. split_and!; try done.
  by rewrite <- app_assoc.
Qed.

Lemma annotation_renamed_witness :
  let annDir := "ann" in
  let totalSteps := 3 in
  let idx := 1 in
  let annFile := "scan.xml" in
  let s := initial fs_taken in
  let s' := (rename_annotation annDir totalSteps idx annFile s).2 in
  rename_annotation annDir totalSteps idx annFile s = (Ok tt, s')
  ∧ entry (fs s) (annDir, "1.xml")
    = Some (File (Xml (voc "other.png" "/old/other.png")))
  ∧ ∃ n, entry (fs s) (annDir, annFile) = Some n
       ∧ entry (fs s') (annDir, pretty idx ++ ".xml") = Some n
       ∧ entry (fs s') (annDir, annFile) = None
       ∧ (∀ q, q ≠ (annDir, annFile) → q ≠ (annDir, pretty idx ++ ".xml") →
               entry (fs s') q = entry (fs s) q)
       ∧ currentProgress s' = currentProgress s + 1
       ∧ emitted s' = (emitted s ++
           [ progressUpdated (currentProgress s + 1) totalSteps;
             logOutput ("重命名标签文件为：" ++ pretty idx ++ ".xml") ])%list
       ∧ errorList s' = errorList s.
Proof.
  assert (rename_annotation "ann" 3 1 "scan.xml" (initial fs_taken)
          = (Ok tt, (rename_annotation "ann" 3 1 "scan.xml" (initial fs_taken)).2))
    as H by (vm_compute; reflexivity).
  split; [exact H|]. split; [vm_compute; reflexivity|].
  exact (annotation_renamed "ann" 3 1 "scan.xml" (initial fs_taken) _ H).
Defined.

(** X9: when a sub-directory bears the new name, the rename sub-step
    raises [IsADirectoryError] after its existence test and its removal
    attempt, and leaves the file system as it was: the file keeps its old
    name. *)
Theorem rename_onto_directory annDir imgDir totalSteps idx annFile imgFile
    img_ext s :
  let newAnnPath := (annDir, pretty idx ++ ".xml") in
  let newImgPath := (imgDir, pretty idx ++ img_ext) in
  (entry (fs s) newAnnPath = Some Dir →
   ∃ s', rename_annotation annDir totalSteps idx annFile s
         = (Raise (EISDIR newAnnPath), s')
         ∧ fs s' = fs s
         ∧ syscalls s' = (syscalls s ++ [SysExists newAnnPath;
                                         SysRemove newAnnPath])%list)
  ∧ (entry (fs s) newImgPath = Some Dir →
     ∃ s', rename_image imgDir totalSteps idx imgFile img_ext s
           = (Raise (EISDIR newImgPath), s')
           ∧ fs s' = fs s
           ∧ syscalls s' = (syscalls s ++ [SysExists newImgPath;
                                           SysRemove newImgPath])%list).
Proof.
  cbv zeta. split; intros H.
  - rewrite rename_annotation_eq. unfold then_advance.
    rewrite replace_by_rename_cases, H by done. eauto.
  - rewrite rename_image_eq. unfold then_advance.
    rewrite replace_by_rename_cases, H by done. eauto.
Qed.

(** X10: when the image of the pair at index [idx] already bears its new
    name, the image rename removes it and then fails to rename it: the
    sub-step raises [FileNotFoundError] and the image is gone. *)
Theorem image_rename_onto_itself imgDir totalSteps idx img_ext s c :
  let imgPath := (imgDir, pretty idx ++ img_ext) in
  entry (fs s) imgPath = Some (File c) →
  ∃ s', rename_image imgDir totalSteps idx (pretty idx ++ img_ext) img_ext s
        = (Raise (ENOENT2 imgPath imgPath), s')
        ∧ entry (fs s') imgPath = None
        ∧ (∀ q, q ≠ imgPath → entry (fs s') q = entry (fs s) q)
        ∧ same_locals s s'.
Proof.
  cbv zeta. intros He. rewrite rename_image_eq. unfold then_advance.
  rewrite replace_by_rename_cases by done. rewrite He, entry_del_eq.
  eexists. split; [done|]. cbn [fs after]. split_and!.
  - apply entry_del_eq.
  - intros q Hq. by apply entry_del_ne.
  - done.
Qed.

Lemma image_rename_onto_itself_witness :
  let imgDir := "img" in
  let totalSteps := 3 in
  let idx := 1 in
  let img_ext := ".jpg" in
  let s := initial fs_normalized_1 in
  let c := NotXml "syntax error: line 1, column 0" in
  let imgPath := (imgDir, pretty idx ++ img_ext) in
  entry (fs s) imgPath = Some (File c)
  ∧ ∃ s', rename_image imgDir totalSteps idx (pretty idx ++ img_ext) img_ext s
        = (Raise (ENOENT2 imgPath imgPath), s')
        ∧ entry (fs s') imgPath = None
        ∧ (∀ q, q ≠ imgPath → entry (fs s') q = entry (fs s) q)
        ∧ same_locals s s'.
Proof.
  assert (entry (fs (initial fs_normalized_1)) ("img", pretty 1 ++ ".jpg")
          = Some (File (NotXml "syntax error: line 1, column 0"))) as H
    by (vm_compute; reflexivity).
  split; [exact H|].
  exact (image_rename_onto_itself "img" 3 1 ".jpg" (initial fs_normalized_1) _ H).
Defined.

Lemma rename_onto_directory_witness :
  let annDir := "ann" in
  let imgDir := "img" in
  let totalSteps := 3 in
  let idx := 1 in
  let annFile := "scan.xml" in
  let imgFile := "scan.png" in
  let img_ext := ".png" in
  let s := initial fs_blocked in
  let newAnnPath := (annDir, pretty idx ++ ".xml") in
  let newImgPath := (imgDir, pretty idx ++ img_ext) in
  entry (fs s) newAnnPath = Some Dir ∧ entry (fs s) newImgPath = Some Dir
  ∧ (∃ s', rename_annotation annDir totalSteps idx annFile s
           = (Raise (EISDIR newAnnPath), s')
           ∧ fs s' = fs s
           ∧ syscalls s' = (syscalls s ++ [SysExists newAnnPath;
                                           SysRemove newAnnPath])%list)
  ∧ (∃ s', rename_image imgDir totalSteps idx imgFile img_ext s
           = (Raise (EISDIR newImgPath), s')
           ∧ fs s' = fs s
           ∧ syscalls s' = (syscalls s ++ [SysExists newImgPath;
                                           SysRemove newImgPath])%list).
Proof.
  assert (entry (fs (initial fs_blocked)) ("ann", pretty 1 ++ ".xml") = Some Dir)
    as Ha by (vm_compute; reflexivity).
  assert (entry (fs (initial fs_blocked)) ("img", pretty 1 ++ ".png") = Some Dir)
    as Hi by (vm_compute; reflexivity).
  split; [exact Ha|]. split; [exact Hi|].
  split.
  - exact (proj1 (rename_onto_directory "ann" "img" 3 1 "scan.xml" "scan.png"
                    ".png" (initial fs_blocked)) Ha).
  - exact (proj2 (rename_onto_directory "ann" "img" 3 1 "scan.xml" "scan.png"
                    ".png" (initial fs_blocked)) Hi).
Defined.

(** ** A whole pair *)






(** ** Errors and progress of a whole run *)

Lemma patch_errors_cons x l :
  patch_errors (x :: l) = (if is_patch_error x then 1 else 0) + patch_errors l.
Proof.
  unfold patch_errors. rewrite filter_cons.
  destruct (is_patch_error x); by case_decide.
Qed.

Lemma not_patch_error_ann annFile e :
  is_patch_error ("重命名标签 " ++ annFile ++ " 时出错：" ++ str e) = false.
Proof. reflexivity. Qed.

Lemma not_patch_error_img imgFile e :
  is_patch_error ("重命名图片 " ++ imgFile ++ " 时出错：" ++ str e) = false.
Proof. reflexivity. Qed.

Lemma process_pair_error_bound annDir imgDir totalSteps idx annFile imgFile s :
  ∃ more,
    errorList (process_pair annDir imgDir totalSteps idx annFile imgFile s).2
    = (errorList s ++ more)%list
    ∧ (length more + patch_errors more ≤ 2)%nat.
Proof.
  rewrite process_pair_cases. cbv zeta.
  pose proof (parse_patch_write_locals annDir imgDir idx annFile
                (Str.lower (os_path.splitext imgFile).2) s) as (_ & Hp & _).
  destruct (parse_patch_write _ _ _ _ _ s) as [[[]|e] s1]; cbn [snd] in *.
  - rewrite !attempt_cases.
    set (s1' := advanced _ _ s1).
    pose proof (replace_by_rename_locals (annDir, annFile)
                  (annDir, pretty idx ++ ".xml") s1' eq_refl) as (_ & H2 & _).
    destruct (replace_by_rename _ _ s1') as [[[]|e2] s2]; cbn [snd] in *.
    all: match goal with
         | |- context [replace_by_rename ?a ?b ?st] =>
             pose proof (replace_by_rename_locals a b st eq_refl) as (_ & H3 & _);
             destruct (replace_by_rename a b st) as [[[]|e3] s3]
         end; cbn [snd] in *; st_simpl; rewrite ?H3; st_simpl;
      rewrite ?H2; unfold s1'; st_simpl; rewrite Hp.
    + exists []. split; [by rewrite app_nil_r|]. cbn. lia.
    + eexists [_]. split; [done|].
      rewrite patch_errors_cons, not_patch_error_img. cbn. lia.
    + eexists [_]. split; [done|].
      rewrite patch_errors_cons, not_patch_error_ann. cbn. lia.
    + eexists [_; _]. split; [by rewrite <- app_assoc|].
      rewrite !patch_errors_cons, not_patch_error_img, not_patch_error_ann.
      cbn. lia.
  - st_simpl. rewrite Hp. eexists [_]. split; [done|].
    rewrite patch_errors_cons. unfold is_patch_error.
    rewrite startswith_app. cbn. lia.
Qed.

Lemma for_pairs_error_bound annDir imgDir totalSteps pairs idx s :
  ∃ more,
    errorList (for_pairs annDir imgDir totalSteps idx pairs s).2
    = (errorList s ++ more)%list
    ∧ (length more + patch_errors more ≤ 2 * length pairs)%nat.
Proof.
  revert idx s. induction pairs as [|[a i] rest IH]; intros idx s.
  - exists []. split; [by rewrite app_nil_r|]. cbn. lia.
  - rewrite for_pairs_cons.
    destruct (process_pair_error_bound annDir imgDir totalSteps idx a i s)
      as (m1 & E1 & B1).
    destruct (IH (S idx) (process_pair annDir imgDir totalSteps idx a i s).2)
      as (m2 & E2 & B2).
    exists (m1 ++ m2)%list. split; [by rewrite E2, E1, app_assoc|].
    rewrite length_app, patch_errors_app. cbn [length]. lia.
Qed.

(** X12: in a run that reaches the pairing stage with [N] pairs, the
    outcome flag is true exactly when the last progress event is
    [(3 * N, 3 * N)], that is when progress is complete; and at most [2 * N]
    errors are recorded, two for a pair at most. *)
Theorem success_iff_progress_complete annDir imgDir s pairs totalSteps s1 :
  build_pairs annDir imgDir (reset s) = (Ok (pairs, totalSteps), s1) →
  let N := length pairs in
  let sf := (run annDir imgDir s).2 in
  ∃ ok msg,
    last (emitted sf) = Some (processingFinished ok msg)
    ∧ (ok = true ↔ last (progress_events (emitted sf)) = Some (3 * N, 3 * N))
    ∧ (ok = true ↔ errorList sf = [])
    ∧ (length (errorList sf) ≤ 2 * N)%nat.
Proof.
  intros Hb. cbv zeta. rewrite (run_built _ _ _ _ _ _ Hb), process_pairs_eq.
  cbv zeta. cbn [snd]. st_simpl.
  apply build_pairs_Ok_inv in Hb as (-> & _ & He & Hc & Hem).
  assert (counting (progress_events (emitted (reset s))) (3 * length pairs) s1)
    as C0.
  { unfold counting. by rewrite Hem, Hc, progress_events_app. }
  assert (weight s1 = 0) as W0.
  { unfold weight. rewrite He, Hc. reflexivity. }
  destruct (for_pairs_counting annDir imgDir (3 * length pairs) _ pairs 1 s1 C0)
    as (C & W & _).
  destruct (for_pairs_error_bound annDir imgDir (3 * length pairs) pairs 1 s1)
    as (more & E & B).
  set (s2 := (for_pairs _ _ _ _ _ s1).2) in *.
  rewrite He in E. cbn [reset errorList app] in E.
  unfold weight in W. fold (weight s1) in W. rewrite W0 in W.
  eexists _, _. split; [by rewrite last_snoc|].
  rewrite progress_events_app, C. cbn [progress_events omap list_omap].
  rewrite app_nil_r, seq_S, fmap_app, app_assoc. cbn [fmap list_fmap].
  rewrite last_snoc, E. cbn [Nat.add].
  split_and!.
  - rewrite Nat.eqb_eq. split.
    + intros H0. destruct more; [|done]. rewrite E in W. cbn in W.
      do 2 f_equal. lia.
    + intros [= H0]. rewrite E in W. destruct more as [|x more]; [done|].
      cbn [length] in W. lia.
  - rewrite Nat.eqb_eq. by destruct more.
  - lia.
Qed.

Lemma success_iff_progress_complete_witness :
  let annDir := "ann" in
  let imgDir := "img" in
  let s := initial fs_2_2 in
  let pairs := pairs_2_2 in
  let N := length pairs in
  let sf := (run annDir imgDir s).2 in
  build_pairs annDir imgDir (reset s)
  = (Ok (pairs, 6), (build_pairs annDir imgDir (reset s)).2)
  ∧ ∃ ok msg,
    last (emitted sf) = Some (processingFinished ok msg)
    ∧ (ok = true ↔ last (progress_events (emitted sf)) = Some (3 * N, 3 * N))
    ∧ (ok = true ↔ errorList sf = [])
    ∧ (length (errorList sf) ≤ 2 * N)%nat.
Proof.
  assert (build_pairs "ann" "img" (reset (initial fs_2_2))
          = (Ok (pairs_2_2, 6),
             (build_pairs "ann" "img" (reset (initial fs_2_2))).2)) as H
    by (vm_compute; reflexivity).
  split; [exact H|].
  exact (success_iff_progress_complete "ann" "img" (initial fs_2_2)
           pairs_2_2 6 _ H).
Defined.

(** ** The filters and [splitext] *)

Lemma lower_char_idem c : Str.lower_char (Str.lower_char c) = Str.lower_char c.
Proof. destruct c as [[] [] [] [] [] [] [] []]; reflexivity. Qed.

Lemma lower_idem s : Str.lower (Str.lower s) = Str.lower s.
Proof.
  induction s as [|c s IH]; [done|]. cbn [Str.lower].
  by rewrite lower_char_idem, IH.
Qed.

Lemma lower_char_eqb_dot c :
  Ascii.eqb (Str.lower_char c) "." = Ascii.eqb c ".".
Proof. destruct c as [[] [] [] [] [] [] [] []]; reflexivity. Qed.

Lemma lower_char_eqb_slash c :
  Ascii.eqb (Str.lower_char c) "/" = Ascii.eqb c "/".
Proof. destruct c as [[] [] [] [] [] [] [] []]; reflexivity. Qed.

Lemma lower_length s : String.length (Str.lower s) = String.length s.
Proof. induction s as [|c s IH]; [done|]. cbn. by rewrite IH. Qed.

Lemma lower_get i s :
  String.get i (Str.lower s) = Str.lower_char <$> String.get i s.
Proof.
  revert i. induction s as [|c s IH]; intros i; [done|].
  destruct i as [|i]; cbn; [done|]. apply IH.
Qed.

Lemma lower_substring n m s :
  String.substring n m (Str.lower s) = Str.lower (String.substring n m s).
Proof.
  revert n m. induction s as [|c s IH]; intros n m.
  - by destruct n, m.
  - destruct n as [|n]; cbn [Str.lower String.substring].
    + destruct m as [|m]; [done|]. cbn [Str.lower]. by rewrite IH.
    + apply IH.
Qed.

Lemma lower_rfind_from i c s :
  (∀ d, Ascii.eqb (Str.lower_char d) c = Ascii.eqb d c) →
  Str.rfind_from i c (Str.lower s) = Str.rfind_from i c s.
Proof.
  intros Hc. revert i. induction s as [|d s IH]; intros i; [done|].
  cbn [Str.lower Str.rfind_from]. by rewrite IH, Hc.
Qed.

Lemma lower_nondot_before p i n :
  os_path.nondot_before (Str.lower p) i n = os_path.nondot_before p i n.
Proof.
  revert i. induction n as [|n IH]; intros i; [done|].
  cbn [os_path.nondot_before]. rewrite lower_get.
  destruct (String.get i p) as [c|]; cbn; [|done].
  by rewrite lower_char_eqb_dot, IH.
Qed.

Lemma splitext_lower p :
  os_path.splitext (Str.lower p)
  = (Str.lower (os_path.splitext p).1, Str.lower (os_path.splitext p).2).
Proof.
  unfold os_path.splitext, Str.rfind, Str.slice_to, Str.slice_from.
  rewrite !lower_rfind_from
    by (apply lower_char_eqb_dot || apply lower_char_eqb_slash).
  rewrite lower_nondot_before, lower_length, !lower_substring.
  destruct (_ <? _)%Z; [|done]. by destruct (os_path.nondot_before _ _ _).
Qed.

Lemma is_ann_lower f : is_ann (Str.lower f) = is_ann f.
Proof. unfold is_ann. by rewrite lower_idem. Qed.

Lemma is_img_lower f : is_img (Str.lower f) = is_img f.
Proof. unfold is_img. rewrite splitext_lower. cbn [snd]. by rewrite lower_idem. Qed.

(** X13: the two filters look at a name up to letter case only: two names
    that are equal once lower-cased are both candidates or both not, in
    either directory. *)
Theorem filters_ignore_case f g :
  Str.lower f = Str.lower g → is_ann f = is_ann g ∧ is_img f = is_img g.
Proof.
  intros H. split.
  - by rewrite <- (is_ann_lower f), <- (is_ann_lower g), H.
  - by rewrite <- (is_img_lower f), <- (is_img_lower g), H.
Qed.

Lemma filters_ignore_case_witness :
  let f := "Scan.Tar.JPEG" in
  let g := "sCAN.tAR.jpeg" in
  Str.lower f = Str.lower g ∧ is_ann f = is_ann g ∧ is_img f = is_img g.
Proof.
  assert (Str.lower "Scan.Tar.JPEG" = Str.lower "sCAN.tAR.jpeg") as H
    by reflexivity.
  split; [exact H|].
  exact (filters_ignore_case "Scan.Tar.JPEG" "sCAN.tAR.jpeg" H).
Defined.

(** ** Strings, continued *)

Lemma app_cons (c : ascii) (a b : string) : String c a ++ b = String c (a ++ b).
Proof. reflexivity. Qed.

Lemma app_nil_l (b : string) : "" ++ b = b.
Proof. reflexivity. Qed.

Lemma length_append (a b : string) :
  String.length (a ++ b) = String.length a + String.length b.
Proof.
  induction a as [|c a IH]; [done|]. rewrite app_cons. cbn. by rewrite IH.
Qed.

Lemma lower_app (a b : string) :
  Str.lower (a ++ b) = Str.lower a ++ Str.lower b.
Proof.
  induction a as [|c a IH]; [done|].
  rewrite app_cons. cbn [Str.lower]. by rewrite app_cons, IH.
Qed.

Lemma substring_all s : String.substring 0 (String.length s) s = s.
Proof. induction s as [|c s IH]; [done|]. cbn. by rewrite IH. Qed.

Lemma substring_app_head (a b : string) :
  String.substring 0 (String.length a) (a ++ b) = a.
Proof.
  induction a as [|c a IH].
  - rewrite app_nil_l. by destruct b.
  - rewrite app_cons. cbn. by rewrite IH.
Qed.

Lemma substring_app_tail (a b : string) n m :
  String.substring (String.length a + n) m (a ++ b) = String.substring n m b.
Proof.
  induction a as [|c a IH]; [done|]. rewrite app_cons. cbn. apply IH.
Qed.

Lemma substring_split s i :
  (i ≤ String.length s)%nat →
  String.substring 0 i s ++ String.substring i (String.length s - i) s = s.
Proof.
  revert i. induction s as [|c s IH]; intros i Hi.
  - by destruct i.
  - destruct i as [|i].
    + cbn [String.substring]. rewrite app_nil_l. cbn. by rewrite substring_all.
    + cbn [String.substring String.length Nat.sub]. rewrite app_cons.
      f_equal. apply IH. cbn in Hi. lia.
Qed.

Lemma endswith_app (x t suffix : string) :
  (String.length suffix ≤ String.length t)%nat →
  Str.endswith (x ++ t) suffix = Str.endswith t suffix.
Proof.
  intros Hle. unfold Str.endswith. rewrite length_append.
  replace (String.length x + String.length t - String.length suffix)
    with (String.length x + (String.length t - String.length suffix)) by lia.
  rewrite substring_app_tail.
  destruct (Nat.leb_spec (String.length suffix) (String.length t)); [|lia].
  by destruct (Nat.leb_spec (String.length suffix)
                 (String.length x + String.length t)); [|lia].
Qed.

Lemma endswith_refl s : Str.endswith s s = true.
Proof.
  unfold Str.endswith. rewrite Nat.leb_refl, Nat.sub_diag, substring_all.
  apply String.eqb_refl.
Qed.

Lemma endswith_elim s suffix :
  Str.endswith s suffix = true → ∃ x, s = x ++ suffix.
Proof.
  unfold Str.endswith. intros [Hle Heq]%andb_prop.
  apply Nat.leb_le in Hle. apply String.eqb_eq in Heq.
  exists (String.substring 0 (String.length s - String.length suffix) s).
  pose proof (substring_split s (String.length s - String.length suffix)) as H.
  replace (String.length s - (String.length s - String.length suffix))
    with (String.length suffix) in H by lia.
  rewrite Heq in H. symmetry. apply H. lia.
Qed.

Lemma rfind_from_bound i c s :
  (Str.rfind_from i c s < Z.of_nat (i + String.length s))%Z
  ∧ (Str.rfind_from i c s = -1 ∨ Z.of_nat i ≤ Str.rfind_from i c s)%Z.
Proof.
  revert i. induction s as [|d s IH]; intros i.
  - cbn. lia.
  - cbn [Str.rfind_from String.length]. destruct (IH (S i)) as [H1 H2].
    destruct (Z.leb_spec 0 (Str.rfind_from (S i) c s)); [lia|].
    destruct (Ascii.eqb d c); lia.
Qed.

Lemma splitext_concat p : (os_path.splitext p).1 ++ (os_path.splitext p).2 = p.
Proof.
  unfold os_path.splitext, Str.slice_to, Str.slice_from.
  destruct (Z.ltb_spec (Str.rfind p "/") (Str.rfind p ".")) as [Hlt|];
    [|apply append_nil_r].
  destruct (os_path.nondot_before _ _ _); [|apply append_nil_r].
  cbn [fst snd]. apply substring_split.
  destruct (rfind_from_bound 0 "." p) as [H _]. unfold Str.rfind in *. lia.
Qed.

Lemma is_ann_iff_suffix_intro stem : is_ann (stem ++ ".xml") = true.
Proof. unfold is_ann. by rewrite lower_app, endswith_app. Qed.

(** X14: the annotation filter is a suffix test up to letter case: a name
    is an annotation candidate exactly when it ends with [.xml] written in
    any letter case, whatever, if anything, comes before. *)
Theorem is_ann_iff_suffix f :
  is_ann f = true ↔ ∃ stem ext, f = stem ++ ext ∧ Str.lower ext = ".xml".
Proof.
  split.
  - unfold is_ann, Str.endswith. rewrite lower_length, lower_substring.
    intros [Hle Heq]%andb_prop.
    apply Nat.leb_le in Hle. apply String.eqb_eq in Heq. cbn in Hle.
    exists (String.substring 0 (String.length f - 4) f),
      (String.substring (String.length f - 4) 4 f).
    split; [|exact Heq].
    pose proof (substring_split f (String.length f - 4)) as H.
    replace (String.length f - (String.length f - 4)) with 4 in H by lia.
    symmetry. apply H. lia.
  - intros (stem & ext & -> & He). unfold is_ann.
    rewrite lower_app, He, endswith_app by done. reflexivity.
Qed.

(** X15: no name is a candidate of both kinds: a name that passes the
    annotation filter fails the image filter, so one directory given for
    both roles yields two disjoint lists. *)
Theorem filters_disjoint f : is_ann f = true → is_img f = false.
Proof.
  intros Ha. destruct (is_img f) eqn:Hi; [exfalso|done].
  unfold is_img in Hi. apply bool_decide_eq_true_1 in Hi.
  unfold is_ann in Ha. rewrite <- (splitext_concat f), lower_app in Ha.
  unfold allowedImgExts in Hi.
  rewrite !elem_of_union, !elem_of_singleton in Hi.
  destruct Hi as [[Hi|Hi]|Hi]; rewrite Hi in Ha;
    rewrite endswith_app in Ha by (cbn; lia); discriminate.
Qed.

Lemma filters_disjoint_witness :
  is_ann "scan.jpg.XML" = true ∧ is_img "scan.jpg.XML" = false.
Proof.
  assert (is_ann "scan.jpg.XML" = true) as H by reflexivity.
  split; [exact H|]. exact (filters_disjoint "scan.jpg.XML" H).
Defined.

(** X16: an image candidate is a stem followed by its extension, the part
    [splitext] splits off, and that extension is [.jpg], [.jpeg] or [.png]
    written in some letter case: four or five characters. *)
Theorem image_candidate_decomposed f :
  is_img f = true →
  let stem := (os_path.splitext f).1 in
  let ext := (os_path.splitext f).2 in
  f = stem ++ ext
  ∧ Str.lower ext ∈ allowedImgExts
  ∧ (String.length ext = 4 ∨ String.length ext = 5).
Proof.
  intros Hi. cbv zeta. unfold is_img in Hi. apply bool_decide_eq_true_1 in Hi.
  split_and!.
  - symmetry. apply splitext_concat.
  - done.
  - rewrite <- lower_length. unfold allowedImgExts in Hi.
    rewrite !elem_of_union, !elem_of_singleton in Hi.
    destruct Hi as [[->| ->]| ->]; cbn; auto.
Qed.

Lemma image_candidate_decomposed_witness :
  let f := "holiday.2024.JpEg" in
  let stem := (os_path.splitext f).1 in
  let ext := (os_path.splitext f).2 in
  is_img f = true
  ∧ f = stem ++ ext
  ∧ Str.lower ext ∈ allowedImgExts
  ∧ (String.length ext = 4 ∨ String.length ext = 5).
Proof.
  assert (is_img "holiday.2024.JpEg" = true) as H by (vm_compute; reflexivity).
  split; [exact H|]. exact (image_candidate_decomposed "holiday.2024.JpEg" H).
Defined.

(** ** Names that are already numbers *)

Lemma all_chars_app P (a b : string) :
  all_chars P (a ++ b) = all_chars P a && all_chars P b.
Proof.
  induction a as [|c a IH]; [done|]. rewrite app_cons. cbn.
  by rewrite IH, andb_assoc.
Qed.

Lemma all_chars_impl (P Q : ascii → bool) s :
  (∀ c, P c = true → Q c = true) →
  all_chars P s = true → all_chars Q s = true.
Proof.
  intros H. induction s as [|c s IH]; [done|]. cbn.
  intros [?%H ?%IH]%andb_prop. by apply andb_true_intro.
Qed.

Lemma digit_plain c : digit_char c = true → plain_char c = true.
Proof. destruct c as [[] [] [] [] [] [] [] []]; by vm_compute. Qed.

Lemma digit_lower c : digit_char c = true → Str.lower_char c = c.
Proof. destruct c as [[] [] [] [] [] [] [] []]; by vm_compute. Qed.

Lemma pretty_N_char_digit x : digit_char (pretty_N_char x) = true.
Proof. unfold pretty_N_char. by repeat case_match. Qed.

Lemma pretty_N_go_digits x s :
  ∃ pre, pretty_N_go x s = pre ++ s
         ∧ all_chars digit_char pre = true
         ∧ ((0 < x)%N → pre ≠ "").
Proof.
  revert s. induction (N.lt_wf_0 x) as [x _ IH]; intros s.
  assert (x = 0 ∨ 0 < x)%N as [->|Hx] by lia.
  - exists "". rewrite pretty_N_go_0. split_and!; [done|done|lia].
  - rewrite pretty_N_go_step by done.
    destruct (IH (x `div` 10)%N) with
      (s := String (pretty_N_char (x `mod` 10)) s) as (pre & -> & Hd & _).
    { by apply N.div_lt. }
    exists (pre ++ String (pretty_N_char (x `mod` 10)) ""). split_and!.
    + by rewrite append_assoc.
    + rewrite all_chars_app, Hd. cbn. by rewrite pretty_N_char_digit.
    + intros _. by destruct pre.
Qed.

Lemma pretty_nat_digits (n : nat) :
  all_chars digit_char (pretty n) = true ∧ pretty n ≠ "".
Proof.
  unfold pretty, pretty_nat, pretty, pretty_N.
  case_decide as H0; [done|].
  destruct (pretty_N_go_digits (N.of_nat n) "") as (pre & -> & Hd & Hne).
  rewrite append_nil_r. split; [done|]. apply Hne. lia.
Qed.

Lemma rfind_from_none i c s :
  all_chars (λ d, negb (Ascii.eqb d c)) s = true → Str.rfind_from i c s = (-1)%Z.
Proof.
  revert i. induction s as [|d s IH]; intros i; [done|]. cbn.
  intros [Hd Hs]%andb_prop. rewrite (IH _ Hs). cbn.
  by apply negb_true_iff in Hd as ->.
Qed.

Lemma rfind_from_last i c (a e : string) :
  all_chars (λ d, negb (Ascii.eqb d c)) e = true →
  Str.rfind_from i c (a ++ String c e) = Z.of_nat (i + String.length a).
Proof.
  intros He. revert i. induction a as [|d a IH]; intros i.
  - rewrite app_nil_l. cbn [Str.rfind_from]. rewrite (rfind_from_none _ _ _ He).
    cbn. rewrite Ascii.eqb_refl. f_equal. lia.
  - rewrite app_cons. cbn [Str.rfind_from String.length]. rewrite IH.
    destruct (Z.leb_spec 0 (Z.of_nat (S i + String.length a))); lia.
Qed.

(** [splitext] on a name whose stem has neither dot nor slash. *)
Lemma splitext_plain (stem e : string) :
  all_chars plain_char stem = true → stem ≠ "" →
  all_chars plain_char e = true →
  os_path.splitext (stem ++ String "." e) = (stem, String "." e).
Proof.
  intros Hs Hne He. unfold os_path.splitext, Str.rfind.
  assert (all_chars (λ d, negb (Ascii.eqb d "/")) (stem ++ String "." e) = true)
    as Hslash.
  { rewrite all_chars_app. cbn. apply andb_true_intro. split.
    - revert Hs. apply all_chars_impl. unfold plain_char.
      by intros c [_ ?]%andb_prop.
    - revert He. apply all_chars_impl. unfold plain_char.
      by intros c [_ ?]%andb_prop. }
  rewrite (rfind_from_none _ _ _ Hslash), rfind_from_last.
  2:{ revert He. apply all_chars_impl. unfold plain_char.
      by intros c [? _]%andb_prop. }
  cbn [Nat.add Z.add]. rewrite Nat2Z.id.
  destruct (Z.ltb_spec (-1) (Z.of_nat (String.length stem))); [|lia].
  change (Z.to_nat (-1 + 1)) with 0. rewrite Nat.sub_0_r.
  assert (os_path.nondot_before (stem ++ String "." e) 0 (String.length stem)
          = true) as ->.
  { destruct stem as [|d stem]; [done|]. rewrite app_cons. cbn.
    cbn in Hs. apply andb_prop in Hs as [Hd _]. unfold plain_char in Hd.
    apply andb_prop in Hd as [Hd _]. by apply negb_true_iff in Hd as ->. }
  unfold Str.slice_to, Str.slice_from. rewrite substring_app_head.
  f_equal. rewrite length_append, Nat.add_comm, Nat.add_sub.
  rewrite <- (Nat.add_0_r (String.length stem)) at 1.
  rewrite substring_app_tail. apply substring_all.
Qed.

Lemma splitext_numbered (idx : nat) ext :
  ext ∈ allowedImgExts →
  os_path.splitext (pretty idx ++ ext) = (pretty idx, ext)
  ∧ Str.lower ext = ext.
Proof.
  intros He. destruct (pretty_nat_digits idx) as [Hd Hne].
  assert (all_chars plain_char (pretty idx) = true) as Hp.
  { revert Hd. apply all_chars_impl, digit_plain. }
  unfold allowedImgExts in He.
  rewrite !elem_of_union, !elem_of_singleton in He.
  destruct He as [[->| ->]| ->]; (split; [by apply splitext_plain|done]).
Qed.

Lemma is_img_numbered (idx : nat) ext :
  ext ∈ allowedImgExts → is_img (pretty idx ++ ext) = true.
Proof.
  intros He. destruct (splitext_numbered idx ext He) as [Hs Hl].
  unfold is_img. rewrite Hs. cbn [snd]. rewrite Hl.
  by apply bool_decide_eq_true_2.
Qed.

(** X17: the names the worker gives are candidates again and their own new
    names: for every index, [idx.xml] passes the annotation filter, and for
    each of the three extensions [idx] followed by it passes the image
    filter and is split by [splitext] into [idx] and that extension, so
    that the new name computed for it at the same index is its own name. *)
Theorem numbered_names_are_candidates (idx : nat) ext :
  ext ∈ allowedImgExts →
  is_ann (pretty idx ++ ".xml") = true
  ∧ is_img (pretty idx ++ ext) = true
  ∧ os_path.splitext (pretty idx ++ ext) = (pretty idx, ext)
  ∧ pretty idx ++ Str.lower (os_path.splitext (pretty idx ++ ext)).2
    = pretty idx ++ ext.
Proof.
  intros He. destruct (splitext_numbered idx ext He) as [Hs Hl].
  split_and!.
  - apply is_ann_iff_suffix_intro.
  - by apply is_img_numbered.
  - done.
  - rewrite Hs. cbn [snd]. by rewrite Hl.
Qed.

Lemma numbered_names_are_candidates_witness :
  let idx := 12 in
  let ext := ".jpeg" in
  ext ∈ allowedImgExts
  ∧ is_ann (pretty idx ++ ".xml") = true
  ∧ is_img (pretty idx ++ ext) = true
  ∧ os_path.splitext (pretty idx ++ ext) = (pretty idx, ext)
  ∧ pretty idx ++ Str.lower (os_path.splitext (pretty idx ++ ext)).2
    = pretty idx ++ ext.
Proof.
  assert (".jpeg" ∈ allowedImgExts) as H by (unfold allowedImgExts; set_solver).
  split; [exact H|]. exact (numbered_names_are_candidates 12 ".jpeg" H).
Defined.

(** ** The record patch, again *)

Lemma find_or_create_present root t k :
  ET.find root t = Some k → find_or_create root t = (root, k).
Proof. intros H. unfold find_or_create. by rewrite H. Qed.

Lemma set_text_noop root k v e :
  ET.children root !! k = Some e → ET.text e = Some v →
  ET.set_text root k v = root.
Proof.
  intros He Ht. unfold ET.set_text. destruct root as [tg ab tx tl ch].
  cbn in *. f_equal. apply list_eq. intros j.
  destruct (decide (j = k)) as [->|Hne].
  - rewrite list_lookup_alter_eq, He. cbn. f_equal.
    destruct e as [tg' ab' tx' tl' ch']. cbn in *. by subst.
  - by rewrite list_lookup_alter_ne.
Qed.

Lemma child_text_elim root t v :
  ET.child_text root t = Some v →
  ∃ k e, ET.find root t = Some k ∧ ET.children root !! k = Some e
         ∧ ET.text e = v.
Proof.
  unfold ET.child_text. intros H.
  destruct (ET.find root t) as [k|]; [|done]. cbn in H.
  destruct (ET.children root !! k) as [e|] eqn:He; [|done]. cbn in H.
  injection H as <-. eauto.
Qed.

(** X18: patching is idempotent: patching an already patched record again,
    for the same index, extension and image directory, changes nothing. *)
Theorem patch_idempotent imgDir idx img_ext root :
  patch imgDir idx img_ext (patch imgDir idx img_ext root)
  = patch imgDir idx img_ext root.
Proof.
  destruct (patch_fields imgDir idx img_ext root) as (T1 & T2 & _).
  cbv zeta in T1, T2.
  set (r := patch imgDir idx img_ext root) in *.
  apply child_text_elim in T1 as (k1 & e1 & F1 & C1 & X1).
  apply child_text_elim in T2 as (k2 & e2 & F2 & C2 & X2).
  unfold patch at 1.
  rewrite (find_or_create_present _ _ _ F1).
  rewrite (set_text_noop _ _ _ _ C1 X1).
  rewrite (find_or_create_present _ _ _ F2).
  by rewrite (set_text_noop _ _ _ _ C2 X2).
Qed.

Lemma find_or_create_spec root t :
  ∃ r i, find_or_create root t = (r, i)
  ∧ (∀ k e, ET.children root !! k = Some e → ET.children r !! k = Some e)
  ∧ length (ET.children r)
    = length (ET.children root)
      + match ET.find root t with Some _ => 0 | None => 1 end
  ∧ (ET.find root t = Some i
     ∨ ET.find root t = None ∧ i = length (ET.children root))
  ∧ (∀ t', t' ≠ t → ET.find r t' = ET.find root t').
Proof.
  unfold find_or_create. destruct (ET.find root t) as [i|] eqn:F.
  - exists root, i. split_and!; auto with lia.
  - exists (ET.SubElement root t).1, (ET.SubElement root t).2.
    unfold ET.SubElement. cbn. split_and!; auto.
    + intros k e He. by apply lookup_app_l_Some.
    + rewrite length_app. cbn. lia.
    + intros t' Ht. unfold ET.find. cbn. rewrite find_from_app.
      destruct (ET.find_from 0 (ET.children root) t'); [done|]. cbn.
      destruct (String.eqb_spec t t'); [congruence|done].
Qed.

(** X19: the patch changes the first [filename] child and the first [path]
    child only: every other child of the root, a second [filename] or
    [path] child among them, keeps its place and is what it was; and a child
    is added only for a field that is absent. *)
Theorem patch_changes_first_fields_only imgDir idx img_ext root :
  let root' := patch imgDir idx img_ext root in
  (∀ k e, ET.children root !! k = Some e →
          ET.find root "filename" ≠ Some k → ET.find root "path" ≠ Some k →
          ET.children root' !! k = Some e)
  ∧ length (ET.children root')
    = length (ET.children root)
      + match ET.find root "filename" with Some _ => 0 | None => 1 end
      + match ET.find root "path" with Some _ => 0 | None => 1 end.
Proof.
  cbv zeta. unfold patch.
  destruct (find_or_create_spec root "filename")
    as (r1 & i1 & -> & K1 & L1 & I1 & O1).
  set (r2 := ET.set_text r1 i1 (pretty idx ++ img_ext)).
  destruct (find_or_create_spec r2 "path")
    as (r3 & i3 & -> & K3 & L3 & I3 & O3).
  assert (ET.find r2 "path" = ET.find root "path") as F2.
  { unfold r2. rewrite find_set_text. by apply O1. }
  assert (length (ET.children r2) = length (ET.children r1)) as L2.
  { unfold r2, ET.set_text. cbn. by rewrite length_alter. }
  rewrite F2 in *. split.
  - intros k e He H1 H3. pose proof (lookup_lt_Some _ _ _ He) as Hk.
    unfold ET.set_text at 1. cbn [ET.children].
    rewrite list_lookup_alter_ne.
    2:{ destruct I3 as [I3|[_ ->]]; [congruence|lia]. }
    apply K3. unfold r2, ET.set_text. cbn [ET.children].
    rewrite list_lookup_alter_ne.
    2:{ destruct I1 as [I1|[_ ->]]; [congruence|lia]. }
    by apply K1.
  - unfold ET.set_text at 1. cbn [ET.children]. rewrite length_alter. lia.
Qed.

(** ** A whole run on names that do not collide *)














(** ** The file-system calls of a run *)

Ltac each_call :=
  repeat first [apply Forall_nil_2 | apply Forall_cons_2]; auto.

Lemma parse_patch_write_calls annDir imgDir idx annFile img_ext s :
  ∃ cs, syscalls (parse_patch_write annDir imgDir idx annFile img_ext s).2
        = (syscalls s ++ cs)%list
        ∧ Forall (λ c, c = SysParse (annDir, annFile)
                       ∨ c = SysWrite (annDir, annFile)) cs.
Proof.
  unfold parse_patch_write, ET_parse, ET_write. py_simpl.
  destruct (entry (fs s) (annDir, annFile)) as [[[root|err]|]|];
    try (exists [SysParse (annDir, annFile)]; split; [done|];
         each_call).
  cbn [fs called fst snd].
  destruct (fs s !! annDir) as [es|].
  - exists [SysParse (annDir, annFile); SysWrite (annDir, annFile)].
    split; [|each_call].
    destruct (es !! annFile) as [[]|]; cbn; by rewrite <- app_assoc.
  - exists [SysParse (annDir, annFile); SysWrite (annDir, annFile)].
    split; [|each_call].
    cbn. by rewrite <- app_assoc.
Qed.

Lemma replace_by_rename_calls src dst s :
  src.1 = dst.1 →
  ∃ cs, syscalls (replace_by_rename src dst s).2 = (syscalls s ++ cs)%list
        ∧ Forall (λ c, c = SysExists dst ∨ c = SysRemove dst
                       ∨ c = SysRename src dst) cs.
Proof.
  intros Hd. rewrite replace_by_rename_cases by done.
  destruct (entry (fs s) dst) as [[c|]|];
    [destruct (entry (del_entry dst (fs s)) src)| |
     destruct (entry (fs s) src)];
    cbn [snd after syscalls]; eexists; (split; [done|]);
    each_call.
Qed.

Lemma attempt_syscalls m totalSteps line report s :
  syscalls (attempt m totalSteps line report s).2 = syscalls (m s).2.
Proof. rewrite attempt_cases. by destruct (m s) as [[[]|e] s1]. Qed.

Lemma process_pair_calls annDir imgDir totalSteps idx annFile imgFile s :
  ∃ cs, syscalls (process_pair annDir imgDir totalSteps idx annFile imgFile s).2
        = (syscalls s ++ cs)%list
        ∧ Forall (loop_call annDir imgDir idx annFile imgFile) cs.
Proof.
  rewrite process_pair_cases. cbv zeta.
  destruct (parse_patch_write_calls annDir imgDir idx annFile
              (Str.lower (os_path.splitext imgFile).2) s) as (c1 & E1 & F1).
  assert (Forall (loop_call annDir imgDir idx annFile imgFile) c1) as G1.
  { eapply Forall_impl; [exact F1|]. by intros c [-> | ->]. }
  destruct (parse_patch_write _ _ _ _ _ s) as [[[]|e] s1]; cbn [snd] in *.
  - rewrite attempt_syscalls.
    set (s1' := advanced _ _ s1).
    set (s2 := (attempt _ _ _ _ s1').2).
    destruct (replace_by_rename_calls (imgDir, imgFile)
                (imgDir, pretty idx ++ Str.lower (os_path.splitext imgFile).2)
                s2 eq_refl) as (c3 & E3 & F3).
    destruct (replace_by_rename_calls (annDir, annFile)
                (annDir, pretty idx ++ ".xml") s1' eq_refl) as (c2 & E2 & F2).
    assert (syscalls s2 = syscalls (replace_by_rename (annDir, annFile)
                                      (annDir, pretty idx ++ ".xml") s1').2)
      as E2' by apply attempt_syscalls.
    exists (c1 ++ c2 ++ c3)%list. split.
    + rewrite E3, E2', E2. unfold s1'. st_simpl. rewrite E1.
      by rewrite <- !app_assoc.
    + rewrite !Forall_app. split_and!; [done| |].
      * eapply Forall_impl; [exact F2|].
        intros c [-> | [-> | ->]]; cbn; auto.
      * eapply Forall_impl; [exact F3|].
        intros c [-> | [-> | ->]]; cbn; auto.
  - exists c1. st_simpl. done.
Qed.

Lemma for_pairs_calls annDir imgDir totalSteps pairs idx s :
  ∃ cs, syscalls (for_pairs annDir imgDir totalSteps idx pairs s).2
        = (syscalls s ++ cs)%list
        ∧ Forall (λ c, ∃ i a b, pairs !! i = Some (a, b)
                                ∧ loop_call annDir imgDir (idx + i) a b c) cs.
Proof.
  revert idx s. induction pairs as [|[a b] rest IH]; intros idx s.
  - exists []. cbn. by rewrite app_nil_r.
  - rewrite for_pairs_cons.
    destruct (process_pair_calls annDir imgDir totalSteps idx a b s)
      as (c1 & E1 & F1).
    destruct (IH (S idx) (process_pair annDir imgDir totalSteps idx a b s).2)
      as (c2 & E2 & F2).
    exists (c1 ++ c2)%list. split.
    + by rewrite E2, E1, <- app_assoc.
    + rewrite Forall_app. split.
      * eapply Forall_impl; [exact F1|]. intros c Hc.
        exists 0, a, b. by rewrite Nat.add_0_r.
      * eapply Forall_impl; [exact F2|]. intros c (i & a' & b' & Hi & Hc).
        exists (S i), a', b'. split; [done|].
        by replace (idx + S i) with (S idx + i) by lia.
Qed.

(** X21: the file-system calls of a run that reaches the pairing stage are
    the two [isdir] and the two [listdir] calls, followed by calls that each
    belong to one pair: a parse or a write of its annotation under the old
    name, an existence test or a removal of one of its two new names, or a
    rename of one of its files from the old name to the new one.  So the run
    removes nothing but new names, and lists no directory again. *)
Theorem run_calls annDir imgDir s pairs totalSteps s1 :
  build_pairs annDir imgDir (reset s) = (Ok (pairs, totalSteps), s1) →
  ∃ cs,
    syscalls (run annDir imgDir s).2
    = (syscalls s
         ++ [SysIsdir annDir; SysIsdir imgDir;
             SysListdir annDir; SysListdir imgDir] ++ cs)%list
    ∧ Forall (λ c, ∃ i a b, pairs !! i = Some (a, b)
                            ∧ loop_call annDir imgDir (S i) a b c) cs.
Proof.
  intros Hb. rewrite (run_built _ _ _ _ _ _ Hb), process_pairs_eq.
  cbv zeta. cbn [snd]. st_simpl.
  destruct (for_pairs_calls annDir imgDir totalSteps pairs 1 s1)
    as (cs & E & F).
  exists cs. split; [|exact F]. rewrite E, (app_assoc (syscalls s)). f_equal.
  destruct (fs (reset s) !! annDir) as [ea|] eqn:Ha;
    [destruct (fs (reset s) !! imgDir) as [ei|] eqn:Hi|].
  - rewrite (build_pairs_exist annDir imgDir (reset s) ea ei Ha Hi) in Hb.
    destruct (_ =? _)%nat; [|done]. revert E F Hb. intros E F [= <- <- <-].
    cbn. by rewrite <- !app_assoc.
  - unfold build_pairs, os_path_isdir in Hb. py_simpl. revert Hb. py_simpl.
    rewrite Ha. rewrite bool_decide_eq_true_2 by eauto. py_simpl. rewrite Hi.
    rewrite bool_decide_eq_false_2 by (by intros [? ?]). by py_simpl.
  - unfold build_pairs, os_path_isdir in Hb. revert Hb. py_simpl. rewrite Ha.
    rewrite bool_decide_eq_false_2 by (by intros [? ?]). by py_simpl.
Qed.

Lemma run_calls_witness :
  let annDir := "ann" in
  let imgDir := "img" in
  let s := initial fs_2_2 in
  let pairs := pairs_2_2 in
  build_pairs annDir imgDir (reset s)
  = (Ok (pairs, 6), (build_pairs annDir imgDir (reset s)).2)
  ∧ ∃ cs,
    syscalls (run annDir imgDir s).2
    = (syscalls s
         ++ [SysIsdir annDir; SysIsdir imgDir;
             SysListdir annDir; SysListdir imgDir] ++ cs)%list
    ∧ Forall (λ c, ∃ i a b, pairs !! i = Some (a, b)
                            ∧ loop_call annDir imgDir (S i) a b c) cs.
Proof.
  assert (build_pairs "ann" "img" (reset (initial fs_2_2))
          = (Ok (pairs_2_2, 6),
             (build_pairs "ann" "img" (reset (initial fs_2_2))).2)) as H
    by (vm_compute; reflexivity).
  split; [exact H|].
  exact (run_calls "ann" "img" (initial fs_2_2) pairs_2_2 6 _ H).
Defined.

(** * The image extension, as the loop body computes it *)

(** The log lines of the first two sub-steps are not that of the third. *)
Lemma not_image_log_patch x :
  Str.startswith ("更新标签文件内容：" ++ x) "重命名图片文件为：" = false.
Proof. reflexivity. Qed.

Lemma not_image_log_ann x :
  Str.startswith ("重命名标签文件为：" ++ x) "重命名图片文件为：" = false.
Proof. reflexivity. Qed.

(** An annotation candidate and an image candidate never bear the same
    name. *)
Lemma candidates_differ a b : is_ann a = true → is_img b = true → a ≠ b.
Proof.
  intros Ha Hi ->. unfold is_img in Hi. apply bool_decide_eq_true_1 in Hi.
  unfold is_ann in Ha. rewrite <- (splitext_concat b), lower_app in Ha.
  unfold allowedImgExts in Hi.
  rewrite !elem_of_union, !elem_of_singleton in Hi.
  destruct Hi as [[Hi|Hi]|Hi]; rewrite Hi in Ha;
    rewrite endswith_app in Ha by (cbn; lia); discriminate.
Qed.

(** C4: for a pair at index [idx] whose annotation file holds a well-formed
    record, whatever fields that record has, the patch step of the loop body
    succeeds and writes back to the same path a record whose [filename]
    field is [idx] followed by the lower-cased extension of the image name
    and whose [path] field is the image directory joined with that name;
    nothing else in the file system changes; and the loop body goes on from
    the state so reached with its two guarded renames. *)
Theorem patch_step_sets_fields annDir imgDir totalSteps idx annFile imgFile s root :
  entry (fs s) (annDir, annFile) = Some (File (Xml root)) →
  let img_ext := Str.lower (os_path.splitext imgFile).2 in
  ∃ s' root',
    process_pair annDir imgDir totalSteps idx annFile imgFile s
    = (try_except (rename_annotation annDir totalSteps idx annFile)
         (λ e, errorList_append
                 ("重命名标签 " ++ annFile ++ " 时出错：" ++ str e)) ;;
       try_except (rename_image imgDir totalSteps idx imgFile img_ext)
         (λ e, errorList_append
                 ("重命名图片 " ++ imgFile ++ " 时出错：" ++ str e))) s'
    ∧ update_annotation annDir imgDir totalSteps idx annFile img_ext s = (Ok tt, s')
    ∧ entry (fs s') (annDir, annFile) = Some (File (Xml root'))
    ∧ (∀ p, p ≠ (annDir, annFile) → entry (fs s') p = entry (fs s) p)
    ∧ ET.child_text root' "filename" = Some (Some (pretty idx ++ img_ext))
    ∧ ET.child_text root' "path"
      = Some (Some (os_path.join imgDir (pretty idx ++ img_ext)))
    ∧ ET.tag root' = ET.tag root
    ∧ (∀ k e, ET.children root !! k = Some e →
              ET.tag e ≠ "filename" → ET.tag e ≠ "path" →
              ET.children root' !! k = Some e)
    ∧ syscalls s' = (syscalls s ++ [SysParse (annDir, annFile);
                                    SysWrite (annDir, annFile)])%list
    ∧ emitted s' = (emitted s ++
        [ progressUpdated (currentProgress s + 1) totalSteps;
          logOutput ("更新标签文件内容：" ++ annFile) ])%list.
Proof.
  intros He img_ext.
  pose proof (update_annotation_cases annDir imgDir totalSteps idx annFile
                img_ext s) as Hu.
  cbv zeta in Hu. rewrite He in Hu.
  destruct (patch_fields imgDir idx img_ext root) as (P1 & P2 & P3 & P4).
  eexists _, _. split; [|split; [exact Hu|]].
  - unfold process_pair. py_simpl. fold img_ext. rewrite Hu. reflexivity.
  - cbn [fs advanced emitting called set_fs].
    split_and!; try done.
    + apply entry_put_eq. by apply entry_dir in He.
    + intros p Hp. by apply entry_put_ne.
    + cbn. by rewrite <- app_assoc.
    + cbn. by rewrite <- app_assoc.
Qed.

Lemma patch_step_sets_fields_witness :
  let annDir := "ann" in
  let imgDir := "img" in
  let totalSteps := 3 in
  let idx := 1 in
  let annFile := "a.xml" in
  let imgFile := "photo.JPG" in
  let s := initial fs_empty_fields in
  let root := empty_fields in
  entry (fs s) (annDir, annFile) = Some (File (Xml root))
  ∧ let img_ext := Str.lower (os_path.splitext imgFile).2 in
    ∃ s' root',
      process_pair annDir imgDir totalSteps idx annFile imgFile s
      = (try_except (rename_annotation annDir totalSteps idx annFile)
           (λ e, errorList_append
                   ("重命名标签 " ++ annFile ++ " 时出错：" ++ str e)) ;;
         try_except (rename_image imgDir totalSteps idx imgFile img_ext)
           (λ e, errorList_append
                   ("重命名图片 " ++ imgFile ++ " 时出错：" ++ str e))) s'
      ∧ update_annotation annDir imgDir totalSteps idx annFile img_ext s
        = (Ok tt, s')
      ∧ entry (fs s') (annDir, annFile) = Some (File (Xml root'))
      ∧ (∀ p, p ≠ (annDir, annFile) → entry (fs s') p = entry (fs s) p)
      ∧ ET.child_text root' "filename" = Some (Some (pretty idx ++ img_ext))
      ∧ ET.child_text root' "path"
        = Some (Some (os_path.join imgDir (pretty idx ++ img_ext)))
      ∧ ET.tag root' = ET.tag root
      ∧ (∀ k e, ET.children root !! k = Some e →
                ET.tag e ≠ "filename" → ET.tag e ≠ "path" →
                ET.children root' !! k = Some e)
      ∧ syscalls s' = (syscalls s ++ [SysParse (annDir, annFile);
                                      SysWrite (annDir, annFile)])%list
      ∧ emitted s' = (emitted s ++
          [ progressUpdated (currentProgress s + 1) totalSteps;
            logOutput ("更新标签文件内容：" ++ annFile) ])%list.
Proof.
  assert (entry (fs (initial fs_empty_fields)) ("ann", "a.xml")
          = Some (File (Xml empty_fields))) as H by (vm_compute; reflexivity).
  split; [exact H|].
  exact (patch_step_sets_fields "ann" "img" 3 1 "a.xml" "photo.JPG"
           (initial fs_empty_fields) empty_fields H).
Defined.

(** C8, as the code has it: for a pair of the run, at position [i] of the
    pair list, whose image rename succeeds in the loop body (the body then
    ends with the log line of line 99, and with no other), the image is found
    after the body under [i + 1] followed by its extension in lower case, the
    name that the log line gives, and no longer under its old name (the two
    differ); that extension is one of [.jpg], [.jpeg] and [.png]; and the
    state after the body is the one in which the rename sub-step, given the
    lower-cased extension, returns. *)
Theorem image_renamed_lowercased annDir imgDir s0 pairs totalSteps s1 i
    annFile imgFile s new line :
  build_pairs annDir imgDir s0 = (Ok (pairs, totalSteps), s1) →
  pairs !! i = Some (annFile, imgFile) →
  let idx := S i in
  let s' := (process_pair annDir imgDir totalSteps idx annFile imgFile s).2 in
  emitted s' = (emitted s ++ new)%list →
  last new = Some (logOutput line) →
  Str.startswith line "重命名图片文件为：" = true →
  let img_ext := Str.lower (os_path.splitext imgFile).2 in
  line = "重命名图片文件为：" ++ pretty idx ++ img_ext
  ∧ img_ext ∈ allowedImgExts
  ∧ imgFile ≠ pretty idx ++ img_ext
  ∧ (∃ n, entry (fs s) (imgDir, imgFile) = Some n
          ∧ entry (fs s') (imgDir, pretty idx ++ img_ext) = Some n
          ∧ entry (fs s') (imgDir, imgFile) = None)
  ∧ ∃ s2, rename_image imgDir totalSteps idx imgFile img_ext s2 = (Ok tt, s').
Proof.
  intros Hb Hi idx s' Hnew Hlast Hpre img_ext.
  destruct (build_pairs_images _ _ _ _ _ _ _ _ _ Hb Hi) as [Hann Himg].
  assert (imgFile ≠ annFile) as N1.
  { intros E. by apply (candidates_differ annFile imgFile). }
  assert (imgFile ≠ pretty idx ++ ".xml") as N2.
  { intros E. apply (candidates_differ (pretty idx ++ ".xml") imgFile);
      [apply is_ann_iff_suffix_intro|done..]. }
  subst s'. revert Hnew. rewrite process_pair_cases. cbv zeta.
  fold img_ext.
  pose proof (parse_patch_write_locals annDir imgDir idx annFile img_ext s)
    as (L1 & _ & _).
  destruct (parse_patch_write_frame annDir imgDir idx annFile img_ext s)
    as [P1 _].
  destruct (parse_patch_write annDir imgDir idx annFile img_ext s)
    as [[[]|e] t1]; cbn [snd] in *.
  2:{ st_simpl. rewrite L1. intros Hnew.
      rewrite <- (app_nil_r (emitted s)) in Hnew at 1.
      apply app_inv_head in Hnew. subst new. done. }
  set (t1' := advanced totalSteps _ t1).
  set (t2 := (attempt _ _ _ _ t1').2).
  assert (fs t2 = fs (replace_by_rename (annDir, annFile)
                        (annDir, pretty idx ++ ".xml") t1').2) as F2
    by apply attempt_fs.
  destruct (replace_by_rename_frame (annDir, annFile)
              (annDir, pretty idx ++ ".xml") t1' eq_refl) as [P2 _].
  assert (∃ x, emitted t2
               = (emitted s ++
                    [ progressUpdated (currentProgress t1 + 1) totalSteps;
                      logOutput ("更新标签文件内容：" ++ annFile) ] ++ x)%list
               ∧ (x = []
                  ∨ ∃ c, x = [ progressUpdated c totalSteps;
                               logOutput ("重命名标签文件为：" ++ pretty idx
                                            ++ ".xml") ])) as (x & E2 & Hx).
  { unfold t2. rewrite attempt_cases.
    pose proof (replace_by_rename_locals (annDir, annFile)
                  (annDir, pretty idx ++ ".xml") t1' eq_refl) as (La & _ & _).
    destruct (replace_by_rename _ _ t1') as [[[]|e2] u]; cbn [snd] in *;
      st_simpl; rewrite La; unfold t1'; st_simpl; rewrite L1.
    - eexists. split; [by rewrite <- !app_assoc|]. right. eauto.
    - exists []. split; [by rewrite <- !app_assoc|]. by left. }
  rewrite attempt_cases.
  pose proof (replace_by_rename_locals (imgDir, imgFile)
                (imgDir, pretty idx ++ img_ext) t2 eq_refl) as (L3 & _ & _).
  destruct (replace_by_rename (imgDir, imgFile)
              (imgDir, pretty idx ++ img_ext) t2) as [[[]|e3] t3] eqn:H3;
    cbn [snd] in *; st_simpl; rewrite L3, E2, <- ?app_assoc; intros Hnew;
    apply app_inv_head in Hnew; subst new.
  - pose proof H3 as H3'.
    assert (line = "重命名图片文件为：" ++ pretty idx ++ img_ext) as ->.
    { destruct Hx as [->|[c ->]]; cbn in Hlast; by injection Hlast as <-. }
    apply replace_by_rename_Ok in H3 as (Hne & n & M1 & M2 & M3 & _); [|done].
    split_and!.
    + done.
    + unfold is_img in Himg. by apply bool_decide_eq_true_1 in Himg.
    + congruence.
    + exists n. split_and!; [|done..].
      rewrite <- M1, F2, P2 by congruence.
      unfold t1'. st_simpl. symmetry. apply P1. congruence.
    + exists t2. rewrite rename_image_eq. unfold then_advance.
      by rewrite H3'.
  - exfalso.
    destruct Hx as [->|[c ->]]; cbn in Hlast; injection Hlast as <-.
    + by rewrite not_image_log_patch in Hpre.
    + by rewrite not_image_log_ann in Hpre.
Qed.

Lemma image_renamed_lowercased_witness :
  let annDir := "ann" in
  let imgDir := "img" in
  let s0 := reset (initial fs_empty_fields) in
  let pairs := [("a.xml", "photo.JPG")] in
  let totalSteps := 3 in
  let i := 0 in
  let annFile := "a.xml" in
  let imgFile := "photo.JPG" in
  let s := (build_pairs annDir imgDir s0).2 in
  let new :=
    [ progressUpdated 1 3; logOutput "更新标签文件内容：a.xml";
      progressUpdated 2 3; logOutput "重命名标签文件为：1.xml";
      progressUpdated 3 3; logOutput "重命名图片文件为：1.jpg" ] in
  let line := "重命名图片文件为：1.jpg" in
  let idx := S i in
  let s' := (process_pair annDir imgDir totalSteps idx annFile imgFile s).2 in
  let img_ext := Str.lower (os_path.splitext imgFile).2 in
  build_pairs annDir imgDir s0 = (Ok (pairs, totalSteps), s)
  ∧ pairs !! i = Some (annFile, imgFile)
  ∧ emitted s' = (emitted s ++ new)%list
  ∧ last new = Some (logOutput line)
  ∧ Str.startswith line "重命名图片文件为：" = true
  ∧ line = "重命名图片文件为：" ++ pretty idx ++ img_ext
  ∧ img_ext ∈ allowedImgExts
  ∧ imgFile ≠ pretty idx ++ img_ext
  ∧ (∃ n, entry (fs s) (imgDir, imgFile) = Some n
          ∧ entry (fs s') (imgDir, pretty idx ++ img_ext) = Some n
          ∧ entry (fs s') (imgDir, imgFile) = None)
  ∧ ∃ s2, rename_image imgDir totalSteps idx imgFile img_ext s2 = (Ok tt, s').
Proof.
  set (s := (build_pairs "ann" "img" (reset (initial fs_empty_fields))).2).
  assert (build_pairs "ann" "img" (reset (initial fs_empty_fields))
          = (Ok ([("a.xml", "photo.JPG")], 3), s)) as H1
    by (vm_compute; reflexivity).
  assert ([("a.xml", "photo.JPG")] !! 0 = Some ("a.xml", "photo.JPG")) as H2
    by reflexivity.
  assert (emitted (process_pair "ann" "img" 3 1 "a.xml" "photo.JPG" s).2
          = (emitted s ++
               [ progressUpdated 1 3; logOutput "更新标签文件内容：a.xml";
                 progressUpdated 2 3; logOutput "重命名标签文件为：1.xml";
                 progressUpdated 3 3; logOutput "重命名图片文件为：1.jpg" ])%list)
    as H3 by (vm_compute; reflexivity).
  assert (last [ progressUpdated 1 3; logOutput "更新标签文件内容：a.xml";
                 progressUpdated 2 3; logOutput "重命名标签文件为：1.xml";
                 progressUpdated 3 3; logOutput "重命名图片文件为：1.jpg" ]
          = Some (logOutput "重命名图片文件为：1.jpg")) as H4 by reflexivity.
  assert (Str.startswith "重命名图片文件为：1.jpg" "重命名图片文件为：" = true)
    as H5 by reflexivity.
  split; [exact H1|]. split; [exact H2|]. split; [exact H3|].
  split; [exact H4|]. split; [exact H5|].
  exact (image_renamed_lowercased "ann" "img" _ _ 3 s 0 "a.xml" "photo.JPG"
           s _ _ H1 H2 H3 H4 H5).
Defined.
